(** * Session state machine of the Tunisian Legal Assistant front-end (ui.py)

    A shallow embedding of the Streamlit script [ui.py]: the session state,
    the three API helpers ([send_query], [submit_feedback], [get_reflection]),
    the widget handlers (chat input, clear button, feedback section) and the
    script that runs them top to bottom on every interaction.

    Conventions of the embedding.
    - A Python [str] is a list of Unicode code points ([pystr]); the keys of
      dictionaries are Rocq strings (the UTF-8 bytes of the key), since the
      script only ever looks keys up by ASCII literals.
    - A value decoded from JSON is a [json]; a number, an integer of any
      size or a finite float, is carried as the rational it denotes, which
      is enough for truthiness, for equality of keys and for telling when an
      integer is too large to convert to a float.  The non-finite floats
      that Python's decoder also accepts are not represented.
    - Python exceptions are an explicit outcome of a state-passing monad [M];
      session state mutated before an exception stays mutated.
    - The HTTP service is an oracle [api]: the reply to the k-th request of
      the session is [api k request].
    - Streamlit display calls (markdown, caption, columns, expander, spinner,
      chat_message, metric) are taken not to raise and leave no trace; the
      warning, error and success boxes are logged as [notice]s. *)

From Stdlib Require Import List String Ascii ZArith NArith QArith Bool Lia.
Import ListNotations.
Set Warnings "-register-all".
Close Scope Q_scope.
Open Scope string_scope.
Open Scope list_scope.

(** ** Python values *)

(** A Python [str]: its code points. *)
Definition pystr := list N.

Inductive json : Type :=
| JNull
| JBool (b : bool)
| JNum (q : Q)
| JStr (s : pystr)
| JArr (items : list json)
| JObj (fields : list (string * json)).

(** A Python [dict] with string keys, in insertion order. *)
Definition dict := list (string * json).

(** [bool(v)]: None, False, 0, the empty string, the empty list and the
    empty dictionary are falsy. *)
Definition truthy (v : json) : bool :=
  match v with
  | JNull => false
  | JBool b => b
  | JNum q => negb (Qeq_bool q 0%Q)
  | JStr s => match s with [] => false | _ => true end
  | JArr l => match l with [] => false | _ => true end
  | JObj d => match d with [] => false | _ => true end
  end.

(** [d[k]] on a dictionary; [None] stands for KeyError. *)
Fixpoint dict_lookup (k : string) (d : dict) : option json :=
  match d with
  | [] => None
  | (k', v) :: d' => if String.eqb k k' then Some v else dict_lookup k d'
  end.

(** [d.get(k)] on a dictionary: the value, or Python's None. *)
Definition dict_get (k : string) (d : dict) : json :=
  match dict_lookup k d with
  | Some v => v
  | None => JNull
  end.

(** A string literal of the script as a Python [str]. *)
Fixpoint lit (s : string) : pystr :=
  match s with
  | EmptyString => []
  | String c s' => N_of_ascii c :: lit s'
  end.

(** ** Whitespace and [str.strip] *)

(** [str.isspace] on one code point. *)
Definition py_isspace (c : N) : bool :=
  ((9 <=? c) && (c <=? 13) || (28 <=? c) && (c <=? 32)
   || (c =? 133) || (c =? 160) || (c =? 5760)
   || (8192 <=? c) && (c <=? 8202)
   || (c =? 8232) || (c =? 8233) || (c =? 8239) || (c =? 8287)
   || (c =? 12288))%N.

Fixpoint lstrip (s : pystr) : pystr :=
  match s with
  | [] => []
  | c :: s' => if py_isspace c then lstrip s' else s
  end.

Definition rstrip (s : pystr) : pystr := rev (lstrip (rev s)).

(** [s.strip()]. *)
Definition strip (s : pystr) : pystr := rstrip (lstrip s).

(** ** Configuration and enumerations *)

Definition API_URL : string := "http://localhost:8000".
Definition LEGAL_FIELDS : list string := ["criminal"; "constitution"].
Definition LANGUAGES : list string := ["fr"; "en"].

Inductive FeedbackType : Type := POSITIVE | NEGATIVE | CORRECTION.

(** [feedback_type.value]. *)
Definition FeedbackType_value (t : FeedbackType) : string :=
  match t with
  | POSITIVE => "positive"
  | NEGATIVE => "negative"
  | CORRECTION => "correction"
  end.

(** ** Session state *)

Inductive role : Type := user | assistant.

(** One entry of [st.session_state.conversation].  The user turn is the
    dictionary [{"role", "content"}]; the assistant turn also has the keys
    ["sources"] and ["reflection"].  A key that is absent is [None] here; a
    key bound to Python's None is [Some JNull]. *)
Record message : Type := mkMessage {
  msg_role : role;
  msg_content : json;
  msg_sources : option json;
  msg_reflection : option json
}.

Record settings : Type := mkSettings {
  temperature : Q;
  max_tokens : Z;
  top_k : Z;
  enable_reflection : bool
}.

(** [st.session_state]; [feedback_given] is a dictionary keyed by the query
    identifier, kept as an association list in insertion order. *)
Record session_state : Type := mkSession {
  conversation : list message;
  current_query_id : json;
  feedback_given : list (json * FeedbackType);
  model_settings : settings;
  last_response : option dict
}.

(** The state that [initialize_session_state] builds on the first run. *)
Definition initial_session_state : session_state :=
  {| conversation := [];
     current_query_id := JNull;
     feedback_given := [];
     model_settings := mkSettings (7 # 10)%Q 150%Z 3%Z true;
     last_response := None |}.

(** ** Exceptions, requests and notices *)

Inductive exn : Type :=
| KeyError (k : string)
| TypeError
| AttributeError
| ValueError
| OverflowError
| IndexError
| RequestException (msg : pystr)
| JSONDecodeError
| StopException
| RerunException.

(** [except Exception] does not catch Streamlit's script-control exceptions
    (they derive from BaseException). *)
Definition is_Exception (e : exn) : bool :=
  match e with
  | StopException | RerunException => false
  | _ => true
  end.

Inductive request : Type :=
| POST (path : string) (payload : json)
| GET (path : string).

(** What the service does with a request: the transport raises, or a response
    comes back with its status code, its text and its JSON decoding ([None]
    when [response.json()] raises). *)
Inductive reply : Type :=
| Raises (msg : pystr)
| Reply (status_code : Z) (text : pystr) (body : option json).

Record response : Type := mkResponse {
  r_status_code : Z;
  r_text : pystr;
  r_json : option json
}.

(** The message boxes the script shows. *)
Inductive notice : Type :=
| ApiErrorBox (text : pystr)                (* st.error "API Error: {response.text}" *)
| ConnectionErrorBox (e : exn)              (* st.error "Connection Error: {str(e)}" *)
| FeedbackErrorBox (text : pystr)           (* st.error "Feedback Error: {response.text}" *)
| ReflectionErrorBox (text : pystr)         (* st.error "Reflection Error: {response.text}" *)
| NoActiveQueryFeedbackWarning              (* st.warning "No active query to provide feedback on" *)
| NoActiveQueryReflectWarning               (* st.warning "No active query to reflect on" *)
| FeedbackSuccessBox                        (* st.success "Feedback submitted successfully!" *)
| MeaningfulQuestionWarning                 (* st.warning "Please enter a meaningful question (at least 3 characters)" *)
| CorrectedAnswerWarning                    (* st.warning "Please provide a corrected answer" *)
| StatisticsWarning (e : exn)               (* st.warning "Couldn't load statistics: {str(e)}" *)
| ApiConnectedBox                           (* st.success "API Connected" *)
| ApiIssuesWarning                          (* st.warning "API Connection Issues" *)
| ApiOfflineBox.                            (* st.error "API Offline" *)

(** ** The monad of the script *)

Record world : Type := mkWorld {
  session : session_state;
  http_log : list request;
  notices : list notice
}.

Inductive outcome (A : Type) : Type :=
| Ret (a : A)
| Raise (e : exn).
Arguments Ret {A} a.
Arguments Raise {A} e.

Definition M (A : Type) : Type := world -> outcome A * world.

Definition ret {A} (a : A) : M A := fun w => (Ret a, w).

Definition bind {A B} (c : M A) (k : A -> M B) : M B :=
  fun w =>
    match c w with
    | (Ret a, w') => k a w'
    | (Raise e, w') => (Raise e, w')
    end.

Definition raise {A} (e : exn) : M A := fun w => (Raise e, w).

Notation "x <- c ;; k" := (bind c (fun x => k))
  (at level 61, c at next level, right associativity).
Notation "c ;;; k" := (bind c (fun _ => k))
  (at level 61, right associativity).

(** [try: body except Exception as e: handler e]. *)
Definition try_except {A} (body : M A) (handler : exn -> M A) : M A :=
  fun w =>
    match body w with
    | (Ret a, w') => (Ret a, w')
    | (Raise e, w') => if is_Exception e then handler e w' else (Raise e, w')
    end.

Definition get_session : M session_state := fun w => (Ret (session w), w).

Definition modify_session (f : session_state -> session_state) : M unit :=
  fun w => (Ret tt, mkWorld (f (session w)) (http_log w) (notices w)).

Definition show (n : notice) : M unit :=
  fun w => (Ret tt, mkWorld (session w) (http_log w) (notices w ++ [n])).

(** [if c: body]. *)
Definition when (c : bool) (body : M unit) : M unit :=
  if c then body else ret tt.

(** [for x in l: body x]. *)
Fixpoint for_each {A} (l : list A) (body : A -> M unit) : M unit :=
  match l with
  | [] => ret tt
  | x :: l' => body x ;;; for_each l' body
  end.

(** Setters of the session fields. *)
Definition set_conversation (c : list message) (s : session_state) :=
  mkSession c (current_query_id s) (feedback_given s) (model_settings s)
            (last_response s).
Definition set_current_query_id (q : json) (s : session_state) :=
  mkSession (conversation s) q (feedback_given s) (model_settings s)
            (last_response s).
Definition set_feedback_given (f : list (json * FeedbackType))
           (s : session_state) :=
  mkSession (conversation s) (current_query_id s) f (model_settings s)
            (last_response s).
Definition set_model_settings (m : settings) (s : session_state) :=
  mkSession (conversation s) (current_query_id s) (feedback_given s) m
            (last_response s).
Definition set_last_response (r : option dict) (s : session_state) :=
  mkSession (conversation s) (current_query_id s) (feedback_given s)
            (model_settings s) r.

(** ** Python operations on decoded JSON *)

(** [v[k]] for a string key [k]: KeyError on a dictionary without the key,
    TypeError on anything that is not a dictionary. *)
Definition subscript (v : json) (k : string) : M json :=
  match v with
  | JObj d =>
      match dict_lookup k d with
      | Some x => ret x
      | None => raise (KeyError k)
      end
  | _ => raise TypeError
  end.

(** [v.get(k)]: only a dictionary has the method. *)
Definition method_get (v : json) (k : string) : M json :=
  match v with
  | JObj d => ret (dict_get k d)
  | _ => raise AttributeError
  end.

(** The items a [for] loop over [v] visits: the elements of a list, the
    characters of a string, the keys of a dictionary. *)
Definition iterate (v : json) : M (list json) :=
  match v with
  | JArr l => ret l
  | JStr s => ret (map (fun c => JStr [c]) s)
  | JObj d => ret (map (fun kv => JStr (lit (fst kv))) d)
  | _ => raise TypeError
  end.

(** The least magnitude at which [float(n)] overflows for an integer [n]:
    halfway between the largest float, 2^1024 - 2^971, and 2^1024. *)
Definition FLOAT_OVERFLOW : Z := (2 ^ 1024 - 2 ^ 970)%Z.

(** The number cannot be converted to a float.  Every finite float is below
    the bound, so a number at or beyond it is an integer. *)
Definition float_overflows (q : Q) : bool :=
  Qle_bool (inject_Z FLOAT_OVERFLOW) q
  || Qle_bool q (inject_Z (- FLOAT_OVERFLOW)).
Arguments float_overflows : simpl never.

(** [f"{v:.2f}"]: a boolean, a float or an integer that converts to a float
    formats; an integer too large for a float is an OverflowError, a string
    a ValueError, anything else a TypeError. *)
Definition format_2f (v : json) : M unit :=
  match v with
  | JNum q => if float_overflows q then raise OverflowError else ret tt
  | JBool _ => ret tt
  | JStr _ => raise ValueError
  | _ => raise TypeError
  end.

(** The pairs [(i, x)] of [enumerate(l)]. *)
Fixpoint enumerate_from {A} (i : nat) (l : list A) : list (nat * A) :=
  match l with
  | [] => []
  | x :: l' => (i, x) :: enumerate_from (S i) l'
  end.

Definition enumerate {A} (l : list A) : list (nat * A) := enumerate_from 0 l.

(** ** The [feedback_given] dictionary *)

(** Lists and dictionaries are unhashable. *)
Definition hashable (v : json) : bool :=
  match v with
  | JArr _ | JObj _ => false
  | _ => true
  end.

(** Equality of two hashable keys: Python's [==], under which True, 1 and
    1.0 are one key. *)
Definition key_eqb (a b : json) : bool :=
  match a, b with
  | JNull, JNull => true
  | JBool x, JBool y => Bool.eqb x y
  | JNum x, JNum y => Qeq_bool x y
  | JBool x, JNum y => Qeq_bool (if x then 1%Q else 0%Q) y
  | JNum x, JBool y => Qeq_bool x (if y then 1%Q else 0%Q)
  | JStr x, JStr y => if list_eq_dec N.eq_dec x y then true else false
  | _, _ => false
  end.

Fixpoint fb_mem (k : json) (d : list (json * FeedbackType)) : bool :=
  match d with
  | [] => false
  | (k', _) :: d' => key_eqb k k' || fb_mem k d'
  end.

Fixpoint fb_set (k : json) (t : FeedbackType) (d : list (json * FeedbackType))
  : list (json * FeedbackType) :=
  match d with
  | [] => [(k, t)]
  | (k', t') :: d' =>
      if key_eqb k k' then (k', t) :: d' else (k', t') :: fb_set k t d'
  end.

Fixpoint fb_get (k : json) (d : list (json * FeedbackType))
  : option FeedbackType :=
  match d with
  | [] => None
  | (k', t) :: d' => if key_eqb k k' then Some t else fb_get k d'
  end.

(** [k in feedback_given]: hashing an unhashable key is a TypeError. *)
Definition fb_contains (k : json) : M bool :=
  if hashable k then
    s <- get_session ;; ret (fb_mem k (feedback_given s))
  else raise TypeError.

(** [feedback_given[k] = t]. *)
Definition fb_assign (k : json) (t : FeedbackType) : M unit :=
  if hashable k then
    modify_session (fun s => set_feedback_given (fb_set k t (feedback_given s)) s)
  else raise TypeError.

(** ** Mutation of the last turn *)

Definition role_eqb (a b : role) : bool :=
  match a, b with
  | user, user | assistant, assistant => true
  | _, _ => false
  end.

(** The list with [f] applied to its last element; [None] on the empty
    list, where [l[-1]] is an IndexError. *)
Fixpoint update_last {A} (f : A -> A) (l : list A) : option (list A) :=
  match l with
  | [] => None
  | [x] => Some [f x]
  | x :: l' =>
      match update_last f l' with
      | Some r => Some (x :: r)
      | None => None
      end
  end.

(** [conversation[-1][key] = value], as a change [f] of the last message. *)
Definition assign_last (f : message -> message) : M unit :=
  s <- get_session ;;
  match update_last f (conversation s) with
  | Some c => modify_session (set_conversation c)
  | None => raise IndexError
  end.

Definition set_content (v : json) (m : message) : message :=
  mkMessage (msg_role m) v (msg_sources m) (msg_reflection m).

Definition set_reflection (v : json) (m : message) : message :=
  mkMessage (msg_role m) (msg_content m) (msg_sources m) (Some v).

(** [st.stop()] and [st.rerun()] end the run of the script. *)
Definition st_stop {A} : M A := raise StopException.
Definition st_rerun {A} : M A := raise RerunException.

(** ** Request bodies *)

(** The [payload] of [send_query]. *)
Definition query_payload (m : settings) (query field language : pystr) : json :=
  JObj
    [("query", JStr query);
     ("field", JStr field);
     ("language", JStr language);
     ("top_k", JNum (inject_Z (top_k m)));
     ("max_tokens", JNum (inject_Z (max_tokens m)));
     ("temperature", JNum (temperature m));
     ("enable_reflection", JBool (enable_reflection m))].

(** The [payload] of [submit_feedback]. *)
Definition feedback_payload (qid : json) (feedback_type : FeedbackType)
           (correction_text comments : json) : json :=
  JObj
    [("query_id", qid);
     ("feedback_type", JStr (lit (FeedbackType_value feedback_type)));
     ("correction_text", correction_text);
     ("comments", comments)].

(** The body that [get_reflection] posts. *)
Definition reflect_payload (qid : json) : json :=
  JObj [("query_id", qid)].

(** ** The script *)

Section Script.

(** The service: the reply to the request that is the k-th of the session. *)
Variable api : nat -> request -> reply.

(** One HTTP exchange: the request is logged, the transport may raise. *)
Definition http (rq : request) : M response :=
  fun w =>
    let w' := mkWorld (session w) (http_log w ++ [rq]) (notices w) in
    match api (List.length (http_log w)) rq with
    | Raises msg => (Raise (RequestException msg), w')
    | Reply status text body => (Ret (mkResponse status text body), w')
    end.

(** [requests.post(f"{API_URL}{path}", json=payload)]. *)
Definition requests_post (path : string) (payload : json) : M response :=
  http (POST path payload).

(** [requests.get(f"{API_URL}{path}")]. *)
Definition requests_get (path : string) : M response :=
  http (GET path).

(** [response.json()]. *)
Definition response_json (r : response) : M json :=
  match r_json r with
  | Some v => ret v
  | None => raise JSONDecodeError
  end.

(** [send_query(query, field, language)]: the decoded body, or None.  The
    body is returned after [data.get] went through, so it is a dictionary. *)
Definition send_query (query field language : pystr) : M (option dict) :=
  s <- get_session ;;
  let payload := query_payload (model_settings s) query field language in
  try_except
    (response <- requests_post "/query" payload ;;
     if (r_status_code response =? 200)%Z then
       data <- response_json response ;;
       qid <- method_get data "query_id" ;;
       modify_session (set_current_query_id qid) ;;;
       match data with
       | JObj d =>
           modify_session (set_last_response (Some d)) ;;;
           ret (Some d)
       | _ => raise AttributeError
       end
     else
       show (ApiErrorBox (r_text response)) ;;;
       ret None)
    (fun e => show (ConnectionErrorBox e) ;;; ret None).

(** The guard of [submit_feedback] and [get_reflection]:
    [not session.get('last_response') or not last_response.get('query_id')]. *)
Definition no_active_query (s : session_state) : bool :=
  match last_response s with
  | None => true
  | Some d => negb (truthy (JObj d)) || negb (truthy (dict_get "query_id" d))
  end.

(** [st.session_state.last_response['query_id']]. *)
Definition last_response_query_id : M json :=
  s <- get_session ;;
  match last_response s with
  | Some d => subscript (JObj d) "query_id"
  | None => raise TypeError
  end.

(** [submit_feedback(feedback_type, correction_text, comments)]. *)
Definition submit_feedback (feedback_type : FeedbackType)
           (correction_text comments : json) : M bool :=
  s <- get_session ;;
  if no_active_query s then
    show NoActiveQueryFeedbackWarning ;;;
    ret false
  else
    qid <- last_response_query_id ;;
    let payload := feedback_payload qid feedback_type correction_text comments in
    try_except
      (response <- requests_post "/feedback" payload ;;
       if (r_status_code response =? 201)%Z then
         k <- last_response_query_id ;;
         fb_assign k feedback_type ;;;
         show FeedbackSuccessBox ;;;
         ret true
       else
         show (FeedbackErrorBox (r_text response)) ;;;
         ret false)
      (fun e => show (ConnectionErrorBox e) ;;; ret false).

(** [get_reflection()]: the decoded body, or None (here [JNull]). *)
Definition get_reflection : M json :=
  s <- get_session ;;
  if no_active_query s then
    show NoActiveQueryReflectWarning ;;;
    ret JNull
  else
    try_except
      (qid <- last_response_query_id ;;
       response <- requests_post "/reflect" (reflect_payload qid) ;;
       if (r_status_code response =? 200)%Z then
         response_json response
       else
         show (ReflectionErrorBox (r_text response)) ;;;
         ret JNull)
      (fun e => show (ConnectionErrorBox e) ;;; ret JNull).

(** [display_document(doc, index)]: what can raise while the card and its
    metadata captions are built. *)
Definition display_document (doc : json) (index : nat) : M unit :=
  score <- subscript doc "score" ;;
  format_2f score ;;;
  _ <- subscript doc "text" ;;
  metadata <- method_get doc "metadata" ;;
  if truthy metadata then
    meta <- subscript doc "metadata" ;;
    _ <- method_get meta "source" ;;
    _ <- method_get meta "page" ;;
    _ <- method_get meta "article" ;;
    ret tt
  else ret tt.

(** [for i, doc in enumerate(docs): display_document(doc, i)]. *)
Definition display_documents (docs : json) : M unit :=
  items <- iterate docs ;;
  for_each (enumerate items) (fun p => display_document (snd p) (fst p)).

(** What the widgets return in one run of the script. *)
Record widgets : Type := mkWidgets {
  w_temperature : Q;
  w_max_tokens : Z;
  w_top_k : Z;
  w_enable_reflection : bool;
  selected_field : string;
  selected_language : string;
  clear_clicked : bool;
  chat_input : option pystr;
  positive_clicked : bool;
  negative_clicked : bool;
  reflect_clicked : bool;
  correction : pystr;
  comments : pystr;
  correction_submitted : bool
}.

(** [initialize_session_state()] binds the keys that are missing.  The
    record [session_state] has every key, and a session starts from
    [initial_session_state], so on it no key is missing. *)
Definition initialize_session_state : M unit := ret tt.

(** The sidebar sliders and checkbox write [model_settings] on every run. *)
Definition sidebar_settings (w : widgets) : M unit :=
  modify_session
    (set_model_settings
       (mkSettings (w_temperature w) (w_max_tokens w) (w_top_k w)
                   (w_enable_reflection w))).

(** The body of the "Clear Conversation" button, before [st.rerun()]. *)
Definition clear_conversation : M unit :=
  modify_session (set_conversation []) ;;;
  modify_session (set_current_query_id JNull) ;;;
  modify_session (set_last_response None).

Definition clear_button (w : widgets) : M unit :=
  when (clear_clicked w) (clear_conversation ;;; st_rerun).

(** [sum(d.values())] of the statistics panel. *)
Definition sum_values (v : json) : M unit :=
  match v with
  | JObj d =>
      for_each d (fun kv =>
        match snd kv with
        | JNum _ | JBool _ => ret tt
        | _ => raise TypeError
        end)
  | _ => raise AttributeError
  end.

(** The statistics panel of the sidebar. *)
Definition sidebar_statistics : M unit :=
  try_except
    (response <- requests_get "/stats" ;;
     stats <- response_json response ;;
     _ <- subscript stats "queries_processed" ;;
     loaded <- subscript stats "documents_loaded" ;;
     sum_values loaded ;;;
     fs <- subscript stats "feedback_stats" ;;
     _ <- subscript fs "positive" ;;
     fs' <- subscript stats "feedback_stats" ;;
     _ <- subscript fs' "negative" ;;
     fs'' <- subscript stats "feedback_stats" ;;
     _ <- subscript fs'' "corrections" ;;
     ret tt)
    (fun e => show (StatisticsWarning e)).

(** One turn of the history loop. *)
Definition display_message (m : message) : M unit :=
  match msg_sources m with
  | Some docs => if truthy docs then display_documents docs else ret tt
  | None => ret tt
  end.

Definition display_history : M unit :=
  s <- get_session ;;
  for_each (conversation s) display_message.

Definition user_message (prompt : pystr) : message :=
  mkMessage user (JStr prompt) None None.

Definition append_message (m : message) : M unit :=
  modify_session (fun s => set_conversation (conversation s ++ [m]) s).

(** The chat input block: [if prompt := st.chat_input(...)]. *)
Definition chat_input_handler (w : widgets) : M unit :=
  match chat_input w with
  | None => ret tt
  | Some prompt =>
      if truthy (JStr prompt) then
        when (List.length (strip prompt) <? 3)%nat
             (show MeaningfulQuestionWarning ;;; st_stop) ;;;
        append_message (user_message prompt) ;;;
        r <- send_query prompt (lit (selected_field w))
                        (lit (selected_language w)) ;;
        match r with
        | None => ret tt
        | Some d =>
            let response := JObj d in
            if truthy response then
              _ <- subscript response "answer" ;;
              docs <- subscript response "retrieved_documents" ;;
              display_documents docs ;;;
              answer <- subscript response "answer" ;;
              sources <- subscript response "retrieved_documents" ;;
              reflection <- method_get response "reflection" ;;
              append_message
                (mkMessage assistant answer (Some sources) (Some reflection))
            else ret tt
        end
      else ret tt
  end.

(** The condition that guards the feedback section. *)
Definition feedback_gate : M bool :=
  s <- get_session ;;
  match last_response s with
  | None => ret false
  | Some d =>
      if truthy (JObj d) then
        match conversation s with
        | [] => ret false
        | m0 :: c =>
            if role_eqb (msg_role (last c m0)) assistant then
              qid <- last_response_query_id ;;
              present <- fb_contains qid ;;
              ret (negb present)
            else ret false
        end
      else ret false
  end.

(** The body of the "Reflect" button. *)
Definition reflect_button : M unit :=
  reflection <- get_reflection ;;
  if truthy reflection then
    v <- subscript reflection "reflection" ;;
    assign_last (set_reflection v) ;;;
    st_rerun
  else ret tt.

(** The body of the "Submit Correction" button of the form. *)
Definition correction_form (w : widgets) : M unit :=
  if truthy (JStr (correction w)) then
    ok <- submit_feedback CORRECTION (JStr (correction w))
                          (JStr (comments w)) ;;
    if ok then
      assign_last (set_content (JStr (correction w))) ;;;
      st_rerun
    else ret tt
  else show CorrectedAnswerWarning.

(** The feedback section under its gate. *)
Definition feedback_section (w : widgets) : M unit :=
  open <- feedback_gate ;;
  when open
    (when (positive_clicked w)
          (_ <- submit_feedback POSITIVE JNull JNull ;; ret tt) ;;;
     when (negative_clicked w)
          (_ <- submit_feedback NEGATIVE JNull JNull ;; ret tt) ;;;
     when (reflect_clicked w) reflect_button ;;;
     when (correction_submitted w) (correction_form w)).

(** The status line at the foot of the sidebar: a bare [except]. *)
Definition sidebar_status : M unit :=
  fun w =>
    match requests_get "/stats" w with
    | (Ret r, w') =>
        if (r_status_code r =? 200)%Z then show ApiConnectedBox w'
        else show ApiIssuesWarning w'
    | (Raise _, w') => show ApiOfflineBox w'
    end.

(** One run of the script, top to bottom. *)
Definition script (w : widgets) : M unit :=
  initialize_session_state ;;;
  sidebar_settings w ;;;
  clear_button w ;;;
  sidebar_statistics ;;;
  display_history ;;;
  chat_input_handler w ;;;
  feedback_section w ;;;
  sidebar_status.

End Script.

(** ** Predicates used by the statements *)

(** The scores [f"{score:.2f}"] formats: a boolean, a float, or an integer
    that converts to a float. *)
Definition formats_2f (v : json) : bool :=
  match v with
  | JNum q => negb (float_overflows q)
  | JBool _ => true
  | _ => false
  end.

(** The documents [display_document] shows without raising: a dictionary
    with a ["score"] that formats, a ["text"], and a ["metadata"] that is
    absent, falsy or a dictionary. *)
Definition displayable (doc : json) : bool :=
  match doc with
  | JObj d =>
      match dict_lookup "score" d, dict_lookup "text" d with
      | Some score, Some _ =>
          formats_2f score
          && match dict_get "metadata" d with
             | JObj _ => true
             | md => negb (truthy md)
             end
      | _, _ => false
      end
  | _ => false
  end.

(** A successful body of POST /query as the handler needs it: an ["answer"]
    and a list of displayable ["retrieved_documents"]. *)
Definition query_response (d : dict) (answer : json) (docs : list json) : Prop :=
  dict_lookup "answer" d = Some answer /\
  dict_lookup "retrieved_documents" d = Some (JArr docs) /\
  forallb displayable docs = true.

(** The adapter call fails: transport error, or a status other than [ok]. *)
Definition call_fails (ok : Z) (r : reply) : Prop :=
  match r with
  | Raises _ => True
  | Reply status _ _ => status <> ok
  end.

(** [st.chat_input] returns the non-empty text the user submitted, or None. *)
Definition submitted (w : widgets) (text : pystr) : Prop :=
  chat_input w = Some text /\ text <> [].

(** The reply the service gives to the next request of the session. *)
Definition next_reply (api : nat -> request -> reply) (w : world)
           (rq : request) : reply :=
  api (List.length (http_log w)) rq.

(** The request a valid submission posts. *)
Definition query_request (wd : widgets) (w : world) (prompt : pystr) : request :=
  POST "/query"
       (query_payload (model_settings (session w)) prompt
                      (lit (selected_field wd)) (lit (selected_language wd))).

(** The assistant turn built from a response body. *)
Definition assistant_message (d : dict) (answer : json) (docs : list json)
  : message :=
  mkMessage assistant answer (Some (JArr docs)) (Some (dict_get "reflection" d)).

(** The requests of [submit_feedback] and [get_reflection]. *)
Definition feedback_request (qid : json) (t : FeedbackType)
           (correction_text comments : json) : request :=
  POST "/feedback" (feedback_payload qid t correction_text comments).

Definition reflect_request (qid : json) : request :=
  POST "/reflect" (reflect_payload qid).

(** The last response is the dictionary [d] and carries the truthy query
    identifier [q]. *)
Definition active_query (w : world) (d : dict) (q : json) : Prop :=
  last_response (session w) = Some d /\
  dict_lookup "query_id" d = Some q /\
  truthy q = true.

(** The feedback section is shown: its gate evaluates to True. *)
Definition feedback_shown (w : world) : Prop :=
  feedback_gate w = (Ret true, w).

(** The number of entries of [feedback_given] under the key [k]. *)
Fixpoint fb_count (k : json) (d : list (json * FeedbackType)) : nat :=
  match d with
  | [] => 0
  | (k', _) :: d' => (if key_eqb k k' then 1 else 0) + fb_count k d'
  end.

(** The worlds a session goes through: the initial one, and the one each run
    of the script leaves, however the run ends. *)
Inductive reachable (api : nat -> request -> reply) : world -> Prop :=
| reachable_init :
    reachable api (mkWorld initial_session_state [] [])
| reachable_run w wd :
    reachable api w -> reachable api (snd (script api wd w)).

(** A property of the world that a computation keeps, however it ends. *)
Definition preserves {A} (I : world -> Prop) (c : M A) : Prop :=
  forall w, I w -> I (snd (c w)).

(** A property of the world that only looks at [feedback_given]. *)
Definition on_feedback (P : list (json * FeedbackType) -> Prop) (w : world)
  : Prop :=
  P (feedback_given (session w)).

(** Every key has at most one entry. *)
Definition fb_unique (d : list (json * FeedbackType)) : Prop :=
  forall k, (fb_count k d <= 1)%nat.

(** ** Sample sessions *)

Module Sample.

(** The text "Explain Article 5". *)
Definition prompt : pystr := lit "Explain Article 5".

(** The text "What is theft under the penal code?". *)
Definition theft_prompt : pystr := lit "What is theft under the penal code?".

Definition widgets_idle : widgets :=
  mkWidgets (7 # 10)%Q 150%Z 3%Z true "criminal" "fr"
            false None false false false [] [] false.

(** The user submits [text] in the chat input. *)
Definition widgets_chat (text : pystr) : widgets :=
  mkWidgets (7 # 10)%Q 150%Z 3%Z true "criminal" "fr"
            false (Some text) false false false [] [] false.

(** The user submits the correction form with [text]. *)
Definition widgets_correction (text : pystr) : widgets :=
  mkWidgets (7 # 10)%Q 150%Z 3%Z true "criminal" "fr"
            false None false false false text [] true.

(** The user clicks the "Positive" button. *)
Definition widgets_positive : widgets :=
  mkWidgets (7 # 10)%Q 150%Z 3%Z true "criminal" "fr"
            false None true false false [] [] false.

Definition start : world := mkWorld initial_session_state [] [].

(** The body [{query_id: "q1", answer: "...", retrieved_documents:
    [{text: "...", score: 0.92}]}]. *)
Definition document : json :=
  JObj [("text", JStr (lit "...")); ("score", JNum (92 # 100)%Q)].

Definition body : dict :=
  [("query_id", JStr (lit "q1"));
   ("answer", JStr (lit "..."));
   ("retrieved_documents", JArr [document])].

(** The same body without its query identifier. *)
Definition body_no_id : dict :=
  [("answer", JStr (lit "..."));
   ("retrieved_documents", JArr [document])].

(** A service that answers every request with [status] and [b]. *)
Definition api_reply (status : Z) (b : option json) : nat -> request -> reply :=
  fun _ _ => Reply status [] b.

(** A service that cannot be reached. *)
Definition api_down : nat -> request -> reply :=
  fun _ _ => Raises (lit "connection refused").

(** A service that answers queries with [body], accepts feedback with 201
    and answers anything else with an empty 200. *)
Definition api_service : nat -> request -> reply :=
  fun _ rq =>
    match rq with
    | POST path _ =>
        if String.eqb path "/query" then Reply 200 [] (Some (JObj body))
        else if String.eqb path "/feedback" then Reply 201 [] None
        else Reply 200 [] None
    | GET _ => Reply 200 [] None
    end.

(** The world after the sample query was answered with [body]. *)
Definition answered : world :=
  mkWorld
    (mkSession
       [user_message prompt;
        mkMessage assistant (JStr (lit "...")) (Some (JArr [document]))
                  (Some JNull)]
       (JStr (lit "q1")) [] (mkSettings (7 # 10)%Q 150%Z 3%Z true)
       (Some body))
    [] [].

(** The answered world once positive feedback was recorded for "q1". *)
Definition rated : world :=
  mkWorld
    (set_feedback_given [(JStr (lit "q1"), POSITIVE)] (session answered))
    [] [].

End Sample.

(** ** Predicates used by the further properties *)

(** The values the loop over the retrieved documents shows without raising:
    a list of displayable documents, or an empty string or dictionary, over
    which the loop does not run. *)
Definition documents_displayable (docs : json) : bool :=
  match docs with
  | JArr l => forallb displayable l
  | JStr [] => true
  | JObj [] => true
  | _ => false
  end.

(** A turn the history loop shows without raising: its sources are absent,
    falsy or displayable. *)
Definition message_displayable (m : message) : bool :=
  match msg_sources m with
  | Some docs => negb (truthy docs) || documents_displayable docs
  | None => true
  end.

(** The current query identifier is the one of the last response. *)
Definition query_id_consistent (s : session_state) : Prop :=
  current_query_id s
  = match last_response s with
    | Some d => dict_get "query_id" d
    | None => JNull
    end.

(** A property of the world that only looks at the session. *)
Definition on_session (I : session_state -> Prop) (w : world) : Prop :=
  I (session w).

(** The role and the sources of every turn, in order. *)
Definition roles_and_sources (c : list message) : list (role * option json) :=
  map (fun m => (msg_role m, msg_sources m)) c.

(** Every assistant turn comes directly after a user turn; [asked] tells
    whether the turn before the list is a user turn still unanswered. *)
Fixpoint answers_follow_questions (asked : bool) (c : list message) : bool :=
  match c with
  | [] => true
  | m :: c' =>
      match msg_role m with
      | user => answers_follow_questions true c'
      | assistant => asked && answers_follow_questions false c'
      end
  end.

(** The settings the sidebar widgets hold. *)
Definition widget_settings (w : widgets) : settings :=
  mkSettings (w_temperature w) (w_max_tokens w) (w_top_k w)
             (w_enable_reflection w).

(** A computation that leaves the world as it is and, when it raises,
    raises an exception that [except Exception] catches. *)
Definition harmless {A} (c : M A) : Prop :=
  forall w,
    snd (c w) = w /\
    forall e, fst (c w) = Raise e -> is_Exception e = true.

(** Further sample data. *)
Module Scenario.

(** A body whose query identifier is a list. *)
Definition body_list_id : dict :=
  [("query_id", JArr [JNum 1%Q]);
   ("answer", JStr (lit "..."));
   ("retrieved_documents", JArr [])].

(** A body without an answer. *)
Definition body_no_answer : dict :=
  [("query_id", JStr (lit "q2"))].

(** The sample answered world with [d] as its last response. *)
Definition answered_with (d : dict) : world :=
  mkWorld (set_last_response (Some d) (session Sample.answered)) [] [].

(** The user clicks "Clear Conversation" while a text sits in the chat
    input. *)
Definition widgets_clear : widgets :=
  mkWidgets (3 # 10)%Q 200%Z 5%Z false "constitution" "en"
            true (Some Sample.prompt) true true true [] [] true.

(** Every button clicked at once and the correction form submitted. *)
Definition widgets_all (text : pystr) : widgets :=
  mkWidgets (7 # 10)%Q 150%Z 3%Z true "criminal" "fr"
            false None true true true text [] true.

(** A document whose score is the integer 10^400, which no float holds. *)
Definition document_huge_score : json :=
  JObj [("text", JStr (lit "..."));
        ("score", JNum (inject_Z (10 ^ 400)))].

(** The sample body with that document as its only retrieved document. *)
Definition body_huge_score : dict :=
  [("query_id", JStr (lit "q3"));
   ("answer", JStr (lit "..."));
   ("retrieved_documents", JArr [document_huge_score])].

(** A service that is down for the first three requests of the session
    and then behaves as the sample service. *)
Definition api_flaky : nat -> request -> reply :=
  fun k rq =>
    if (k <? 3)%nat then Raises (lit "connection refused")
    else Sample.api_service k rq.

End Scenario.

(** * Properties *)

Ltac unfold_monad :=
  unfold bind, ret, raise, get_session, modify_session, show, when,
    try_except, st_stop, st_rerun in *.

(** Run the monadic steps whose outcome is known. *)
Ltac run_monad :=
  repeat (progress (unfold bind, ret, raise, get_session, modify_session,
                      show, when, try_except, st_stop, st_rerun;
                    cbn [session http_log notices is_Exception
                         r_status_code r_text r_json])).

(** ** Display of documents *)

Lemma format_2f_formats v w :
  formats_2f v = true -> format_2f v w = (Ret tt, w).
Proof.
  unfold formats_2f, format_2f. destruct v; try discriminate.
  - reflexivity.
  - intros H. apply negb_true_iff in H. rewrite H. reflexivity.
Qed.

Lemma display_document_displayable doc i w :
  displayable doc = true -> display_document doc i w = (Ret tt, w).
Proof.
  unfold displayable. destruct doc as [| | | | |d]; try discriminate.
  unfold display_document, subscript, method_get, dict_get. unfold_monad.
  destruct (dict_lookup "score" d) as [score|]; [|discriminate].
  destruct (dict_lookup "text" d) as [t|]; [|discriminate].
  intros H. apply andb_true_iff in H. destruct H as [Hs Hm].
  rewrite (format_2f_formats _ _ Hs).
  destruct (dict_lookup "metadata" d) as [md|]; [|reflexivity].
  destruct md as [| mb | mq | ms | ml | mf]; cbn [truthy] in *;
    try reflexivity;
    try (apply negb_true_iff in Hm; rewrite Hm; reflexivity).
  destruct mf; reflexivity.
Qed.

Lemma for_each_display docs : forall i w,
  forallb displayable docs = true ->
  for_each (enumerate_from i docs)
           (fun p => display_document (snd p) (fst p)) w = (Ret tt, w).
Proof.
  induction docs as [|doc docs IH]; intros i w H; simpl in *.
  - reflexivity.
  - apply andb_true_iff in H. destruct H as [Hd Hr].
    unfold bind. simpl. rewrite (display_document_displayable _ _ _ Hd).
    apply IH. exact Hr.
Qed.

Lemma display_documents_ok docs w :
  forallb displayable docs = true ->
  display_documents (JArr docs) w = (Ret tt, w).
Proof.
  intros H. unfold display_documents, iterate, enumerate. unfold_monad.
  apply for_each_display. exact H.
Qed.

(** ** [send_query] *)

Lemma send_query_ok api query field language w text d :
  next_reply api w
    (POST "/query"
          (query_payload (model_settings (session w)) query field language))
  = Reply 200 text (Some (JObj d)) ->
  send_query api query field language w
  = (Ret (Some d),
     mkWorld (set_last_response (Some d)
                (set_current_query_id (dict_get "query_id" d) (session w)))
             (http_log w
                ++ [POST "/query"
                      (query_payload (model_settings (session w))
                                     query field language)])
             (notices w)).
Proof.
  unfold next_reply. intros H.
  unfold send_query, requests_post, http, response_json, method_get.
  unfold_monad. rewrite H. simpl. reflexivity.
Qed.

Lemma send_query_fails api query field language w :
  call_fails 200
    (next_reply api w
       (POST "/query"
             (query_payload (model_settings (session w)) query field language))) ->
  exists n,
    send_query api query field language w
    = (Ret None,
       mkWorld (session w)
               (http_log w
                  ++ [POST "/query"
                        (query_payload (model_settings (session w))
                                       query field language)])
               (notices w ++ [n])).
Proof.
  unfold next_reply, call_fails. intros H.
  unfold send_query, requests_post, http. unfold_monad.
  destruct (api _ _) as [msg | status text body]; simpl.
  - eexists. reflexivity.
  - destruct (Z.eqb_spec status 200) as [E|E]; [contradiction|].
    simpl. eexists. reflexivity.
Qed.

(** ** The chat input handler *)

Lemma submitted_truthy wd prompt :
  submitted wd prompt -> chat_input wd = Some prompt /\ truthy (JStr prompt) = true.
Proof.
  intros [H N]. split; [exact H|]. destruct prompt; [contradiction|reflexivity].
Qed.

Lemma chat_input_handler_success api wd w prompt text d answer docs :
  submitted wd prompt ->
  3 <= List.length (strip prompt) ->
  next_reply api w (query_request wd w prompt) = Reply 200 text (Some (JObj d)) ->
  query_response d answer docs ->
  chat_input_handler api wd w
  = (Ret tt,
     mkWorld
       (mkSession
          (conversation (session w)
             ++ [user_message prompt] ++ [assistant_message d answer docs])
          (dict_get "query_id" d)
          (feedback_given (session w))
          (model_settings (session w))
          (Some d))
       (http_log w ++ [query_request wd w prompt])
       (notices w)).
Proof.
  intros Hs Hlen Hr (Ha & Hd & Hok).
  apply submitted_truthy in Hs. destruct Hs as [Hc Ht].
  unfold chat_input_handler. rewrite Hc, Ht.
  destruct (Nat.ltb_spec (List.length (strip prompt)) 3) as [L|L]; [lia|].
  assert (Hne : truthy (JObj d) = true).
  { destruct d; [discriminate Ha|reflexivity]. }
  unfold append_message. run_monad.
  rewrite (send_query_ok api prompt _ _ _ text d) by exact Hr.
  rewrite Hne. unfold subscript, method_get. run_monad.
  rewrite Ha, Hd.
  rewrite display_documents_ok by exact Hok.
  run_monad.
  unfold assistant_message, query_request, set_last_response,
    set_current_query_id, set_conversation.
  cbn [conversation current_query_id feedback_given model_settings
       last_response].
  rewrite <- app_assoc. reflexivity.
Qed.

Lemma chat_input_handler_failure api wd w prompt :
  submitted wd prompt ->
  3 <= List.length (strip prompt) ->
  call_fails 200 (next_reply api w (query_request wd w prompt)) ->
  exists n,
    chat_input_handler api wd w
    = (Ret tt,
       mkWorld
         (set_conversation (conversation (session w) ++ [user_message prompt])
                           (session w))
         (http_log w ++ [query_request wd w prompt])
         (notices w ++ [n])).
Proof.
  intros Hs Hlen Hf.
  apply submitted_truthy in Hs. destruct Hs as [Hc Ht].
  unfold chat_input_handler. rewrite Hc, Ht.
  destruct (Nat.ltb_spec (List.length (strip prompt)) 3) as [L|L]; [lia|].
  unfold append_message. run_monad.
  match goal with
  | |- context [send_query api prompt ?f ?l ?w0] =>
      destruct (send_query_fails api prompt f l w0) as [n Hn]; [exact Hf|]
  end.
  rewrite Hn. exists n. reflexivity.
Qed.

Lemma chat_input_handler_short api wd w prompt :
  chat_input wd = Some prompt ->
  List.length (strip prompt) < 3 ->
  chat_input_handler api wd w
  = if truthy (JStr prompt)
    then (Raise StopException,
          mkWorld (session w) (http_log w)
                  (notices w ++ [MeaningfulQuestionWarning]))
    else (Ret tt, w).
Proof.
  intros Hc Hlen. unfold chat_input_handler. rewrite Hc.
  destruct (truthy (JStr prompt)); [|reflexivity].
  destruct (Nat.ltb_spec (List.length (strip prompt)) 3) as [L|L]; [|lia].
  reflexivity.
Qed.

(** ** Keys of [feedback_given] *)

Lemma key_eqb_refl k : hashable k = true -> key_eqb k k = true.
Proof.
  destruct k; simpl; intros H; try reflexivity; try discriminate.
  - apply Bool.eqb_reflx.
  - apply Qeq_bool_refl.
  - destruct (list_eq_dec N.eq_dec s s); [reflexivity|contradiction].
Qed.

Lemma key_eqb_sym a b : key_eqb a b = key_eqb b a.
Proof.
  destruct a, b; simpl; try reflexivity.
  - destruct b, b0; reflexivity.
  - apply Qeq_bool_comm.
  - apply Qeq_bool_comm.
  - apply Qeq_bool_comm.
  - destruct (list_eq_dec N.eq_dec s s0), (list_eq_dec N.eq_dec s0 s);
      congruence.
Qed.

Lemma key_eqb_trans a b c :
  key_eqb a b = true -> key_eqb b c = true -> key_eqb a c = true.
Proof.
  destruct a, b; simpl; try discriminate; destruct c; simpl;
    try discriminate; try reflexivity;
    repeat match goal with
           | |- context [list_eq_dec N.eq_dec ?x ?y] =>
               destruct (list_eq_dec N.eq_dec x y)
           | x : bool |- _ => destruct x
           end;
    simpl; try discriminate; try congruence; try reflexivity;
    rewrite ?Qeq_bool_iff; intros H1 H2;
    try (rewrite H1; exact H2);
    try (rewrite <- H1 in H2; exact H2);
    try (rewrite <- H2; exact H1);
    try (rewrite <- H1, <- H2; reflexivity);
    try (exfalso; rewrite <- H1 in H2; discriminate H2).
Qed.

Lemma key_eqb_hashable a b : key_eqb a b = true -> hashable a = true.
Proof. destruct a, b; simpl; intros H; try reflexivity; discriminate. Qed.

Lemma fb_mem_hashable k d : fb_mem k d = true -> hashable k = true.
Proof.
  induction d as [|[k' t'] d IH]; simpl; [discriminate|].
  intros H. apply orb_true_iff in H. destruct H as [H|H].
  - exact (key_eqb_hashable _ _ H).
  - exact (IH H).
Qed.

Lemma fb_mem_false_get k d : fb_mem k d = false -> fb_get k d = None.
Proof.
  induction d as [|[k' t'] d IH]; simpl; [reflexivity|].
  intros H. apply orb_false_iff in H. destruct H as [H1 H2].
  rewrite H1. exact (IH H2).
Qed.

Lemma fb_get_set_same k t d :
  hashable k = true -> fb_get k (fb_set k t d) = Some t.
Proof.
  intros H. induction d as [|[k' t'] d IH]; simpl.
  - rewrite (key_eqb_refl _ H). reflexivity.
  - destruct (key_eqb k k') eqn:E; simpl; rewrite E; [reflexivity|exact IH].
Qed.

Lemma fb_count_set_le x k t d :
  fb_count x (fb_set k t d)
  <= fb_count x d + (if key_eqb x k then 1 else 0).
Proof.
  induction d as [|[k' t'] d IH]; simpl.
  - lia.
  - destruct (key_eqb k k'); simpl; lia.
Qed.

Lemma fb_count_set k t d :
  (forall x, fb_count x d <= 1) ->
  forall x, fb_count x (fb_set k t d) <= 1.
Proof.
  induction d as [|[k' t'] d IH]; intros H x; simpl.
  - destruct (key_eqb x k); lia.
  - destruct (key_eqb k k') eqn:E; simpl.
    + exact (H x).
    + assert (Hd : forall y, fb_count y d <= 1).
      { intros y. specialize (H y). simpl in H. lia. }
      specialize (IH Hd x). specialize (H x). simpl in H.
      destruct (key_eqb x k') eqn:Ex; [|lia].
      assert (Ek : key_eqb x k = false).
      { destruct (key_eqb x k) eqn:Ek; [|reflexivity].
        rewrite key_eqb_sym in Ek.
        rewrite (key_eqb_trans _ _ _ Ek Ex) in E. discriminate E. }
      pose proof (fb_count_set_le x k t d) as Hle. rewrite Ek in Hle. lia.
Qed.

(** ** The last turn *)

Lemma last_cons {A} (x : A) l d : last (x :: l) d = last l x.
Proof.
  revert x d. induction l as [|y l IH]; intros x d; [reflexivity|].
  change (last (x :: y :: l) d) with (last (y :: l) d).
  rewrite (IH y d), (IH y x). reflexivity.
Qed.

Lemma snoc_last {A} (x : A) l : exists c, x :: l = c ++ [last l x].
Proof.
  exists (removelast (x :: l)).
  rewrite <- (last_cons x l x).
  apply app_removelast_last. discriminate.
Qed.

Lemma update_last_snoc {A} (f : A -> A) c m :
  update_last f (c ++ [m]) = Some (c ++ [f m]).
Proof.
  induction c as [|x c IH]; [reflexivity|].
  simpl. rewrite IH. destruct c; reflexivity.
Qed.

Lemma update_last_some {A} (f : A -> A) l l' :
  update_last f l = Some l' ->
  exists c m, l = c ++ [m] /\ l' = c ++ [f m].
Proof.
  destruct l as [|x l]; [discriminate|].
  destruct (snoc_last x l) as [c Hc]. rewrite Hc, update_last_snoc.
  intros H. injection H as <-. exists c, (last l x). split; reflexivity.
Qed.

Lemma update_last_none {A} (f : A -> A) l : update_last f l = None -> l = [].
Proof.
  destruct l as [|x l]; [reflexivity|].
  destruct (snoc_last x l) as [c Hc]. rewrite Hc, update_last_snoc.
  discriminate.
Qed.

(** ** [submit_feedback] and [get_reflection] *)

Lemma active_query_guard w d q :
  active_query w d q -> no_active_query (session w) = false.
Proof.
  intros (Hl & Hq & Ht). unfold no_active_query, dict_get. rewrite Hl, Hq, Ht.
  destruct d; [discriminate Hq|reflexivity].
Qed.

Lemma last_response_query_id_ok w d q :
  last_response (session w) = Some d ->
  dict_lookup "query_id" d = Some q ->
  last_response_query_id w = (Ret q, w).
Proof.
  intros Hl Hq. unfold last_response_query_id, subscript. run_monad.
  rewrite Hl, Hq. reflexivity.
Qed.

Lemma submit_feedback_no_query api t ct cm w :
  no_active_query (session w) = true ->
  submit_feedback api t ct cm w
  = (Ret false,
     mkWorld (session w) (http_log w)
             (notices w ++ [NoActiveQueryFeedbackWarning])).
Proof.
  intros H. unfold submit_feedback. run_monad. rewrite H. reflexivity.
Qed.

Lemma submit_feedback_201 api t ct cm w d q text body :
  active_query w d q ->
  hashable q = true ->
  next_reply api w (feedback_request q t ct cm) = Reply 201 text body ->
  submit_feedback api t ct cm w
  = (Ret true,
     mkWorld (set_feedback_given (fb_set q t (feedback_given (session w)))
                                 (session w))
             (http_log w ++ [feedback_request q t ct cm])
             (notices w ++ [FeedbackSuccessBox])).
Proof.
  intros Ha Hh Hr. pose proof (active_query_guard _ _ _ Ha) as Hg.
  destruct Ha as (Hl & Hq & Ht). unfold next_reply, feedback_request in Hr.
  unfold submit_feedback. run_monad. rewrite Hg.
  rewrite (last_response_query_id_ok _ _ _ Hl Hq).
  unfold requests_post, http. rewrite Hr.
  cbn [r_status_code r_text r_json].
  change (201 =? 201)%Z with true. cbn [session http_log notices].
  rewrite (last_response_query_id_ok _ d q) by assumption.
  unfold fb_assign. rewrite Hh. run_monad. reflexivity.
Qed.

Lemma submit_feedback_fails api t ct cm w d q :
  active_query w d q ->
  call_fails 201 (next_reply api w (feedback_request q t ct cm)) ->
  exists n,
    submit_feedback api t ct cm w
    = (Ret false,
       mkWorld (session w)
               (http_log w ++ [feedback_request q t ct cm])
               (notices w ++ [n])).
Proof.
  intros Ha Hf. pose proof (active_query_guard _ _ _ Ha) as Hg.
  destruct Ha as (Hl & Hq & Ht).
  unfold next_reply, feedback_request, call_fails in Hf.
  unfold submit_feedback. run_monad. rewrite Hg.
  rewrite (last_response_query_id_ok _ _ _ Hl Hq).
  unfold requests_post, http.
  destruct (api _ _) as [msg | status text body]; run_monad.
  - eexists. reflexivity.
  - destruct (Z.eqb_spec status 201) as [E|E]; [contradiction|].
    run_monad. eexists. reflexivity.
Qed.

Lemma get_reflection_no_query api w :
  no_active_query (session w) = true ->
  get_reflection api w
  = (Ret JNull,
     mkWorld (session w) (http_log w)
             (notices w ++ [NoActiveQueryReflectWarning])).
Proof.
  intros H. unfold get_reflection. run_monad. rewrite H. reflexivity.
Qed.

(** [get_reflection] only logs: the session is never touched. *)
Lemma get_reflection_session api w :
  session (snd (get_reflection api w)) = session w.
Proof.
  unfold get_reflection. run_monad.
  destruct (no_active_query (session w)); [reflexivity|].
  unfold last_response_query_id, subscript. run_monad.
  destruct (last_response (session w)) as [d|]; [|reflexivity].
  destruct (dict_lookup "query_id" d) as [q|]; [|reflexivity].
  unfold requests_post, http, response_json.
  destruct (api _ _) as [msg | status text body]; run_monad; [reflexivity|].
  destruct (status =? 200)%Z; run_monad; [|reflexivity].
  destruct body; reflexivity.
Qed.

Lemma get_reflection_200 api w d q text v :
  active_query w d q ->
  next_reply api w (reflect_request q) = Reply 200 text (Some v) ->
  get_reflection api w
  = (Ret v, mkWorld (session w) (http_log w ++ [reflect_request q])
                    (notices w)).
Proof.
  intros Ha Hr. pose proof (active_query_guard _ _ _ Ha) as Hg.
  destruct Ha as (Hl & Hq & Ht). unfold next_reply, reflect_request in Hr.
  unfold get_reflection. run_monad. rewrite Hg.
  rewrite (last_response_query_id_ok _ _ _ Hl Hq).
  unfold requests_post, http, response_json. rewrite Hr.
  cbn [r_status_code r_text r_json].
  change (200 =? 200)%Z with true. run_monad. reflexivity.
Qed.

(** ** The gate of the feedback section *)

Lemma feedback_gate_world w : snd (feedback_gate w) = w.
Proof.
  unfold feedback_gate. run_monad.
  destruct (last_response (session w)) as [d|] eqn:Hl; [|reflexivity].
  destruct (truthy (JObj d)); [|reflexivity].
  destruct (conversation (session w)) as [|m0 c]; [reflexivity|].
  destruct (role_eqb _ _); [|reflexivity].
  unfold last_response_query_id, subscript. run_monad. rewrite Hl.
  destruct (dict_lookup "query_id" d) as [q|]; [|reflexivity].
  unfold fb_contains. destruct (hashable q); reflexivity.
Qed.

Lemma feedback_shown_inv w :
  feedback_shown w ->
  exists d q c m,
    last_response (session w) = Some d /\
    dict_lookup "query_id" d = Some q /\
    hashable q = true /\
    fb_mem q (feedback_given (session w)) = false /\
    conversation (session w) = c ++ [m] /\
    msg_role m = assistant.
Proof.
  unfold feedback_shown, feedback_gate. run_monad.
  destruct (last_response (session w)) as [d|] eqn:Hl; [|discriminate].
  destruct (truthy (JObj d)); [|discriminate].
  destruct (conversation (session w)) as [|m0 c]; [discriminate|].
  destruct (role_eqb (msg_role (last c m0)) assistant) eqn:Hrole;
    [|discriminate].
  unfold last_response_query_id, subscript. run_monad. rewrite Hl.
  destruct (dict_lookup "query_id" d) as [q|] eqn:Hq; [|discriminate].
  unfold fb_contains. destruct (hashable q) eqn:Hh; [|discriminate].
  run_monad. intros H.
  destruct (fb_mem q (feedback_given (session w))) eqn:Hm; [discriminate|].
  destruct (snoc_last m0 c) as [c' Hc].
  exists d, q, c', (last c m0). repeat split; try assumption.
  destruct (msg_role (last c m0)); [discriminate Hrole|reflexivity].
Qed.

Lemma feedback_gate_present w d q :
  last_response (session w) = Some d ->
  dict_lookup "query_id" d = Some q ->
  fb_mem q (feedback_given (session w)) = true ->
  feedback_gate w = (Ret false, w).
Proof.
  intros Hl Hq Hm. unfold feedback_gate. run_monad. rewrite Hl.
  destruct (truthy (JObj d)); [|reflexivity].
  destruct (conversation (session w)) as [|m0 c]; [reflexivity|].
  destruct (role_eqb _ _); [|reflexivity].
  rewrite (last_response_query_id_ok _ _ _ Hl Hq).
  unfold fb_contains. rewrite (fb_mem_hashable _ _ Hm). run_monad.
  rewrite Hm. reflexivity.
Qed.

(** ** Query submission *)

(** C1: for every query submission, a successful adapter call appends
    exactly two turns to the conversation, the user turn followed by an
    assistant turn; a failing call (a status other than 200, or a transport
    error) appends exactly one, the user turn, and nothing is rolled back. *)
Theorem query_appends_turns api wd w prompt :
  submitted wd prompt ->
  (3 <= List.length (strip prompt))%nat ->
  (forall text d answer docs,
      next_reply api w (query_request wd w prompt)
      = Reply 200 text (Some (JObj d)) ->
      query_response d answer docs ->
      exists a,
        msg_role a = assistant /\
        fst (chat_input_handler api wd w) = Ret tt /\
        conversation (session (snd (chat_input_handler api wd w)))
        = conversation (session w) ++ [user_message prompt; a])
  /\
  (call_fails 200 (next_reply api w (query_request wd w prompt)) ->
   fst (chat_input_handler api wd w) = Ret tt /\
   conversation (session (snd (chat_input_handler api wd w)))
   = conversation (session w) ++ [user_message prompt]).
Proof.
  intros Hs Hlen. split.
  - intros text d answer docs Hr Hq.
    rewrite (chat_input_handler_success _ _ _ _ _ _ _ _ Hs Hlen Hr Hq).
    exists (assistant_message d answer docs). repeat split.
  - intros Hf.
    destruct (chat_input_handler_failure _ _ _ _ Hs Hlen Hf) as [n Hn].
    rewrite Hn. split; reflexivity.
Qed.

Lemma query_appends_turns_witness :
  (exists a,
      msg_role a = assistant /\
      fst (chat_input_handler
             (Sample.api_reply 200 (Some (JObj Sample.body)))
             (Sample.widgets_chat Sample.prompt) Sample.start) = Ret tt /\
      conversation
        (session
           (snd (chat_input_handler
                   (Sample.api_reply 200 (Some (JObj Sample.body)))
                   (Sample.widgets_chat Sample.prompt) Sample.start)))
      = [] ++ [user_message Sample.prompt; a])
  /\
  (fst (chat_input_handler Sample.api_down
          (Sample.widgets_chat Sample.prompt) Sample.start) = Ret tt /\
   conversation
     (session
        (snd (chat_input_handler Sample.api_down
                (Sample.widgets_chat Sample.prompt) Sample.start)))
   = [] ++ [user_message Sample.prompt]).
Proof.
  assert (Hs : submitted (Sample.widgets_chat Sample.prompt) Sample.prompt).
  { split; [reflexivity|discriminate]. }
  assert (Hlen : (3 <= List.length (strip Sample.prompt))%nat).
  { vm_compute. lia. }
  split.
  - apply (proj1 (query_appends_turns
                    (Sample.api_reply 200 (Some (JObj Sample.body)))
                    _ Sample.start _ Hs Hlen)
                 [] Sample.body (JStr (lit "...")) [Sample.document]).
    + reflexivity.
    + repeat split.
  - apply (proj2 (query_appends_turns Sample.api_down
                    _ Sample.start _ Hs Hlen)).
    exact I.
Defined.

(** C2: for every input text whose trimmed length is less than 3 the
    submission is rejected with the validation warning and the run stops;
    nothing is mutated: the session (and so the length of the conversation)
    is unchanged and no HTTP request is issued. *)
Theorem short_query_rejected api wd w text :
  (List.length (strip text) < 3)%nat ->
  (chat_input wd = Some text ->
   session (snd (chat_input_handler api wd w)) = session w /\
   List.length (conversation (session (snd (chat_input_handler api wd w))))
   = List.length (conversation (session w)) /\
   http_log (snd (chat_input_handler api wd w)) = http_log w)
  /\
  (submitted wd text ->
   fst (chat_input_handler api wd w) = Raise StopException /\
   notices (snd (chat_input_handler api wd w))
   = notices w ++ [MeaningfulQuestionWarning]).
Proof.
  intros Hlen. split.
  - intros Hc. rewrite (chat_input_handler_short _ _ _ _ Hc Hlen).
    destruct (truthy (JStr text)); repeat split.
  - intros Hs. apply submitted_truthy in Hs. destruct Hs as [Hc Ht].
    rewrite (chat_input_handler_short _ _ _ _ Hc Hlen), Ht.
    split; reflexivity.
Qed.

Lemma short_query_rejected_witness :
  (session (snd (chat_input_handler Sample.api_down
                   (Sample.widgets_chat (lit " a  ")) Sample.answered))
   = session Sample.answered /\
   List.length
     (conversation
        (session (snd (chat_input_handler Sample.api_down
                         (Sample.widgets_chat (lit " a  ")) Sample.answered))))
   = List.length (conversation (session Sample.answered)) /\
   http_log (snd (chat_input_handler Sample.api_down
                    (Sample.widgets_chat (lit " a  ")) Sample.answered))
   = http_log Sample.answered)
  /\
  (fst (chat_input_handler Sample.api_down
          (Sample.widgets_chat (lit " a  ")) Sample.answered)
   = Raise StopException /\
   notices (snd (chat_input_handler Sample.api_down
                   (Sample.widgets_chat (lit " a  ")) Sample.answered))
   = notices Sample.answered ++ [MeaningfulQuestionWarning]).
Proof.
  assert (Hlen : (List.length (strip (lit " a  ")) < 3)%nat).
  { vm_compute. lia. }
  split.
  - apply (proj1 (short_query_rejected Sample.api_down
                    (Sample.widgets_chat (lit " a  ")) Sample.answered
                    _ Hlen)).
    reflexivity.
  - apply (proj2 (short_query_rejected Sample.api_down
                    (Sample.widgets_chat (lit " a  ")) Sample.answered
                    _ Hlen)).
    split; [reflexivity|discriminate].
Defined.

(** C3: for every successful query response the appended assistant turn has
    the response's answer as content, its retrieved documents, in the order
    received, as sources, and its optional reflection as reflection; the
    current query identifier and the last response are set from that
    response. *)
Theorem successful_response_recorded api wd w prompt text d answer docs :
  submitted wd prompt ->
  (3 <= List.length (strip prompt))%nat ->
  next_reply api w (query_request wd w prompt)
  = Reply 200 text (Some (JObj d)) ->
  query_response d answer docs ->
  conversation (session (snd (chat_input_handler api wd w)))
  = conversation (session w)
      ++ [user_message prompt;
          mkMessage assistant answer (Some (JArr docs))
                    (Some (dict_get "reflection" d))] /\
  current_query_id (session (snd (chat_input_handler api wd w)))
  = dict_get "query_id" d /\
  last_response (session (snd (chat_input_handler api wd w))) = Some d.
Proof.
  intros Hs Hlen Hr Hq.
  rewrite (chat_input_handler_success _ _ _ _ _ _ _ _ Hs Hlen Hr Hq).
  repeat split.
Qed.

Lemma successful_response_recorded_witness :
  conversation
    (session (snd (chat_input_handler
                     (Sample.api_reply 200 (Some (JObj Sample.body)))
                     (Sample.widgets_chat Sample.prompt) Sample.start)))
  = [] ++ [user_message Sample.prompt;
           mkMessage assistant (JStr (lit "...")) (Some (JArr [Sample.document]))
                     (Some (dict_get "reflection" Sample.body))] /\
  current_query_id
    (session (snd (chat_input_handler
                     (Sample.api_reply 200 (Some (JObj Sample.body)))
                     (Sample.widgets_chat Sample.prompt) Sample.start)))
  = dict_get "query_id" Sample.body /\
  last_response
    (session (snd (chat_input_handler
                     (Sample.api_reply 200 (Some (JObj Sample.body)))
                     (Sample.widgets_chat Sample.prompt) Sample.start)))
  = Some Sample.body.
Proof.
  apply (successful_response_recorded
           (Sample.api_reply 200 (Some (JObj Sample.body)))
           (Sample.widgets_chat Sample.prompt) Sample.start Sample.prompt
           [] Sample.body (JStr (lit "...")) [Sample.document]).
  - split; [reflexivity|discriminate].
  - vm_compute. lia.
  - reflexivity.
  - repeat split.
Defined.

(** ** Feedback *)

Lemma reply_cases ok r :
  (exists text body, r = Reply ok text body) \/ call_fails ok r.
Proof.
  destruct r as [msg | status text body]; simpl.
  - right. exact I.
  - destruct (Z.eq_dec status ok) as [->|N].
    + left. exists text, body. reflexivity.
    + right. exact N.
Qed.

Lemma reply_exclusive ok r :
  (exists text body, r = Reply ok text body) -> call_fails ok r -> False.
Proof.
  intros (text & body & ->). simpl. intros N. apply N. reflexivity.
Qed.

Lemma feedback_shown_active w d q :
  feedback_shown w ->
  active_query w d q ->
  hashable q = true /\
  fb_mem q (feedback_given (session w)) = false /\
  exists c m, conversation (session w) = c ++ [m] /\ msg_role m = assistant.
Proof.
  intros Hg (Hl & Hq & Ht).
  destruct (feedback_shown_inv _ Hg)
    as (d' & q' & c & m & Hl' & Hq' & Hh & Hm & Hc & Hr).
  rewrite Hl in Hl'. injection Hl' as <-.
  rewrite Hq in Hq'. injection Hq' as <-.
  repeat split; try assumption. exists c, m. split; assumption.
Qed.

Lemma correction_form_201 api wd w d q c m text body :
  active_query w d q ->
  hashable q = true ->
  conversation (session w) = c ++ [m] ->
  correction wd <> [] ->
  next_reply api w
    (feedback_request q CORRECTION (JStr (correction wd)) (JStr (comments wd)))
  = Reply 201 text body ->
  correction_form api wd w
  = (Raise RerunException,
     mkWorld
       (mkSession
          (c ++ [set_content (JStr (correction wd)) m])
          (current_query_id (session w))
          (fb_set q CORRECTION (feedback_given (session w)))
          (model_settings (session w))
          (last_response (session w)))
       (http_log w
          ++ [feedback_request q CORRECTION (JStr (correction wd))
                               (JStr (comments wd))])
       (notices w ++ [FeedbackSuccessBox])).
Proof.
  intros Ha Hh Hc Hne Hr. unfold correction_form.
  assert (Ht : truthy (JStr (correction wd)) = true).
  { destruct (correction wd); [contradiction|reflexivity]. }
  rewrite Ht. run_monad.
  rewrite (submit_feedback_201 _ _ _ _ _ _ _ _ _ Ha Hh Hr).
  unfold assign_last. run_monad.
  unfold set_feedback_given at 1. cbn [conversation].
  rewrite Hc, update_last_snoc. run_monad. reflexivity.
Qed.

Lemma correction_form_fails api wd w d q :
  active_query w d q ->
  correction wd <> [] ->
  call_fails 201
    (next_reply api w
       (feedback_request q CORRECTION (JStr (correction wd))
                         (JStr (comments wd)))) ->
  fst (correction_form api wd w) = Ret tt /\
  session (snd (correction_form api wd w)) = session w.
Proof.
  intros Ha Hne Hf. unfold correction_form.
  assert (Ht : truthy (JStr (correction wd)) = true).
  { destruct (correction wd); [contradiction|reflexivity]. }
  rewrite Ht. run_monad.
  destruct (submit_feedback_fails _ _ _ _ _ _ _ Ha Hf) as [n Hn].
  rewrite Hn. split; reflexivity.
Qed.

(** C4: for every feedback submission the entry of [feedback_given] under
    the query identifier is recorded if and only if POST /feedback returns
    201; for a correction that success also replaces the content of the last
    assistant turn with the correction text and leaves its reflection
    untouched; on any other status or a transport error [feedback_given] and
    the conversation are unchanged. *)
Theorem feedback_recorded_iff_201 api w d q :
  feedback_shown w ->
  active_query w d q ->
  (forall t ct cm,
      ((exists text body,
           next_reply api w (feedback_request q t ct cm) = Reply 201 text body)
       <-> fb_get q (feedback_given
                       (session (snd (submit_feedback api t ct cm w))))
           = Some t) /\
      ((exists text body,
           next_reply api w (feedback_request q t ct cm) = Reply 201 text body)
       -> fst (submit_feedback api t ct cm w) = Ret true /\
          feedback_given (session (snd (submit_feedback api t ct cm w)))
          = fb_set q t (feedback_given (session w)) /\
          conversation (session (snd (submit_feedback api t ct cm w)))
          = conversation (session w)) /\
      (call_fails 201 (next_reply api w (feedback_request q t ct cm))
       -> fst (submit_feedback api t ct cm w) = Ret false /\
          session (snd (submit_feedback api t ct cm w)) = session w))
  /\
  (forall wd,
      correction wd <> [] ->
      ((exists text body,
           next_reply api w
             (feedback_request q CORRECTION (JStr (correction wd))
                               (JStr (comments wd)))
           = Reply 201 text body)
       -> exists c m,
          conversation (session w) = c ++ [m] /\
          msg_role m = assistant /\
          conversation (session (snd (correction_form api wd w)))
          = c ++ [mkMessage assistant (JStr (correction wd))
                            (msg_sources m) (msg_reflection m)] /\
          feedback_given (session (snd (correction_form api wd w)))
          = fb_set q CORRECTION (feedback_given (session w))) /\
      (call_fails 201
         (next_reply api w
            (feedback_request q CORRECTION (JStr (correction wd))
                              (JStr (comments wd))))
       -> session (snd (correction_form api wd w)) = session w)).
Proof.
  intros Hg Ha.
  destruct (feedback_shown_active _ _ _ Hg Ha)
    as (Hh & Hm & c & m & Hc & Hrole).
  split.
  - intros t ct cm.
    assert (Hok : (exists text body,
                      next_reply api w (feedback_request q t ct cm)
                      = Reply 201 text body) ->
                  fst (submit_feedback api t ct cm w) = Ret true /\
                  feedback_given
                    (session (snd (submit_feedback api t ct cm w)))
                  = fb_set q t (feedback_given (session w)) /\
                  conversation
                    (session (snd (submit_feedback api t ct cm w)))
                  = conversation (session w)).
    { intros (text & body & Hr).
      rewrite (submit_feedback_201 _ _ _ _ _ _ _ _ _ Ha Hh Hr).
      repeat split. }
    assert (Hko : call_fails 201
                    (next_reply api w (feedback_request q t ct cm)) ->
                  fst (submit_feedback api t ct cm w) = Ret false /\
                  session (snd (submit_feedback api t ct cm w)) = session w).
    { intros Hf.
      destruct (submit_feedback_fails _ _ _ _ _ _ _ Ha Hf) as [n Hn].
      rewrite Hn. split; reflexivity. }
    split; [|split; assumption].
    split.
    + intros H. destruct (Hok H) as (_ & Hfb & _).
      rewrite Hfb. apply fb_get_set_same. exact Hh.
    + intros H.
      destruct (reply_cases 201
                  (next_reply api w (feedback_request q t ct cm)))
        as [Hr|Hf]; [exact Hr|].
      destruct (Hko Hf) as [_ Hsame]. rewrite Hsame in H.
      rewrite (fb_mem_false_get _ _ Hm) in H. discriminate H.
  - intros wd Hne. split.
    + intros (text & body & Hr). exists c, m.
      rewrite (correction_form_201 _ _ _ _ _ _ _ _ _ Ha Hh Hc Hne Hr).
      rewrite <- Hrole. repeat split; assumption.
    + intros Hf. exact (proj2 (correction_form_fails _ _ _ _ _ Ha Hne Hf)).
Qed.

Lemma feedback_recorded_iff_201_witness :
  fb_get (JStr (lit "q1"))
         (feedback_given
            (session (snd (submit_feedback (Sample.api_reply 201 None)
                             POSITIVE JNull JNull Sample.answered))))
  = Some POSITIVE /\
  session (snd (submit_feedback Sample.api_down NEGATIVE JNull JNull
                                Sample.answered))
  = session Sample.answered /\
  (exists c m,
      conversation (session Sample.answered) = c ++ [m] /\
      msg_role m = assistant /\
      conversation
        (session (snd (correction_form (Sample.api_reply 201 None)
                         (Sample.widgets_correction (lit "Article 5 bis"))
                         Sample.answered)))
      = c ++ [mkMessage assistant (JStr (lit "Article 5 bis"))
                        (msg_sources m) (msg_reflection m)] /\
      feedback_given
        (session (snd (correction_form (Sample.api_reply 201 None)
                         (Sample.widgets_correction (lit "Article 5 bis"))
                         Sample.answered)))
      = fb_set (JStr (lit "q1")) CORRECTION
               (feedback_given (session Sample.answered))).
Proof.
  assert (Hg : feedback_shown Sample.answered) by reflexivity.
  assert (Ha : active_query Sample.answered Sample.body (JStr (lit "q1"))).
  { repeat split. }
  split; [|split].
  - destruct (feedback_recorded_iff_201 (Sample.api_reply 201 None)
                Sample.answered Sample.body (JStr (lit "q1")) Hg Ha)
      as [H _].
    apply (proj1 (H POSITIVE JNull JNull)).
    exists [], None. reflexivity.
  - destruct (feedback_recorded_iff_201 Sample.api_down
                Sample.answered Sample.body (JStr (lit "q1")) Hg Ha)
      as [H _].
    apply (proj2 (H NEGATIVE JNull JNull)). exact I.
  - destruct (feedback_recorded_iff_201 (Sample.api_reply 201 None)
                Sample.answered Sample.body (JStr (lit "q1")) Hg Ha)
      as [_ H].
    apply (proj1 (H (Sample.widgets_correction (lit "Article 5 bis"))
                    ltac:(discriminate))).
    exists [], None. reflexivity.
Defined.

(** C5: a correction submitted with an empty text is rejected with the
    validation warning; POST /feedback is never issued and the session is
    not mutated. *)
Theorem empty_correction_rejected api wd w :
  correction wd = [] ->
  correction_form api wd w
  = (Ret tt,
     mkWorld (session w) (http_log w) (notices w ++ [CorrectedAnswerWarning])).
Proof.
  intros H. unfold correction_form. rewrite H. reflexivity.
Qed.

Lemma empty_correction_rejected_witness :
  correction_form (Sample.api_reply 201 None) (Sample.widgets_correction [])
                  Sample.answered
  = (Ret tt,
     mkWorld (session Sample.answered) (http_log Sample.answered)
             (notices Sample.answered ++ [CorrectedAnswerWarning])).
Proof.
  apply (empty_correction_rejected (Sample.api_reply 201 None)
           (Sample.widgets_correction []) Sample.answered).
  reflexivity.
Defined.

(** C7: when the last response is absent or has no query identifier, both
    [submit_feedback] and [get_reflection] end with the no-active-query
    warning, issue no HTTP request and leave the session unchanged. *)
Theorem no_active_query_rejected api w t ct cm :
  (last_response (session w) = None \/
   exists d, last_response (session w) = Some d /\
             dict_lookup "query_id" d = None) ->
  submit_feedback api t ct cm w
  = (Ret false,
     mkWorld (session w) (http_log w)
             (notices w ++ [NoActiveQueryFeedbackWarning])) /\
  get_reflection api w
  = (Ret JNull,
     mkWorld (session w) (http_log w)
             (notices w ++ [NoActiveQueryReflectWarning])).
Proof.
  intros H.
  assert (Hg : no_active_query (session w) = true).
  { unfold no_active_query, dict_get.
    destruct H as [-> | (d & -> & ->)]; [reflexivity|].
    apply orb_true_r. }
  split.
  - apply submit_feedback_no_query. exact Hg.
  - apply get_reflection_no_query. exact Hg.
Qed.

Lemma no_active_query_rejected_witness :
  (submit_feedback (Sample.api_reply 201 None) POSITIVE JNull JNull
                   Sample.start
   = (Ret false,
      mkWorld (session Sample.start) (http_log Sample.start)
              (notices Sample.start ++ [NoActiveQueryFeedbackWarning])) /\
   get_reflection (Sample.api_reply 201 None) Sample.start
   = (Ret JNull,
      mkWorld (session Sample.start) (http_log Sample.start)
              (notices Sample.start ++ [NoActiveQueryReflectWarning])))
  /\
  (submit_feedback (Sample.api_reply 201 None) CORRECTION
                   (JStr (lit "x")) JNull
                   (mkWorld (set_last_response (Some Sample.body_no_id)
                                               (session Sample.answered))
                            [] [])
   = (Ret false,
      mkWorld (set_last_response (Some Sample.body_no_id)
                                 (session Sample.answered))
              [] ([] ++ [NoActiveQueryFeedbackWarning])) /\
   get_reflection (Sample.api_reply 201 None)
                  (mkWorld (set_last_response (Some Sample.body_no_id)
                                              (session Sample.answered))
                           [] [])
   = (Ret JNull,
      mkWorld (set_last_response (Some Sample.body_no_id)
                                 (session Sample.answered))
              [] ([] ++ [NoActiveQueryReflectWarning]))).
Proof.
  split.
  - apply (no_active_query_rejected (Sample.api_reply 201 None) Sample.start).
    left. reflexivity.
  - apply (no_active_query_rejected (Sample.api_reply 201 None)
             (mkWorld (set_last_response (Some Sample.body_no_id)
                                         (session Sample.answered))
                      [] [])).
    right. exists Sample.body_no_id. split; reflexivity.
Defined.

(** ** Reflection *)

Lemma reflect_button_effect api w :
  session (snd (reflect_button api w)) = session w \/
  exists c m v,
    conversation (session w) = c ++ [m] /\
    session (snd (reflect_button api w))
    = set_conversation (c ++ [set_reflection v m]) (session w).
Proof.
  unfold reflect_button. run_monad.
  pose proof (get_reflection_session api w) as Hs.
  destruct (get_reflection api w) as [[r|e] w1]; cbn [snd] in *;
    [|left; exact Hs].
  destruct (truthy r); [|left; exact Hs].
  unfold subscript.
  destruct r as [| | | | |f]; try (left; exact Hs).
  destruct (dict_lookup "reflection" f) as [v|]; run_monad;
    [|left; exact Hs].
  unfold assign_last. run_monad. rewrite Hs.
  destruct (update_last (set_reflection v) (conversation (session w)))
    as [c'|] eqn:Hu; run_monad; cbn [snd]; [|left; exact Hs].
  destruct (update_last_some _ _ _ Hu) as (c & m & Hc & ->).
  right. exists c, m, v. rewrite Hs. split; [exact Hc|reflexivity].
Qed.

Lemma reflect_button_200 api w d q c m text body v :
  active_query w d q ->
  conversation (session w) = c ++ [m] ->
  next_reply api w (reflect_request q) = Reply 200 text (Some (JObj body)) ->
  dict_lookup "reflection" body = Some v ->
  reflect_button api w
  = (Raise RerunException,
     mkWorld (set_conversation (c ++ [set_reflection v m]) (session w))
             (http_log w ++ [reflect_request q])
             (notices w)).
Proof.
  intros Ha Hc Hr Hv. unfold reflect_button. run_monad.
  rewrite (get_reflection_200 _ _ _ _ _ _ Ha Hr).
  assert (Ht : truthy (JObj body) = true).
  { destruct body; [discriminate Hv|reflexivity]. }
  rewrite Ht. unfold subscript. rewrite Hv. run_monad.
  unfold assign_last. run_monad. rewrite Hc, update_last_snoc.
  run_monad. reflexivity.
Qed.

(** C8: [requestReflection] never changes the length of the conversation.
    Whatever the service answers, the session is left as it was or only the
    reflection of the last turn is replaced, every other field of every turn
    being unchanged and no turn appended; under the gate of the feedback
    section that last turn is the assistant's, and a 200 reply whose body
    carries a reflection puts that reflection there. *)
Theorem reflection_keeps_conversation api w :
  List.length (conversation (session (snd (reflect_button api w))))
  = List.length (conversation (session w)) /\
  (session (snd (reflect_button api w)) = session w \/
   exists c m v,
     conversation (session w) = c ++ [m] /\
     session (snd (reflect_button api w))
     = set_conversation
         (c ++ [mkMessage (msg_role m) (msg_content m) (msg_sources m)
                          (Some v)])
         (session w)) /\
  (forall d q text body v,
      feedback_shown w ->
      active_query w d q ->
      next_reply api w (reflect_request q)
      = Reply 200 text (Some (JObj body)) ->
      dict_lookup "reflection" body = Some v ->
      exists c m,
        conversation (session w) = c ++ [m] /\
        msg_role m = assistant /\
        conversation (session (snd (reflect_button api w)))
        = c ++ [mkMessage assistant (msg_content m) (msg_sources m)
                          (Some v)]).
Proof.
  split; [|split].
  - destruct (reflect_button_effect api w) as [H | (c & m & v & Hc & H)];
      rewrite H; [reflexivity|].
    cbn [set_conversation conversation]. rewrite Hc, !length_app.
    reflexivity.
  - exact (reflect_button_effect api w).
  - intros d q text body v Hg Ha Hr Hv.
    destruct (feedback_shown_active _ _ _ Hg Ha)
      as (_ & _ & c & m & Hc & Hrole).
    exists c, m.
    rewrite (reflect_button_200 _ _ _ _ _ _ _ _ _ Ha Hc Hr Hv).
    rewrite <- Hrole. repeat split; assumption.
Qed.

Lemma reflection_keeps_conversation_witness :
  exists c m,
    conversation (session Sample.answered) = c ++ [m] /\
    msg_role m = assistant /\
    conversation
      (session
         (snd (reflect_button
                 (Sample.api_reply 200
                    (Some (JObj [("reflection", JStr (lit "sound"))])))
                 Sample.answered)))
    = c ++ [mkMessage assistant (msg_content m) (msg_sources m)
                      (Some (JStr (lit "sound")))].
Proof.
  apply (proj2 (proj2 (reflection_keeps_conversation
                         (Sample.api_reply 200
                            (Some (JObj [("reflection", JStr (lit "sound"))])))
                         Sample.answered))
               Sample.body (JStr (lit "q1")) []
               [("reflection", JStr (lit "sound"))] (JStr (lit "sound"))).
  - reflexivity.
  - repeat split.
  - reflexivity.
  - reflexivity.
Defined.

(** ** Clearing the conversation *)

Lemma send_query_frame api query field language w :
  conversation (session (snd (send_query api query field language w)))
  = conversation (session w) /\
  feedback_given (session (snd (send_query api query field language w)))
  = feedback_given (session w).
Proof.
  unfold send_query, requests_post, http, response_json, method_get.
  run_monad.
  destruct (api _ _) as [msg | status text body]; run_monad;
    [split; reflexivity|].
  destruct (status =? 200)%Z; run_monad; [|split; reflexivity].
  destruct body as [[| | | | |d]|]; run_monad; split; reflexivity.
Qed.

Lemma format_2f_world v w : snd (format_2f v w) = w.
Proof.
  unfold format_2f. destruct v; try reflexivity.
  destruct (float_overflows q); reflexivity.
Qed.

Lemma display_document_world doc i w : snd (display_document doc i w) = w.
Proof.
  unfold display_document, subscript, method_get. run_monad.
  destruct doc as [| | | | |d]; try reflexivity.
  destruct (dict_lookup "score" d) as [score|]; [|reflexivity].
  run_monad.
  pose proof (format_2f_world score w) as Hf.
  destruct (format_2f score w) as [[u|e] w1]; cbn [snd] in Hf; subst w1;
    [|reflexivity].
  destruct (dict_lookup "text" d); [|reflexivity].
  run_monad.
  destruct (truthy (dict_get "metadata" d)); [|reflexivity].
  destruct (dict_lookup "metadata" d) as [[| | | | |md]|]; reflexivity.
Qed.

Lemma for_each_display_world docs : forall i w,
  snd (for_each (enumerate_from i docs)
                (fun p => display_document (snd p) (fst p)) w) = w.
Proof.
  induction docs as [|doc docs IH]; intros i w; [reflexivity|].
  cbn [enumerate_from for_each]. unfold bind. cbn [fst snd].
  pose proof (display_document_world doc i w) as H.
  destruct (display_document doc i w) as [[u|e] w1]; cbn [snd] in H;
    subst w1; [apply IH|reflexivity].
Qed.

Lemma display_documents_world docs w : snd (display_documents docs w) = w.
Proof.
  unfold display_documents, iterate, enumerate. run_monad.
  destruct docs; try reflexivity; apply for_each_display_world.
Qed.

Lemma chat_input_handler_conversation api wd w prompt :
  submitted wd prompt ->
  (3 <= List.length (strip prompt))%nat ->
  feedback_given (session (snd (chat_input_handler api wd w)))
  = feedback_given (session w) /\
  exists tl,
    conversation (session (snd (chat_input_handler api wd w)))
    = conversation (session w) ++ user_message prompt :: tl /\
    (List.length tl <= 1)%nat.
Proof.
  intros Hs Hlen.
  apply submitted_truthy in Hs. destruct Hs as [Hc Ht].
  unfold chat_input_handler. rewrite Hc, Ht.
  destruct (Nat.ltb_spec (List.length (strip prompt)) 3) as [L|L]; [lia|].
  unfold append_message. run_monad.
  match goal with
  | |- context [send_query api prompt ?f ?l ?w0] =>
      pose proof (send_query_frame api prompt f l w0) as [Hconv Hfb];
      destruct (send_query api prompt f l w0) as [[r|e] w1]
  end; cbn [snd session conversation set_conversation feedback_given] in *.
  2:{ split; [exact Hfb|]. exists []. rewrite Hconv. split; [reflexivity|].
      simpl. lia. }
  assert (Hbase :
            feedback_given (session w1) = feedback_given (session w) /\
            exists tl,
              conversation (session w1)
              = conversation (session w) ++ user_message prompt :: tl /\
              (List.length tl <= 1)%nat).
  { split; [exact Hfb|]. exists []. rewrite Hconv.
    split; [reflexivity|simpl; lia]. }
  destruct r as [d|]; [|exact Hbase].
  destruct (truthy (JObj d)); [|exact Hbase].
  unfold subscript, method_get.
  destruct (dict_lookup "answer" d) as [answer|]; run_monad; [|exact Hbase].
  destruct (dict_lookup "retrieved_documents" d) as [docs|]; run_monad;
    [|exact Hbase].
  pose proof (display_documents_world docs w1) as Hw.
  destruct (display_documents docs w1) as [[u|e] w2]; cbn [snd] in Hw;
    subst w2; [|exact Hbase].
  cbn [snd session conversation set_conversation feedback_given].
  split; [exact Hfb|].
  exists [mkMessage assistant answer (Some docs)
                    (Some (dict_get "reflection" d))].
  rewrite Hconv, <- app_assoc. split; [reflexivity|simpl; lia].
Qed.

Lemma script_clear api wd w :
  clear_clicked wd = true ->
  script api wd w
  = (Raise RerunException,
     mkWorld
       (mkSession []
                  JNull
                  (feedback_given (session w))
                  (mkSettings (w_temperature wd) (w_max_tokens wd)
                              (w_top_k wd) (w_enable_reflection wd))
                  None)
       (http_log w) (notices w)).
Proof.
  intros H. unfold script, initialize_session_state, sidebar_settings,
    clear_button, clear_conversation.
  rewrite H. reflexivity.
Qed.

(** C9: clearing resets the conversation to empty and the current query
    identifier and the last response to unset, and leaves [feedback_given]
    and the settings as they were; a query submitted after it yields a
    conversation of at most two turns that starts with the new user turn,
    whatever [feedback_given] holds. *)
Theorem clear_resets_conversation api w :
  fst (clear_conversation w) = Ret tt /\
  conversation (session (snd (clear_conversation w))) = [] /\
  current_query_id (session (snd (clear_conversation w))) = JNull /\
  last_response (session (snd (clear_conversation w))) = None /\
  feedback_given (session (snd (clear_conversation w)))
  = feedback_given (session w) /\
  model_settings (session (snd (clear_conversation w)))
  = model_settings (session w) /\
  (forall wd prompt,
      submitted wd prompt ->
      (3 <= List.length (strip prompt))%nat ->
      (List.length
         (conversation
            (session (snd (chat_input_handler api wd
                             (snd (clear_conversation w))))))
       <= 2)%nat /\
      hd_error
        (conversation
           (session (snd (chat_input_handler api wd
                            (snd (clear_conversation w))))))
      = Some (user_message prompt) /\
      feedback_given
        (session (snd (chat_input_handler api wd
                         (snd (clear_conversation w)))))
      = feedback_given (session w)).
Proof.
  repeat (split; [reflexivity|]).
  intros wd prompt Hs Hlen.
  destruct (chat_input_handler_conversation api wd
              (snd (clear_conversation w)) prompt Hs Hlen)
    as (Hfb & tl & Hconv & Htl).
  rewrite Hconv, Hfb. cbn. repeat split. lia.
Qed.

Lemma clear_resets_conversation_witness :
  (List.length
     (conversation
        (session (snd (chat_input_handler
                         (Sample.api_reply 200 (Some (JObj Sample.body)))
                         (Sample.widgets_chat Sample.theft_prompt)
                         (snd (clear_conversation Sample.rated))))))
   <= 2)%nat /\
  hd_error
    (conversation
       (session (snd (chat_input_handler
                        (Sample.api_reply 200 (Some (JObj Sample.body)))
                        (Sample.widgets_chat Sample.theft_prompt)
                        (snd (clear_conversation Sample.rated))))))
  = Some (user_message Sample.theft_prompt) /\
  feedback_given
    (session (snd (chat_input_handler
                     (Sample.api_reply 200 (Some (JObj Sample.body)))
                     (Sample.widgets_chat Sample.theft_prompt)
                     (snd (clear_conversation Sample.rated)))))
  = feedback_given (session Sample.rated).
Proof.
  apply (clear_resets_conversation
           (Sample.api_reply 200 (Some (JObj Sample.body))) Sample.rated).
  - split; [reflexivity|discriminate].
  - vm_compute. lia.
Defined.

(** ** What a run of the script does to [feedback_given] *)

Create HintDb preserves.

Section Invariant.

Variable P : list (json * FeedbackType) -> Prop.
Hypothesis P_set : forall k t d, P d -> P (fb_set k t d).

Lemma preserves_ret {A} (a : A) : preserves (on_feedback P) (ret a).
Proof. intros w H. exact H. Qed.

Lemma preserves_raise {A} e : preserves (on_feedback P) (@raise A e).
Proof. intros w H. exact H. Qed.

Lemma preserves_bind {A B} (c : M A) (k : A -> M B) :
  preserves (on_feedback P) c ->
  (forall a, preserves (on_feedback P) (k a)) ->
  preserves (on_feedback P) (bind c k).
Proof.
  intros Hc Hk w H. unfold bind. specialize (Hc w H).
  destruct (c w) as [[a|e] w1]; cbn [snd] in *; [|exact Hc].
  apply Hk. exact Hc.
Qed.

Lemma preserves_try_except {A} (body : M A) handler :
  preserves (on_feedback P) body ->
  (forall e, preserves (on_feedback P) (handler e)) ->
  preserves (on_feedback P) (try_except body handler).
Proof.
  intros Hb Hh w H. unfold try_except. specialize (Hb w H).
  destruct (body w) as [[a|e] w1]; cbn [snd] in *; [exact Hb|].
  destruct (is_Exception e); [|exact Hb].
  apply Hh. exact Hb.
Qed.

Lemma preserves_when c body :
  preserves (on_feedback P) body -> preserves (on_feedback P) (when c body).
Proof. intros Hb. destruct c; [exact Hb|apply preserves_ret]. Qed.

Lemma preserves_for_each {A} (l : list A) body :
  (forall x, preserves (on_feedback P) (body x)) ->
  preserves (on_feedback P) (for_each l body).
Proof.
  intros Hb. induction l as [|x l IH]; cbn [for_each].
  - apply preserves_ret.
  - apply preserves_bind; [apply Hb|intros _; exact IH].
Qed.

Lemma preserves_get_session : preserves (on_feedback P) get_session.
Proof. intros w H. exact H. Qed.

Lemma preserves_show n : preserves (on_feedback P) (show n).
Proof. intros w H. exact H. Qed.

Lemma preserves_modify_session f :
  (forall s, feedback_given (f s) = feedback_given s) ->
  preserves (on_feedback P) (modify_session f).
Proof.
  intros Hf w H. unfold on_feedback, modify_session. cbn [snd session].
  rewrite Hf. exact H.
Qed.

Lemma preserves_http api rq : preserves (on_feedback P) (http api rq).
Proof.
  intros w H. unfold http. destruct (api _ _); exact H.
Qed.

Lemma preserves_fb_assign k t : preserves (on_feedback P) (fb_assign k t).
Proof.
  unfold fb_assign. destruct (hashable k); [|apply preserves_raise].
  intros w H. unfold on_feedback, modify_session in *. cbn [snd session].
  unfold set_feedback_given. cbn [feedback_given]. apply P_set. exact H.
Qed.

(** Break a computation down to the steps above. *)
Ltac preserve_step :=
  first
    [ apply preserves_ret
    | apply preserves_raise
    | apply preserves_get_session
    | apply preserves_show
    | apply preserves_http
    | apply preserves_fb_assign
    | apply preserves_modify_session; intros ?; reflexivity
    | apply preserves_bind; [|intros ?]
    | apply preserves_try_except; [|intros ?]
    | apply preserves_when
    | apply preserves_for_each; intros ?
    | match goal with
      | |- preserves _ (match ?x with _ => _ end) => destruct x
      end ].

Ltac preserve := repeat preserve_step.

Lemma preserves_subscript v k : preserves (on_feedback P) (subscript v k).
Proof. unfold subscript. preserve. Qed.

Lemma preserves_method_get v k : preserves (on_feedback P) (method_get v k).
Proof. unfold method_get. preserve. Qed.

Lemma preserves_response_json r : preserves (on_feedback P) (response_json r).
Proof. unfold response_json. preserve. Qed.

Lemma preserves_display_documents docs :
  preserves (on_feedback P) (display_documents docs).
Proof.
  intros w H. rewrite display_documents_world. exact H.
Qed.

Lemma preserves_send_query api query field language :
  preserves (on_feedback P) (send_query api query field language).
Proof.
  intros w H. unfold on_feedback.
  rewrite (proj2 (send_query_frame api query field language w)). exact H.
Qed.

Lemma preserves_get_reflection api :
  preserves (on_feedback P) (get_reflection api).
Proof.
  intros w H. unfold on_feedback. rewrite get_reflection_session. exact H.
Qed.

Lemma preserves_feedback_gate : preserves (on_feedback P) feedback_gate.
Proof.
  intros w H. rewrite feedback_gate_world. exact H.
Qed.

Lemma preserves_sidebar_status api :
  preserves (on_feedback P) (sidebar_status api).
Proof.
  intros w H. unfold sidebar_status, requests_get, http, show.
  destruct (api _ _) as [msg | status text body]; cbn [r_status_code].
  - exact H.
  - destruct (status =? 200)%Z; exact H.
Qed.

#[local] Hint Resolve preserves_subscript preserves_method_get
  preserves_response_json preserves_display_documents preserves_send_query
  preserves_get_reflection preserves_feedback_gate preserves_sidebar_status
  : preserves.

(** The same, with the helpers already dealt with taken whole. *)
Ltac preserve_script :=
  repeat first [ solve [auto 1 with preserves nocore] | preserve_step ].

Lemma preserves_submit_feedback api t ct cm :
  preserves (on_feedback P) (submit_feedback api t ct cm).
Proof.
  unfold submit_feedback, requests_post, last_response_query_id. cbv zeta.
  preserve_script.
Qed.

Lemma preserves_assign_last f : preserves (on_feedback P) (assign_last f).
Proof. unfold assign_last. preserve_script. Qed.

Lemma preserves_chat_input_handler api wd :
  preserves (on_feedback P) (chat_input_handler api wd).
Proof.
  unfold chat_input_handler, append_message, st_stop. cbv zeta.
  preserve_script.
Qed.

#[local] Hint Resolve preserves_submit_feedback preserves_assign_last
  preserves_chat_input_handler : preserves.

Lemma preserves_feedback_section api wd :
  preserves (on_feedback P) (feedback_section api wd).
Proof.
  unfold feedback_section, reflect_button, correction_form, st_rerun.
  preserve_script.
Qed.

Lemma preserves_sidebar_statistics api :
  preserves (on_feedback P) (sidebar_statistics api).
Proof.
  unfold sidebar_statistics, sum_values, requests_get.
  preserve_script.
Qed.

Lemma preserves_display_history : preserves (on_feedback P) display_history.
Proof.
  unfold display_history, display_message. preserve_script.
Qed.

#[local] Hint Resolve preserves_feedback_section preserves_sidebar_statistics
  preserves_display_history : preserves.

Lemma preserves_script api wd : preserves (on_feedback P) (script api wd).
Proof.
  unfold script, initialize_session_state, sidebar_settings, clear_button,
    clear_conversation, st_rerun.
  preserve_script.
Qed.

End Invariant.

(** ** At most one feedback per query *)

Lemma reachable_fb_unique api w :
  reachable api w -> fb_unique (feedback_given (session w)).
Proof.
  induction 1 as [|w wd Hr IH].
  - intros k. simpl. lia.
  - apply (preserves_script fb_unique fb_count_set api wd w). exact IH.
Qed.

Lemma feedback_section_hidden api wd w d q :
  last_response (session w) = Some d ->
  dict_lookup "query_id" d = Some q ->
  fb_mem q (feedback_given (session w)) = true ->
  feedback_section api wd w = (Ret tt, w).
Proof.
  intros Hl Hq Hm. unfold feedback_section, bind.
  rewrite (feedback_gate_present _ _ _ Hl Hq Hm). reflexivity.
Qed.

(** C6: in every state a session reaches, [feedback_given] holds at most
    one entry for each query identifier; and once the identifier of the last
    response is in [feedback_given], the gate of the feedback section keeps
    the section from running, so that no second feedback is sent, whatever
    the service would have answered. *)
Theorem one_feedback_per_query api w :
  (reachable api w ->
   forall qid, (fb_count qid (feedback_given (session w)) <= 1)%nat)
  /\
  (forall wd d q,
      last_response (session w) = Some d ->
      dict_lookup "query_id" d = Some q ->
      fb_mem q (feedback_given (session w)) = true ->
      feedback_section api wd w = (Ret tt, w)).
Proof.
  split.
  - intros Hr. exact (reachable_fb_unique api w Hr).
  - intros wd d q. apply feedback_section_hidden.
Qed.

Lemma one_feedback_per_query_witness :
  (fb_count (JStr (lit "q1"))
            (feedback_given
               (session
                  (snd (script Sample.api_service Sample.widgets_positive
                          (snd (script Sample.api_service
                                  (Sample.widgets_chat Sample.prompt)
                                  Sample.start))))))
   <= 1)%nat
  /\
  feedback_section Sample.api_service Sample.widgets_positive Sample.rated
  = (Ret tt, Sample.rated).
Proof.
  split.
  - apply (proj1 (one_feedback_per_query Sample.api_service
                    (snd (script Sample.api_service Sample.widgets_positive
                            (snd (script Sample.api_service
                                    (Sample.widgets_chat Sample.prompt)
                                    Sample.start)))))).
    apply reachable_run. apply reachable_run. apply reachable_init.
  - apply (proj2 (one_feedback_per_query Sample.api_service Sample.rated)
                 Sample.widgets_positive Sample.body (JStr (lit "q1")));
      reflexivity.
Defined.

(** The two runs of the witness do record the feedback. *)
Example sample_session_records_feedback :
  feedback_given
    (session
       (snd (script Sample.api_service Sample.widgets_positive
               (snd (script Sample.api_service
                       (Sample.widgets_chat Sample.prompt) Sample.start)))))
  = [(JStr (lit "q1"), POSITIVE)].
Proof. vm_compute. reflexivity. Qed.

(** ** A response without a query identifier *)

(** C10, as stated, fails on the empty object: a 200 reply whose body is
    the empty dictionary lacks the query identifier, [send_query] stores
    and returns it, but the handler takes the falsy body for a failure and
    appends no assistant turn. *)
Lemma empty_body_appends_no_assistant_turn :
  dict_lookup "query_id" [] = None /\
  send_query (Sample.api_reply 200 (Some (JObj [])))
             Sample.prompt (lit "criminal") (lit "fr") Sample.start
  = (Ret (Some []),
     mkWorld (set_last_response (Some []) (session Sample.start))
             [query_request (Sample.widgets_chat Sample.prompt) Sample.start
                            Sample.prompt]
             []) /\
  conversation
    (session (snd (chat_input_handler (Sample.api_reply 200 (Some (JObj [])))
                     (Sample.widgets_chat Sample.prompt) Sample.start)))
  = [user_message Sample.prompt] /\
  ~ (exists a,
        msg_role a = assistant /\
        In a (conversation
                (session
                   (snd (chat_input_handler
                           (Sample.api_reply 200 (Some (JObj [])))
                           (Sample.widgets_chat Sample.prompt)
                           Sample.start))))).
Proof.
  split; [reflexivity|]. split; [reflexivity|]. split; [reflexivity|].
  intros (a & Hrole & Hin).
  change (In a [user_message Sample.prompt]) in Hin.
  destruct Hin as [<-|[]]. discriminate Hrole.
Qed.

(** C10, amended: if POST /query returns 200 with a dictionary that carries
    an answer and a list of displayable retrieved documents but no query
    identifier, the assistant turn is appended and the body is stored as the
    last response, the current query identifier is set to None, and as long
    as that body is the last response every call of [submit_feedback] or
    [get_reflection] ends with the no-active-query warning without issuing
    an HTTP request. *)
Theorem response_without_query_id api wd w prompt text d answer docs :
  submitted wd prompt ->
  (3 <= List.length (strip prompt))%nat ->
  next_reply api w (query_request wd w prompt)
  = Reply 200 text (Some (JObj d)) ->
  dict_lookup "query_id" d = None ->
  query_response d answer docs ->
  fst (chat_input_handler api wd w) = Ret tt /\
  conversation (session (snd (chat_input_handler api wd w)))
  = conversation (session w)
      ++ [user_message prompt;
          mkMessage assistant answer (Some (JArr docs))
                    (Some (dict_get "reflection" d))] /\
  last_response (session (snd (chat_input_handler api wd w))) = Some d /\
  current_query_id (session (snd (chat_input_handler api wd w))) = JNull /\
  (forall w',
      last_response (session w') = Some d ->
      (forall t ct cm,
          submit_feedback api t ct cm w'
          = (Ret false,
             mkWorld (session w') (http_log w')
                     (notices w' ++ [NoActiveQueryFeedbackWarning]))) /\
      get_reflection api w'
      = (Ret JNull,
         mkWorld (session w') (http_log w')
                 (notices w' ++ [NoActiveQueryReflectWarning]))).
Proof.
  intros Hs Hlen Hr Hid Hq.
  rewrite (chat_input_handler_success _ _ _ _ _ _ _ _ Hs Hlen Hr Hq).
  cbn [fst snd session conversation last_response current_query_id].
  repeat (split; [reflexivity|]).
  split.
  { unfold dict_get. rewrite Hid. reflexivity. }
  intros w' Hl.
  assert (Hg : no_active_query (session w') = true).
  { unfold no_active_query, dict_get. rewrite Hl, Hid. apply orb_true_r. }
  split.
  - intros t ct cm. apply submit_feedback_no_query. exact Hg.
  - apply get_reflection_no_query. exact Hg.
Qed.

Lemma response_without_query_id_witness :
  fst (chat_input_handler
         (Sample.api_reply 200 (Some (JObj Sample.body_no_id)))
         (Sample.widgets_chat Sample.prompt) Sample.start) = Ret tt /\
  conversation
    (session (snd (chat_input_handler
                     (Sample.api_reply 200 (Some (JObj Sample.body_no_id)))
                     (Sample.widgets_chat Sample.prompt) Sample.start)))
  = conversation (session Sample.start)
      ++ [user_message Sample.prompt;
          mkMessage assistant (JStr (lit "...")) (Some (JArr [Sample.document]))
                    (Some (dict_get "reflection" Sample.body_no_id))] /\
  last_response
    (session (snd (chat_input_handler
                     (Sample.api_reply 200 (Some (JObj Sample.body_no_id)))
                     (Sample.widgets_chat Sample.prompt) Sample.start)))
  = Some Sample.body_no_id /\
  current_query_id
    (session (snd (chat_input_handler
                     (Sample.api_reply 200 (Some (JObj Sample.body_no_id)))
                     (Sample.widgets_chat Sample.prompt) Sample.start)))
  = JNull /\
  (forall w',
      last_response (session w') = Some Sample.body_no_id ->
      (forall t ct cm,
          submit_feedback
            (Sample.api_reply 200 (Some (JObj Sample.body_no_id))) t ct cm w'
          = (Ret false,
             mkWorld (session w') (http_log w')
                     (notices w' ++ [NoActiveQueryFeedbackWarning]))) /\
      get_reflection
        (Sample.api_reply 200 (Some (JObj Sample.body_no_id))) w'
      = (Ret JNull,
         mkWorld (session w') (http_log w')
                 (notices w' ++ [NoActiveQueryReflectWarning]))).
Proof.
  apply (response_without_query_id
           (Sample.api_reply 200 (Some (JObj Sample.body_no_id)))
           (Sample.widgets_chat Sample.prompt) Sample.start Sample.prompt
           [] Sample.body_no_id (JStr (lit "...")) [Sample.document]).
  - split; [reflexivity|discriminate].
  - vm_compute. lia.
  - reflexivity.
  - reflexivity.
  - repeat split.
Defined.

(** In the script itself such a response ends the run at the gate of the
    feedback section, whose subscript raises KeyError. *)
Example gate_raises_without_query_id :
  fst (feedback_gate
         (snd (chat_input_handler
                 (Sample.api_reply 200 (Some (JObj Sample.body_no_id)))
                 (Sample.widgets_chat Sample.prompt) Sample.start)))
  = Raise (KeyError "query_id").
Proof. reflexivity. Qed.

(** * Further properties of the script *)

(** ** Display of documents *)

Lemma format_2f_raises v w :
  formats_2f v = false -> exists e, format_2f v w = (Raise e, w).
Proof.
  unfold formats_2f, format_2f.
  destruct v; try discriminate; try (intros _; eexists; reflexivity).
  intros H. apply negb_false_iff in H. rewrite H. eexists. reflexivity.
Qed.

Lemma display_document_raises doc i w :
  displayable doc = false -> exists e, display_document doc i w = (Raise e, w).
Proof.
  unfold displayable.
  unfold display_document, subscript, method_get, dict_get. run_monad.
  destruct doc as [| | | | |d]; try (intros _; eexists; reflexivity).
  destruct (dict_lookup "score" d) as [score|];
    [|intros _; eexists; reflexivity].
  run_monad.
  destruct (formats_2f score) eqn:Hs.
  - rewrite (format_2f_formats _ _ Hs).
    destruct (dict_lookup "text" d); [|intros _; eexists; reflexivity].
    run_monad. cbn [andb].
    destruct (dict_lookup "metadata" d) as [[| mb | mq | ms | ml | mf]|];
      cbn [truthy negb]; try discriminate;
      intros H; try (apply negb_false_iff in H; rewrite H);
      try (eexists; reflexivity);
      destruct mf; discriminate.
  - destruct (format_2f_raises score w Hs) as [e He]. rewrite He.
    intros _. exists e. reflexivity.
Qed.

(** X1: [display_document] never touches the world, and it returns normally
    exactly on a dictionary with a score that formats (a boolean, a float, or
    an integer that converts to a float), a text, and a metadata that is
    absent, falsy or a dictionary; on anything else it raises. *)
Theorem display_document_returns_iff doc i w :
  snd (display_document doc i w) = w /\
  (fst (display_document doc i w) = Ret tt <-> displayable doc = true).
Proof.
  split; [apply display_document_world|].
  split.
  - intros H. destruct (displayable doc) eqn:E; [reflexivity|].
    destruct (display_document_raises doc i w E) as [e He].
    rewrite He in H. discriminate H.
  - intros H. rewrite (display_document_displayable _ _ _ H). reflexivity.
Qed.

Lemma for_each_display_raises docs : forall i w,
  forallb displayable docs = false ->
  exists e,
    for_each (enumerate_from i docs)
             (fun p => display_document (snd p) (fst p)) w = (Raise e, w).
Proof.
  induction docs as [|doc docs IH]; intros i w H; [discriminate H|].
  cbn [forallb] in H. cbn [enumerate_from for_each]. unfold bind.
  cbn [fst snd].
  destruct (displayable doc) eqn:E.
  - rewrite (display_document_displayable _ _ _ E). apply IH. exact H.
  - destruct (display_document_raises doc i w E) as [e He].
    rewrite He. exists e. reflexivity.
Qed.

Lemma display_documents_raises docs w :
  documents_displayable docs = false ->
  exists e, display_documents docs w = (Raise e, w).
Proof.
  unfold display_documents, iterate, enumerate, documents_displayable.
  run_monad.
  destruct docs as [| b | q | s | l | d]; try (intros _; eexists; reflexivity).
  - destruct s as [|c s]; [discriminate|]. intros _. eexists. reflexivity.
  - apply for_each_display_raises.
  - destruct d as [|kv d]; [discriminate|]. intros _. eexists. reflexivity.
Qed.

Lemma display_documents_returns docs w :
  documents_displayable docs = true ->
  display_documents docs w = (Ret tt, w).
Proof.
  unfold documents_displayable.
  destruct docs as [| b | q | s | l | d]; try discriminate.
  - destruct s; [reflexivity|discriminate].
  - apply display_documents_ok.
  - destruct d; [reflexivity|discriminate].
Qed.

(** X2: the loop that shows the retrieved documents returns normally exactly
    when the value is a list of displayable documents, or an empty string or
    dictionary; on a first document that cannot be shown, or on a value that
    is none of these, it raises.  It never touches the world. *)
Theorem display_documents_returns_iff docs w :
  snd (display_documents docs w) = w /\
  (fst (display_documents docs w) = Ret tt
   <-> documents_displayable docs = true).
Proof.
  split; [apply display_documents_world|].
  split.
  - intros H. destruct (documents_displayable docs) eqn:E; [reflexivity|].
    destruct (display_documents_raises docs w E) as [e He].
    rewrite He in H. discriminate H.
  - intros H. rewrite (display_documents_returns _ _ H). reflexivity.
Qed.

(** ** What the API helpers do in every case *)

(** X3: whatever the service does, [send_query] makes a single attempt: it
    never raises, it logs exactly one request, the POST /query built from the
    current settings, and it leaves the conversation, [feedback_given] and
    the settings alone. *)
Theorem send_query_single_attempt api query field language w :
  (exists r, fst (send_query api query field language w) = Ret r) /\
  http_log (snd (send_query api query field language w))
  = http_log w
      ++ [POST "/query"
            (query_payload (model_settings (session w))
                           query field language)] /\
  conversation (session (snd (send_query api query field language w)))
  = conversation (session w) /\
  feedback_given (session (snd (send_query api query field language w)))
  = feedback_given (session w) /\
  model_settings (session (snd (send_query api query field language w)))
  = model_settings (session w).
Proof.
  unfold send_query, requests_post, http, response_json, method_get.
  run_monad.
  destruct (api _ _) as [msg | status text body]; run_monad.
  - repeat split. eexists. reflexivity.
  - destruct (status =? 200)%Z; run_monad.
    + destruct body as [[| | | | |d]|]; run_monad; repeat split;
        eexists; reflexivity.
    + repeat split. eexists. reflexivity.
Qed.

(** X4: [send_query] returns the body, and stores it as the last response
    together with its query identifier, exactly when the reply is a 200
    whose JSON decodes to a dictionary; on every other reply (another status,
    a transport error, an undecodable body, a body that is not a dictionary)
    it returns None, shows one error box and leaves the session untouched. *)
Theorem send_query_outcome api query field language w :
  (forall text d,
      next_reply api w
        (POST "/query"
              (query_payload (model_settings (session w))
                             query field language))
      = Reply 200 text (Some (JObj d)) ->
      fst (send_query api query field language w) = Ret (Some d) /\
      last_response (session (snd (send_query api query field language w)))
      = Some d /\
      current_query_id
        (session (snd (send_query api query field language w)))
      = dict_get "query_id" d /\
      notices (snd (send_query api query field language w)) = notices w)
  /\
  ((forall text d,
       next_reply api w
         (POST "/query"
               (query_payload (model_settings (session w))
                              query field language))
       <> Reply 200 text (Some (JObj d))) ->
   fst (send_query api query field language w) = Ret None /\
   session (snd (send_query api query field language w)) = session w /\
   exists n,
     notices (snd (send_query api query field language w))
     = notices w ++ [n]).
Proof.
  split.
  - intros text d H. rewrite (send_query_ok _ _ _ _ _ _ _ H).
    repeat split.
  - unfold next_reply, send_query, requests_post, http, response_json,
      method_get.
    run_monad. intros H.
    destruct (api _ _) as [msg | status text body]; run_monad.
    + repeat split. eexists. reflexivity.
    + destruct (Z.eqb_spec status 200) as [->|N]; run_monad.
      * destruct body as [[| | | | |d]|]; run_monad;
          try (repeat split; eexists; reflexivity).
        exfalso. apply (H text d). reflexivity.
      * repeat split. eexists. reflexivity.
Qed.

Lemma send_query_outcome_witness :
  (fst (send_query (Sample.api_reply 200 (Some (JObj Sample.body)))
                   Sample.prompt (lit "criminal") (lit "fr") Sample.start)
   = Ret (Some Sample.body) /\
   last_response
     (session (snd (send_query
                      (Sample.api_reply 200 (Some (JObj Sample.body)))
                      Sample.prompt (lit "criminal") (lit "fr")
                      Sample.start)))
   = Some Sample.body /\
   current_query_id
     (session (snd (send_query
                      (Sample.api_reply 200 (Some (JObj Sample.body)))
                      Sample.prompt (lit "criminal") (lit "fr")
                      Sample.start)))
   = dict_get "query_id" Sample.body /\
   notices (snd (send_query
                   (Sample.api_reply 200 (Some (JObj Sample.body)))
                   Sample.prompt (lit "criminal") (lit "fr") Sample.start))
   = notices Sample.start)
  /\
  (fst (send_query (Sample.api_reply 200 (Some (JArr [])))
                   Sample.prompt (lit "criminal") (lit "fr") Sample.answered)
   = Ret None /\
   session (snd (send_query (Sample.api_reply 200 (Some (JArr [])))
                            Sample.prompt (lit "criminal") (lit "fr")
                            Sample.answered))
   = session Sample.answered /\
   exists n,
     notices (snd (send_query (Sample.api_reply 200 (Some (JArr [])))
                              Sample.prompt (lit "criminal") (lit "fr")
                              Sample.answered))
     = notices Sample.answered ++ [n]).
Proof.
  split.
  - apply (proj1 (send_query_outcome
                    (Sample.api_reply 200 (Some (JObj Sample.body)))
                    Sample.prompt (lit "criminal") (lit "fr") Sample.start)
                 []).
    reflexivity.
  - apply (proj2 (send_query_outcome
                    (Sample.api_reply 200 (Some (JArr [])))
                    Sample.prompt (lit "criminal") (lit "fr")
                    Sample.answered)).
    intros text d H. discriminate H.
Defined.

Lemma no_active_query_false s :
  no_active_query s = false ->
  exists d q,
    last_response s = Some d /\ dict_lookup "query_id" d = Some q /\
    truthy q = true.
Proof.
  unfold no_active_query, dict_get.
  destruct (last_response s) as [d|]; [|discriminate].
  intros H. apply orb_false_iff in H. destruct H as [_ H].
  apply negb_false_iff in H.
  destruct (dict_lookup "query_id" d) as [q|] eqn:Hq; [|discriminate H].
  exists d, q. split; [reflexivity|]. split; [exact Hq|exact H].
Qed.

(** X5: [submit_feedback] never raises and answers True or False.  It
    never touches the conversation, the current query identifier, the last
    response or the settings, and it issues at most one request.  When it
    answers False the whole session is as before; when it answers True the
    reply was a 201 and [feedback_given] was assigned under the query
    identifier of the last response. *)
Theorem submit_feedback_outcome api t ct cm w :
  (fst (submit_feedback api t ct cm w) = Ret true \/
   fst (submit_feedback api t ct cm w) = Ret false) /\
  conversation (session (snd (submit_feedback api t ct cm w)))
  = conversation (session w) /\
  current_query_id (session (snd (submit_feedback api t ct cm w)))
  = current_query_id (session w) /\
  last_response (session (snd (submit_feedback api t ct cm w)))
  = last_response (session w) /\
  model_settings (session (snd (submit_feedback api t ct cm w)))
  = model_settings (session w) /\
  (http_log (snd (submit_feedback api t ct cm w)) = http_log w \/
   exists rq, http_log (snd (submit_feedback api t ct cm w))
              = http_log w ++ [rq]) /\
  (fst (submit_feedback api t ct cm w) = Ret false ->
   session (snd (submit_feedback api t ct cm w)) = session w) /\
  (fst (submit_feedback api t ct cm w) = Ret true ->
   exists d q text body,
     active_query w d q /\
     next_reply api w (feedback_request q t ct cm) = Reply 201 text body /\
     feedback_given (session (snd (submit_feedback api t ct cm w)))
     = fb_set q t (feedback_given (session w))).
Proof.
  destruct (no_active_query (session w)) eqn:Hg.
  - rewrite (submit_feedback_no_query _ _ _ _ _ Hg).
    cbn [fst snd session http_log].
    repeat split; try (right; reflexivity); try (left; reflexivity).
    discriminate.
  - destruct (no_active_query_false _ Hg) as (d & q & Hl & Hq & Ht).
    assert (Ha : active_query w d q) by (repeat split; assumption).
    destruct (reply_cases 201 (next_reply api w (feedback_request q t ct cm)))
      as [(text & body & Hr)|Hf].
    + destruct (hashable q) eqn:Hh.
      * rewrite (submit_feedback_201 _ _ _ _ _ _ _ _ _ Ha Hh Hr).
        cbn [fst snd session http_log].
        repeat split; try (left; reflexivity);
          try (right; eexists; reflexivity); try discriminate.
        intros _. exists d, q, text, body. repeat split; assumption.
      * unfold next_reply, feedback_request in Hr.
        unfold submit_feedback. run_monad. rewrite Hg.
        rewrite (last_response_query_id_ok _ _ _ Hl Hq).
        unfold requests_post, http. rewrite Hr.
        cbn [r_status_code r_text r_json].
        change (201 =? 201)%Z with true. cbn [session http_log notices].
        rewrite (last_response_query_id_ok _ d q) by assumption.
        unfold fb_assign. rewrite Hh. run_monad. cbn [fst snd session].
        repeat split; try (right; reflexivity);
          try (right; eexists; reflexivity); try discriminate.
    + destruct (submit_feedback_fails _ _ _ _ _ _ _ Ha Hf) as [n Hn].
      rewrite Hn. cbn [fst snd session http_log].
      repeat split; try (right; reflexivity);
        try (right; eexists; reflexivity); try discriminate.
Qed.

Lemma submit_feedback_outcome_witness :
  (session (snd (submit_feedback Sample.api_down POSITIVE JNull JNull
                                 Sample.answered))
   = session Sample.answered)
  /\
  (exists d q text body,
      active_query Sample.answered d q /\
      next_reply Sample.api_service Sample.answered
                 (feedback_request q NEGATIVE JNull JNull)
      = Reply 201 text body /\
      feedback_given
        (session (snd (submit_feedback Sample.api_service NEGATIVE JNull
                                       JNull Sample.answered)))
      = fb_set q NEGATIVE (feedback_given (session Sample.answered))).
Proof.
  split.
  - apply (submit_feedback_outcome Sample.api_down POSITIVE JNull JNull
             Sample.answered).
    reflexivity.
  - apply (submit_feedback_outcome Sample.api_service NEGATIVE JNull JNull
             Sample.answered).
    reflexivity.
Defined.

(** X6: when the query identifier of the last response is a list or a
    dictionary, [submit_feedback] still sends the request, and on a 201 the
    assignment to [feedback_given] raises TypeError inside the [try]: the
    function shows the connection-error box, answers False and records
    nothing, although the service accepted the feedback. *)
Theorem unhashable_query_id_not_recorded api t ct cm w d q text body :
  active_query w d q ->
  hashable q = false ->
  next_reply api w (feedback_request q t ct cm) = Reply 201 text body ->
  submit_feedback api t ct cm w
  = (Ret false,
     mkWorld (session w)
             (http_log w ++ [feedback_request q t ct cm])
             (notices w ++ [ConnectionErrorBox TypeError])).
Proof.
  intros Ha Hh Hr. pose proof (active_query_guard _ _ _ Ha) as Hg.
  destruct Ha as (Hl & Hq & Ht). unfold next_reply, feedback_request in Hr.
  unfold submit_feedback. run_monad. rewrite Hg.
  rewrite (last_response_query_id_ok _ _ _ Hl Hq).
  unfold requests_post, http. rewrite Hr.
  cbn [r_status_code r_text r_json].
  change (201 =? 201)%Z with true. cbn [session http_log notices].
  rewrite (last_response_query_id_ok _ d q) by assumption.
  unfold fb_assign. rewrite Hh. run_monad. reflexivity.
Qed.

Lemma unhashable_query_id_not_recorded_witness :
  submit_feedback (Sample.api_reply 201 None) POSITIVE JNull JNull
                  (Scenario.answered_with Scenario.body_list_id)
  = (Ret false,
     mkWorld (session (Scenario.answered_with Scenario.body_list_id))
             (http_log (Scenario.answered_with Scenario.body_list_id)
                ++ [feedback_request (JArr [JNum 1%Q]) POSITIVE JNull JNull])
             (notices (Scenario.answered_with Scenario.body_list_id)
                ++ [ConnectionErrorBox TypeError])).
Proof.
  apply (unhashable_query_id_not_recorded (Sample.api_reply 201 None)
           POSITIVE JNull JNull
           (Scenario.answered_with Scenario.body_list_id)
           Scenario.body_list_id (JArr [JNum 1%Q]) [] None).
  - repeat split.
  - reflexivity.
  - reflexivity.
Defined.

Lemma get_reflection_fails api w d q :
  active_query w d q ->
  (forall text v,
      next_reply api w (reflect_request q) <> Reply 200 text (Some v)) ->
  exists n,
    get_reflection api w
    = (Ret JNull,
       mkWorld (session w) (http_log w ++ [reflect_request q])
               (notices w ++ [n])).
Proof.
  intros Ha Hf. pose proof (active_query_guard _ _ _ Ha) as Hg.
  destruct Ha as (Hl & Hq & Ht). unfold next_reply, reflect_request in Hf.
  unfold get_reflection. run_monad. rewrite Hg.
  rewrite (last_response_query_id_ok _ _ _ Hl Hq).
  unfold requests_post, http, response_json.
  destruct (api _ _) as [msg | status text body]; run_monad.
  - eexists. reflexivity.
  - destruct (Z.eqb_spec status 200) as [->|N]; run_monad.
    + destruct body as [v|]; run_monad.
      * exfalso. apply (Hf text v). reflexivity.
      * eexists. reflexivity.
    + eexists. reflexivity.
Qed.

(** X7: [get_reflection] never raises and never touches the session.
    Without an active query it issues no request; with one it issues exactly
    one POST /reflect carrying the query identifier of the last response,
    returns the decoded body of a 200 reply, and on any other reply shows
    one error box and returns None. *)
Theorem get_reflection_outcome api w :
  (exists v, fst (get_reflection api w) = Ret v) /\
  session (snd (get_reflection api w)) = session w /\
  (no_active_query (session w) = true ->
   http_log (snd (get_reflection api w)) = http_log w) /\
  (forall d q,
      active_query w d q ->
      http_log (snd (get_reflection api w))
      = http_log w ++ [reflect_request q] /\
      (forall text v,
          next_reply api w (reflect_request q) = Reply 200 text (Some v) ->
          fst (get_reflection api w) = Ret v /\
          notices (snd (get_reflection api w)) = notices w) /\
      ((forall text v,
           next_reply api w (reflect_request q) <> Reply 200 text (Some v)) ->
       fst (get_reflection api w) = Ret JNull /\
       exists n, notices (snd (get_reflection api w)) = notices w ++ [n])).
Proof.
  split; [|split; [apply get_reflection_session|split]].
  - destruct (no_active_query (session w)) eqn:Hg.
    + rewrite (get_reflection_no_query _ _ Hg). eexists. reflexivity.
    + destruct (no_active_query_false _ Hg) as (d & q & Hl & Hq & Ht).
      assert (Ha : active_query w d q) by (repeat split; assumption).
      destruct (next_reply api w (reflect_request q))
        as [msg | status text body] eqn:Hr.
      * destruct (get_reflection_fails api w d q Ha) as [n Hn].
        { intros text v H. rewrite Hr in H. discriminate H. }
        rewrite Hn. eexists. reflexivity.
      * destruct (Z.eq_dec status 200) as [->|N];
          [destruct body as [v|]|].
        -- rewrite (get_reflection_200 _ _ _ _ _ _ Ha Hr).
           eexists. reflexivity.
        -- destruct (get_reflection_fails api w d q Ha) as [n Hn].
           { intros text' v H. rewrite Hr in H. discriminate H. }
           rewrite Hn. eexists. reflexivity.
        -- destruct (get_reflection_fails api w d q Ha) as [n Hn].
           { intros text' v H. rewrite Hr in H. injection H as E _ _.
             contradiction. }
           rewrite Hn. eexists. reflexivity.
  - intros Hg. rewrite (get_reflection_no_query _ _ Hg). reflexivity.
  - intros d q Ha. split; [|split].
    + destruct (next_reply api w (reflect_request q))
        as [msg | status text body] eqn:Hr.
      * destruct (get_reflection_fails api w d q Ha) as [n Hn].
        { intros text v H. rewrite Hr in H. discriminate H. }
        rewrite Hn. reflexivity.
      * destruct (Z.eq_dec status 200) as [->|N];
          [destruct body as [v|]|].
        -- rewrite (get_reflection_200 _ _ _ _ _ _ Ha Hr). reflexivity.
        -- destruct (get_reflection_fails api w d q Ha) as [n Hn].
           { intros text' v H. rewrite Hr in H. discriminate H. }
           rewrite Hn. reflexivity.
        -- destruct (get_reflection_fails api w d q Ha) as [n Hn].
           { intros text' v H. rewrite Hr in H. injection H as E _ _.
             contradiction. }
           rewrite Hn. reflexivity.
    + intros text v Hr. rewrite (get_reflection_200 _ _ _ _ _ _ Ha Hr).
      split; reflexivity.
    + intros Hf. destruct (get_reflection_fails api w d q Ha Hf) as [n Hn].
      rewrite Hn. split; [reflexivity|]. exists n. reflexivity.
Qed.

Lemma get_reflection_outcome_witness :
  http_log (snd (get_reflection Sample.api_down Sample.start))
  = http_log Sample.start /\
  http_log (snd (get_reflection Sample.api_down Sample.answered))
  = http_log Sample.answered ++ [reflect_request (JStr (lit "q1"))] /\
  (fst (get_reflection Sample.api_down Sample.answered) = Ret JNull /\
   exists n,
     notices (snd (get_reflection Sample.api_down Sample.answered))
     = notices Sample.answered ++ [n]).
Proof.
  split; [|split].
  - apply (get_reflection_outcome Sample.api_down Sample.start).
    reflexivity.
  - apply (proj1 (proj2 (proj2 (proj2 (get_reflection_outcome
                                         Sample.api_down Sample.answered)))
                        Sample.body (JStr (lit "q1"))
                        ltac:(repeat split))).
  - apply (proj2 (proj2 (proj2 (proj2 (proj2 (get_reflection_outcome
                                         Sample.api_down Sample.answered)))
                        Sample.body (JStr (lit "q1"))
                        ltac:(repeat split)))).
    intros text v H. discriminate H.
Defined.

(** ** The gate of the feedback section, in full *)

Lemma last_snoc {A} (c : list A) m d : last (c ++ [m]) d = m.
Proof. apply last_last. Qed.

Lemma feedback_gate_open w d q c m :
  last_response (session w) = Some d ->
  dict_lookup "query_id" d = Some q ->
  hashable q = true ->
  fb_mem q (feedback_given (session w)) = false ->
  conversation (session w) = c ++ [m] ->
  msg_role m = assistant ->
  feedback_gate w = (Ret true, w).
Proof.
  intros Hl Hq Hh Hm Hc Hrole. unfold feedback_gate. run_monad. rewrite Hl.
  assert (Ht : truthy (JObj d) = true).
  { destruct d; [discriminate Hq|reflexivity]. }
  rewrite Ht.
  destruct (conversation (session w)) as [|m0 c0] eqn:E.
  { destruct c; discriminate Hc. }
  assert (Hlast : last c0 m0 = m).
  { rewrite <- (last_cons m0 c0 m0), Hc. apply last_snoc. }
  rewrite Hlast, Hrole. cbn [role_eqb].
  rewrite (last_response_query_id_ok _ _ _ Hl Hq).
  unfold fb_contains. rewrite Hh. run_monad. rewrite Hm. reflexivity.
Qed.

(** X8: evaluating the gate of the feedback section changes nothing, and
    the section is shown exactly when the last response is a dictionary with
    a query identifier that is hashable and not yet in [feedback_given], and
    the conversation ends with an assistant turn. *)
Theorem feedback_shown_iff w :
  snd (feedback_gate w) = w /\
  (feedback_shown w <->
   exists d q c m,
     last_response (session w) = Some d /\
     dict_lookup "query_id" d = Some q /\
     hashable q = true /\
     fb_mem q (feedback_given (session w)) = false /\
     conversation (session w) = c ++ [m] /\
     msg_role m = assistant).
Proof.
  split; [apply feedback_gate_world|]. split.
  - apply feedback_shown_inv.
  - intros (d & q & c & m & Hl & Hq & Hh & Hm & Hc & Hrole).
    exact (feedback_gate_open w d q c m Hl Hq Hh Hm Hc Hrole).
Qed.

(** X9: when the last response is a non-empty dictionary without a query
    identifier and the conversation ends with an assistant turn, the gate
    itself raises KeyError (it subscripts where the helpers use [get]); the
    feedback section raises with it and nothing is sent or changed. *)
Theorem gate_raises_on_missing_query_id api wd w d c m :
  last_response (session w) = Some d ->
  d <> [] ->
  dict_lookup "query_id" d = None ->
  conversation (session w) = c ++ [m] ->
  msg_role m = assistant ->
  feedback_gate w = (Raise (KeyError "query_id"), w) /\
  feedback_section api wd w = (Raise (KeyError "query_id"), w).
Proof.
  intros Hl Hne Hq Hc Hrole.
  assert (Hgate : feedback_gate w = (Raise (KeyError "query_id"), w)).
  { unfold feedback_gate. run_monad. rewrite Hl.
    assert (Ht : truthy (JObj d) = true).
    { destruct d; [contradiction|reflexivity]. }
    rewrite Ht.
    destruct (conversation (session w)) as [|m0 c0] eqn:E.
    { destruct c; discriminate Hc. }
    assert (Hlast : last c0 m0 = m).
    { rewrite <- (last_cons m0 c0 m0), Hc. apply last_snoc. }
    rewrite Hlast, Hrole. cbn [role_eqb].
    unfold last_response_query_id, subscript. run_monad.
    rewrite Hl, Hq. reflexivity. }
  split; [exact Hgate|].
  unfold feedback_section, bind. rewrite Hgate. reflexivity.
Qed.

Lemma gate_raises_on_missing_query_id_witness :
  feedback_gate (Scenario.answered_with Sample.body_no_id)
  = (Raise (KeyError "query_id"), Scenario.answered_with Sample.body_no_id)
  /\
  feedback_section Sample.api_service (Scenario.widgets_all (lit "fix"))
                   (Scenario.answered_with Sample.body_no_id)
  = (Raise (KeyError "query_id"), Scenario.answered_with Sample.body_no_id).
Proof.
  apply (gate_raises_on_missing_query_id Sample.api_service
           (Scenario.widgets_all (lit "fix"))
           (Scenario.answered_with Sample.body_no_id) Sample.body_no_id
           [user_message Sample.prompt]
           (mkMessage assistant (JStr (lit "..."))
                      (Some (JArr [Sample.document])) (Some JNull))).
  - reflexivity.
  - discriminate.
  - reflexivity.
  - reflexivity.
  - reflexivity.
Defined.

(** ** The chat input and the feedback section in one run *)

(** X10: a query that is answered with a well-formed body whose query
    identifier is hashable and not yet in [feedback_given] opens the feedback
    section in the same run. *)
Theorem answered_query_opens_feedback
        api wd w prompt text d answer docs q :
  submitted wd prompt ->
  (3 <= List.length (strip prompt))%nat ->
  next_reply api w (query_request wd w prompt)
  = Reply 200 text (Some (JObj d)) ->
  query_response d answer docs ->
  dict_lookup "query_id" d = Some q ->
  hashable q = true ->
  fb_mem q (feedback_given (session w)) = false ->
  feedback_shown (snd (chat_input_handler api wd w)).
Proof.
  intros Hs Hlen Hr Hresp Hq Hh Hm.
  rewrite (chat_input_handler_success _ _ _ _ _ _ _ _ Hs Hlen Hr Hresp).
  cbn [snd]. unfold feedback_shown.
  apply (feedback_gate_open _ d q
           (conversation (session w) ++ [user_message prompt])
           (assistant_message d answer docs));
    cbn [session last_response feedback_given conversation];
    try assumption; try reflexivity.
  rewrite <- app_assoc. reflexivity.
Qed.

Lemma answered_query_opens_feedback_witness :
  feedback_shown
    (snd (chat_input_handler
            (Sample.api_reply 200 (Some (JObj Sample.body)))
            (Sample.widgets_chat Sample.prompt) Sample.start)).
Proof.
  apply (answered_query_opens_feedback
           (Sample.api_reply 200 (Some (JObj Sample.body)))
           (Sample.widgets_chat Sample.prompt) Sample.start Sample.prompt
           [] Sample.body (JStr (lit "...")) [Sample.document]
           (JStr (lit "q1"))).
  - split; [reflexivity|discriminate].
  - vm_compute. lia.
  - reflexivity.
  - repeat split.
  - reflexivity.
  - reflexivity.
  - reflexivity.
Defined.

(** X11: after a query that failed (a status other than 200 or a transport
    error) the conversation ends with the user turn, so the feedback section
    of the same run does nothing, even though the last response of an
    earlier answer is still in the session. *)
Theorem failed_query_hides_feedback api wd w prompt :
  submitted wd prompt ->
  (3 <= List.length (strip prompt))%nat ->
  call_fails 200 (next_reply api w (query_request wd w prompt)) ->
  last_response (session (snd (chat_input_handler api wd w)))
  = last_response (session w) /\
  feedback_section api wd (snd (chat_input_handler api wd w))
  = (Ret tt, snd (chat_input_handler api wd w)).
Proof.
  intros Hs Hlen Hf.
  destruct (chat_input_handler_failure _ _ _ _ Hs Hlen Hf) as [n Hn].
  rewrite Hn. cbn [snd session]. split; [reflexivity|].
  unfold feedback_section, feedback_gate. run_monad.
  cbn [set_conversation last_response conversation].
  destruct (last_response (session w)) as [d|]; [|reflexivity].
  destruct (truthy (JObj d)); [|reflexivity].
  destruct (conversation (session w) ++ [user_message prompt])
    as [|m0 c0] eqn:E.
  { reflexivity. }
  assert (Hlast : last c0 m0 = user_message prompt).
  { rewrite <- (last_cons m0 c0 m0), <- E. apply last_snoc. }
  rewrite Hlast. reflexivity.
Qed.

Lemma failed_query_hides_feedback_witness :
  last_response
    (session (snd (chat_input_handler Sample.api_down
                     (Sample.widgets_chat Sample.prompt) Sample.answered)))
  = last_response (session Sample.answered) /\
  feedback_section Sample.api_down (Sample.widgets_chat Sample.prompt)
    (snd (chat_input_handler Sample.api_down
            (Sample.widgets_chat Sample.prompt) Sample.answered))
  = (Ret tt,
     snd (chat_input_handler Sample.api_down
            (Sample.widgets_chat Sample.prompt) Sample.answered)).
Proof.
  apply (failed_query_hides_feedback Sample.api_down
           (Sample.widgets_chat Sample.prompt) Sample.answered
           Sample.prompt).
  - split; [reflexivity|discriminate].
  - vm_compute. lia.
  - exact I.
Defined.

(** ** The statistics panel and the status line *)

Lemma harmless_ret {A} (a : A) : harmless (ret a).
Proof. intros w. split; [reflexivity|discriminate]. Qed.

Lemma harmless_raise {A} e : is_Exception e = true -> harmless (@raise A e).
Proof.
  intros H w. split; [reflexivity|]. intros e' E. injection E as <-. exact H.
Qed.

Lemma harmless_bind {A B} (c : M A) (k : A -> M B) :
  harmless c -> (forall a, harmless (k a)) -> harmless (bind c k).
Proof.
  intros Hc Hk w. unfold bind. destruct (Hc w) as [Hw He].
  destruct (c w) as [[a|e] w1]; cbn [fst snd] in *; subst w1.
  - apply Hk.
  - split; [reflexivity|]. intros e' E. injection E as <-.
    exact (He e eq_refl).
Qed.

Lemma harmless_for_each {A} (l : list A) body :
  (forall x, harmless (body x)) -> harmless (for_each l body).
Proof.
  intros Hb. induction l as [|x l IH]; cbn [for_each].
  - apply harmless_ret.
  - apply harmless_bind; [apply Hb|intros _; exact IH].
Qed.

Lemma harmless_subscript v k : harmless (subscript v k).
Proof.
  unfold subscript. destruct v as [| | | | |d];
    try (apply harmless_raise; reflexivity).
  destruct (dict_lookup k d);
    [apply harmless_ret|apply harmless_raise; reflexivity].
Qed.

Lemma harmless_response_json r : harmless (response_json r).
Proof.
  unfold response_json. destruct (r_json r);
    [apply harmless_ret|apply harmless_raise; reflexivity].
Qed.

Lemma harmless_sum_values v : harmless (sum_values v).
Proof.
  unfold sum_values. destruct v as [| | | | |d];
    try (apply harmless_raise; reflexivity).
  apply harmless_for_each. intros [k x]. cbn [snd].
  destruct x; first [apply harmless_ret|apply harmless_raise; reflexivity].
Qed.

Lemma sidebar_statistics_effect api w :
  exists ns,
    sidebar_statistics api w
    = (Ret tt,
       mkWorld (session w) (http_log w ++ [GET "/stats"]) (notices w ++ ns))
    /\ (List.length ns <= 1)%nat.
Proof.
  unfold sidebar_statistics.
  match goal with
  | |- context [bind (requests_get api "/stats") ?K] =>
      assert (Hh : forall r, harmless (K r)); [|set (rest := K) in *]
  end.
  { intros r.
    repeat first
      [ apply harmless_ret
      | apply harmless_subscript
      | apply harmless_response_json
      | apply harmless_sum_values
      | apply harmless_bind; [|intros ?] ]. }
  clearbody rest.
  unfold try_except, bind, requests_get, http.
  destruct (api _ _) as [msg | status text body].
  - cbn [is_Exception]. unfold show. cbn [session http_log notices].
    eexists. split; [reflexivity|simpl; lia].
  - match goal with
    | |- context [rest ?r ?w1] =>
        destruct (Hh r w1) as [Hw He]; destruct (rest r w1) as [[[]|e] w2]
    end; cbn [fst snd] in *; subst w2.
    + exists []. rewrite app_nil_r. split; [reflexivity|simpl; lia].
    + rewrite (He e eq_refl). unfold show. cbn [session http_log notices].
      eexists. split; [reflexivity|simpl; lia].
Qed.

Lemma sidebar_status_effect api w :
  exists n,
    sidebar_status api w
    = (Ret tt,
       mkWorld (session w) (http_log w ++ [GET "/stats"]) (notices w ++ [n])).
Proof.
  unfold sidebar_status, requests_get, http, show.
  destruct (api _ _) as [msg | status text body];
    cbn [r_status_code session http_log notices].
  - eexists. reflexivity.
  - destruct (status =? 200)%Z; eexists; reflexivity.
Qed.

(** X12: the statistics panel and the status line never stop the script:
    whatever GET /stats gives (a transport error, any status, any body), each
    returns normally, issues exactly one GET /stats and leaves the session
    untouched; the panel shows at most one warning, the status line exactly
    one box. *)
Theorem statistics_never_block api w :
  (fst (sidebar_statistics api w) = Ret tt /\
   session (snd (sidebar_statistics api w)) = session w /\
   http_log (snd (sidebar_statistics api w)) = http_log w ++ [GET "/stats"] /\
   exists ns,
     notices (snd (sidebar_statistics api w)) = notices w ++ ns /\
     (List.length ns <= 1)%nat)
  /\
  (fst (sidebar_status api w) = Ret tt /\
   session (snd (sidebar_status api w)) = session w /\
   http_log (snd (sidebar_status api w)) = http_log w ++ [GET "/stats"] /\
   exists n, notices (snd (sidebar_status api w)) = notices w ++ [n]).
Proof.
  split.
  - destruct (sidebar_statistics_effect api w) as (ns & H & Hn).
    rewrite H. repeat split. exists ns. split; [reflexivity|exact Hn].
  - destruct (sidebar_status_effect api w) as (n & H).
    rewrite H. repeat split. exists n. reflexivity.
Qed.

(** ** Edge cases of the chat input *)

Lemma lstrip_all_space s : forallb py_isspace s = true -> lstrip s = [].
Proof.
  induction s as [|c s IH]; [reflexivity|].
  cbn [forallb lstrip]. intros H. apply andb_true_iff in H.
  destruct H as [Hc Hs]. rewrite Hc. exact (IH Hs).
Qed.

(** X13: a submitted text that consists of whitespace only (spaces, tabs,
    line breaks, and the other characters [str.strip] removes) is always
    rejected with the validation warning; nothing is sent or changed. *)
Theorem whitespace_prompt_rejected api wd w text :
  submitted wd text ->
  forallb py_isspace text = true ->
  chat_input_handler api wd w
  = (Raise StopException,
     mkWorld (session w) (http_log w)
             (notices w ++ [MeaningfulQuestionWarning])).
Proof.
  intros Hs Hsp. apply submitted_truthy in Hs. destruct Hs as [Hc Ht].
  assert (Hlen : (List.length (strip text) < 3)%nat).
  { unfold strip, rstrip. rewrite (lstrip_all_space _ Hsp). simpl. lia. }
  rewrite (chat_input_handler_short _ _ _ _ Hc Hlen), Ht. reflexivity.
Qed.

Lemma whitespace_prompt_rejected_witness :
  chat_input_handler Sample.api_service
    (Sample.widgets_chat [32; 9; 10; 160; 8239; 12288; 32; 32]%N)
    Sample.answered
  = (Raise StopException,
     mkWorld (session Sample.answered) (http_log Sample.answered)
             (notices Sample.answered ++ [MeaningfulQuestionWarning])).
Proof.
  apply (whitespace_prompt_rejected Sample.api_service
           (Sample.widgets_chat [32; 9; 10; 160; 8239; 12288; 32; 32]%N)
           Sample.answered [32; 9; 10; 160; 8239; 12288; 32; 32]%N).
  - split; [reflexivity|discriminate].
  - reflexivity.
Defined.

(** ** The "Clear Conversation" button in a run *)

(** X14: a run in which "Clear Conversation" is clicked stops at the
    button: the settings are taken from the sidebar, the conversation, the
    current query identifier and the last response are reset, and nothing
    after the button runs, so no request is issued, no box is shown, and a
    text submitted in the chat input or a feedback button clicked in that
    run is dropped; [feedback_given] is kept. *)
Theorem clear_run_stops_at_button api wd w :
  clear_clicked wd = true ->
  fst (script api wd w) = Raise RerunException /\
  session (snd (script api wd w))
  = mkSession [] JNull (feedback_given (session w)) (widget_settings wd) None /\
  http_log (snd (script api wd w)) = http_log w /\
  notices (snd (script api wd w)) = notices w.
Proof.
  intros H. rewrite (script_clear api wd w H). repeat split.
Qed.

Lemma clear_run_stops_at_button_witness :
  fst (script Sample.api_service Scenario.widgets_clear Sample.rated)
  = Raise RerunException /\
  session (snd (script Sample.api_service Scenario.widgets_clear
                       Sample.rated))
  = mkSession [] JNull (feedback_given (session Sample.rated))
              (widget_settings Scenario.widgets_clear) None /\
  http_log (snd (script Sample.api_service Scenario.widgets_clear
                        Sample.rated))
  = http_log Sample.rated /\
  notices (snd (script Sample.api_service Scenario.widgets_clear
                       Sample.rated))
  = notices Sample.rated.
Proof.
  apply (clear_run_stops_at_button Sample.api_service Scenario.widgets_clear
           Sample.rated).
  reflexivity.
Defined.

(** ** Edge cases of the "Reflect" button *)

(** X15: the three ways the "Reflect" button ends without a reflection.
    On a reply that is not a decodable 200 the handler shows one error box
    and returns normally; on a 200 whose body is falsy (null, an empty
    dictionary) it returns normally and shows nothing; on a 200 whose body
    is a non-empty dictionary without the key ["reflection"] it raises
    KeyError.  In all three the session is unchanged and one POST /reflect
    was issued. *)
Theorem reflect_button_without_reflection api w d q :
  active_query w d q ->
  ((forall text v,
       next_reply api w (reflect_request q) <> Reply 200 text (Some v)) ->
   exists n,
     reflect_button api w
     = (Ret tt,
        mkWorld (session w) (http_log w ++ [reflect_request q])
                (notices w ++ [n])))
  /\
  (forall text v,
      next_reply api w (reflect_request q) = Reply 200 text (Some v) ->
      truthy v = false ->
      reflect_button api w
      = (Ret tt,
         mkWorld (session w) (http_log w ++ [reflect_request q])
                 (notices w)))
  /\
  (forall text body,
      next_reply api w (reflect_request q)
      = Reply 200 text (Some (JObj body)) ->
      body <> [] ->
      dict_lookup "reflection" body = None ->
      reflect_button api w
      = (Raise (KeyError "reflection"),
         mkWorld (session w) (http_log w ++ [reflect_request q])
                 (notices w))).
Proof.
  intros Ha. split; [|split].
  - intros Hf. destruct (get_reflection_fails api w d q Ha Hf) as [n Hn].
    exists n. unfold reflect_button, bind. rewrite Hn. reflexivity.
  - intros text v Hr Hv. unfold reflect_button, bind.
    rewrite (get_reflection_200 _ _ _ _ _ _ Ha Hr), Hv. reflexivity.
  - intros text body Hr Hne Hk. unfold reflect_button, bind.
    rewrite (get_reflection_200 _ _ _ _ _ _ Ha Hr).
    assert (Ht : truthy (JObj body) = true).
    { destruct body; [contradiction|reflexivity]. }
    rewrite Ht. unfold subscript. rewrite Hk. reflexivity.
Qed.

Lemma reflect_button_without_reflection_witness :
  (exists n,
      reflect_button (Sample.api_reply 500 None) Sample.answered
      = (Ret tt,
         mkWorld (session Sample.answered)
                 (http_log Sample.answered
                    ++ [reflect_request (JStr (lit "q1"))])
                 (notices Sample.answered ++ [n])))
  /\
  reflect_button (Sample.api_reply 200 (Some (JObj []))) Sample.answered
  = (Ret tt,
     mkWorld (session Sample.answered)
             (http_log Sample.answered ++ [reflect_request (JStr (lit "q1"))])
             (notices Sample.answered))
  /\
  reflect_button
    (Sample.api_reply 200 (Some (JObj [("critique", JStr (lit "sound"))])))
    Sample.answered
  = (Raise (KeyError "reflection"),
     mkWorld (session Sample.answered)
             (http_log Sample.answered ++ [reflect_request (JStr (lit "q1"))])
             (notices Sample.answered)).
Proof.
  assert (Ha : active_query Sample.answered Sample.body (JStr (lit "q1"))).
  { repeat split. }
  split; [|split].
  - apply (proj1 (reflect_button_without_reflection
                    (Sample.api_reply 500 None) Sample.answered
                    Sample.body (JStr (lit "q1")) Ha)).
    intros text v H. discriminate H.
  - apply (proj1 (proj2 (reflect_button_without_reflection
                           (Sample.api_reply 200 (Some (JObj [])))
                           Sample.answered Sample.body (JStr (lit "q1")) Ha))
                 [] (JObj [])); reflexivity.
  - apply (proj2 (proj2 (reflect_button_without_reflection
                           (Sample.api_reply 200
                              (Some (JObj [("critique", JStr (lit "sound"))])))
                           Sample.answered Sample.body (JStr (lit "q1")) Ha))
                 [] [("critique", JStr (lit "sound"))]).
    + reflexivity.
    + discriminate.
    + reflexivity.
Defined.

(** ** A 200 reply whose body the handler cannot show *)

(** X16: when POST /query answers 200 with a non-empty dictionary that
    lacks the answer or the retrieved documents, or whose documents cannot be
    shown, the handler raises after [send_query] returned: the user turn
    stays, no assistant turn is appended, and yet the body is already the
    last response and its identifier the current query identifier.  As the
    conversation then ends with a user turn, the gate of the feedback section
    is closed on that state. *)
Theorem unshowable_body_partial_state api wd w prompt text d :
  submitted wd prompt ->
  (3 <= List.length (strip prompt))%nat ->
  next_reply api w (query_request wd w prompt)
  = Reply 200 text (Some (JObj d)) ->
  d <> [] ->
  (dict_lookup "answer" d = None \/
   (exists answer, dict_lookup "answer" d = Some answer /\
                   dict_lookup "retrieved_documents" d = None) \/
   (exists answer docs,
       dict_lookup "answer" d = Some answer /\
       dict_lookup "retrieved_documents" d = Some docs /\
       documents_displayable docs = false)) ->
  (exists e,
      chat_input_handler api wd w
      = (Raise e,
         mkWorld
           (mkSession (conversation (session w) ++ [user_message prompt])
                      (dict_get "query_id" d)
                      (feedback_given (session w))
                      (model_settings (session w))
                      (Some d))
           (http_log w ++ [query_request wd w prompt])
           (notices w)))
  /\
  fst (feedback_gate (snd (chat_input_handler api wd w))) = Ret false.
Proof.
  intros Hs Hlen Hr Hne Hbad.
  apply submitted_truthy in Hs. destruct Hs as [Hc Ht].
  assert (Hd : truthy (JObj d) = true).
  { destruct d; [contradiction|reflexivity]. }
  assert (Hrun :
            exists e,
              chat_input_handler api wd w
              = (Raise e,
                 mkWorld
                   (mkSession
                      (conversation (session w) ++ [user_message prompt])
                      (dict_get "query_id" d)
                      (feedback_given (session w))
                      (model_settings (session w))
                      (Some d))
                   (http_log w ++ [query_request wd w prompt])
                   (notices w))).
  { unfold chat_input_handler. rewrite Hc, Ht.
    destruct (Nat.ltb_spec (List.length (strip prompt)) 3) as [L|L]; [lia|].
    unfold append_message. run_monad.
    rewrite (send_query_ok api prompt _ _ _ text d) by exact Hr.
    rewrite Hd. unfold subscript, method_get. run_monad.
    destruct Hbad as [Ha | [(answer & Ha & Hdocs)
                           | (answer & docs & Ha & Hdocs & Hshow)]];
      rewrite Ha; run_monad.
    - eexists. reflexivity.
    - rewrite Hdocs. eexists. reflexivity.
    - rewrite Hdocs.
      match goal with
      | |- context [display_documents docs ?w1] =>
          destruct (display_documents_raises docs w1 Hshow) as [e He];
          rewrite He
      end.
      exists e. reflexivity. }
  split; [exact Hrun|].
  destruct Hrun as [e He]. rewrite He. cbn [snd].
  unfold feedback_gate. run_monad.
  cbn [last_response conversation]. rewrite Hd.
  destruct (conversation (session w) ++ [user_message prompt])
    as [|m0 c0] eqn:E.
  { reflexivity. }
  assert (Hlast : last c0 m0 = user_message prompt).
  { rewrite <- (last_cons m0 c0 m0), <- E. apply last_snoc. }
  rewrite Hlast. reflexivity.
Qed.

Lemma unshowable_body_partial_state_witness :
  (exists e,
      chat_input_handler
        (Sample.api_reply 200 (Some (JObj Scenario.body_no_answer)))
        (Sample.widgets_chat Sample.prompt) Sample.start
      = (Raise e,
         mkWorld
           (mkSession
              (conversation (session Sample.start)
                 ++ [user_message Sample.prompt])
              (dict_get "query_id" Scenario.body_no_answer)
              (feedback_given (session Sample.start))
              (model_settings (session Sample.start))
              (Some Scenario.body_no_answer))
           (http_log Sample.start
              ++ [query_request (Sample.widgets_chat Sample.prompt)
                                Sample.start Sample.prompt])
           (notices Sample.start)))
  /\
  fst (feedback_gate
         (snd (chat_input_handler
                 (Sample.api_reply 200 (Some (JObj Scenario.body_no_answer)))
                 (Sample.widgets_chat Sample.prompt) Sample.start)))
  = Ret false.
Proof.
  apply (unshowable_body_partial_state
           (Sample.api_reply 200 (Some (JObj Scenario.body_no_answer)))
           (Sample.widgets_chat Sample.prompt) Sample.start Sample.prompt
           [] Scenario.body_no_answer).
  - split; [reflexivity|discriminate].
  - vm_compute. lia.
  - reflexivity.
  - discriminate.
  - left. reflexivity.
Defined.

(** ** Invariants of the session across a run *)

Create HintDb keeps.

Section Keeps.

Variable J : world -> Prop.

Lemma keeps_ret {A} (a : A) : preserves J (ret a).
Proof. intros w H. exact H. Qed.

Lemma keeps_raise {A} e : preserves J (@raise A e).
Proof. intros w H. exact H. Qed.

Lemma keeps_bind {A B} (c : M A) (k : A -> M B) :
  preserves J c -> (forall a, preserves J (k a)) -> preserves J (bind c k).
Proof.
  intros Hc Hk w H. unfold bind. specialize (Hc w H).
  destruct (c w) as [[a|e] w1]; cbn [snd] in *; [|exact Hc].
  apply Hk. exact Hc.
Qed.

Lemma keeps_try_except {A} (body : M A) handler :
  preserves J body -> (forall e, preserves J (handler e)) ->
  preserves J (try_except body handler).
Proof.
  intros Hb Hh w H. unfold try_except. specialize (Hb w H).
  destruct (body w) as [[a|e] w1]; cbn [snd] in *; [exact Hb|].
  destruct (is_Exception e); [|exact Hb].
  apply Hh. exact Hb.
Qed.

Lemma keeps_when c body : preserves J body -> preserves J (when c body).
Proof. intros Hb. destruct c; [exact Hb|apply keeps_ret]. Qed.

Lemma keeps_world {A} (c : M A) :
  (forall w, snd (c w) = w) -> preserves J c.
Proof. intros Hc w H. rewrite Hc. exact H. Qed.

End Keeps.

Lemma display_history_world w : snd (display_history w) = w.
Proof.
  unfold display_history. run_monad.
  generalize (conversation (session w)). intros c. revert w.
  induction c as [|m c IH]; intros w; [reflexivity|].
  cbn [for_each]. unfold bind.
  assert (Hm : snd (display_message m w) = w).
  { unfold display_message. destruct (msg_sources m) as [docs|];
      [|reflexivity].
    destruct (truthy docs); [apply display_documents_world|reflexivity]. }
  destruct (display_message m w) as [[u|e] w1]; cbn [snd] in Hm; subst w1.
  - apply IH.
  - reflexivity.
Qed.

Lemma sidebar_statistics_session api w :
  session (snd (sidebar_statistics api w)) = session w.
Proof.
  destruct (sidebar_statistics_effect api w) as (ns & H & _).
  rewrite H. reflexivity.
Qed.

Lemma sidebar_status_session api w :
  session (snd (sidebar_status api w)) = session w.
Proof.
  destruct (sidebar_status_effect api w) as (n & H).
  rewrite H. reflexivity.
Qed.

Section SessionInvariant.

Variable I : session_state -> Prop.

Lemma keeps_session {A} (c : M A) :
  (forall w, session (snd (c w)) = session w) ->
  preserves (on_session I) c.
Proof. intros Hc w H. unfold on_session. rewrite Hc. exact H. Qed.

Lemma keeps_get_session : preserves (on_session I) get_session.
Proof. apply keeps_session. reflexivity. Qed.

Lemma keeps_show n : preserves (on_session I) (show n).
Proof. apply keeps_session. reflexivity. Qed.

Lemma keeps_http api rq : preserves (on_session I) (http api rq).
Proof.
  apply keeps_session. intros w. unfold http. destruct (api _ _); reflexivity.
Qed.

Lemma keeps_subscript v k : preserves (on_session I) (subscript v k).
Proof.
  apply keeps_world. intros w. apply (proj1 (harmless_subscript v k w)).
Qed.

Lemma keeps_method_get v k : preserves (on_session I) (method_get v k).
Proof.
  apply keeps_world. intros w. unfold method_get. destruct v; reflexivity.
Qed.

Lemma keeps_display_documents docs :
  preserves (on_session I) (display_documents docs).
Proof. apply keeps_world. apply display_documents_world. Qed.

Lemma keeps_get_reflection api : preserves (on_session I) (get_reflection api).
Proof. apply keeps_session. apply get_reflection_session. Qed.

Lemma keeps_feedback_gate : preserves (on_session I) feedback_gate.
Proof. apply keeps_world. apply feedback_gate_world. Qed.

Lemma keeps_display_history : preserves (on_session I) display_history.
Proof. apply keeps_world. apply display_history_world. Qed.

Lemma keeps_sidebar_statistics api :
  preserves (on_session I) (sidebar_statistics api).
Proof. apply keeps_session. apply sidebar_statistics_session. Qed.

Lemma keeps_sidebar_status api :
  preserves (on_session I) (sidebar_status api).
Proof. apply keeps_session. apply sidebar_status_session. Qed.

#[local] Hint Resolve keeps_get_session keeps_show keeps_http keeps_subscript
  keeps_method_get keeps_display_documents keeps_get_reflection
  keeps_feedback_gate keeps_display_history keeps_sidebar_statistics
  keeps_sidebar_status : keeps.

(** What the invariant has to be checked against: the few places where the
    script writes the session. *)
Hypothesis I_append : forall m, preserves (on_session I) (append_message m).
Hypothesis I_send_query : forall api query field language,
    preserves (on_session I) (send_query api query field language).
Hypothesis I_chat : forall api wd,
    preserves (on_session I) (chat_input_handler api wd).
Hypothesis I_assign : forall k t, preserves (on_session I) (fb_assign k t).
Hypothesis I_submit : forall api t ct cm,
    preserves (on_session I) (submit_feedback api t ct cm).
Hypothesis I_reflect : forall v,
    preserves (on_session I) (assign_last (set_reflection v)).
Hypothesis I_correct : forall v,
    preserves (on_session I) (assign_last (set_content v)).
Hypothesis I_clear : preserves (on_session I) clear_conversation.

Lemma keeps_chat_input_handler_from_steps api wd :
  preserves (on_session I) (chat_input_handler api wd).
Proof.
  clear I_chat I_assign I_submit I_reflect I_correct I_clear.
  unfold chat_input_handler, st_stop. cbv zeta.
  repeat first
    [ solve [auto 1 with keeps nocore]
    | apply keeps_ret
    | apply keeps_raise
    | apply I_append
    | apply I_send_query
    | apply keeps_bind; [|intros ?]
    | apply keeps_when
    | match goal with
      | |- preserves _ (match ?x with _ => _ end) => destruct x
      end ].
Qed.

Lemma keeps_submit_feedback_from_steps api t ct cm :
  preserves (on_session I) (submit_feedback api t ct cm).
Proof.
  clear I_chat I_append I_send_query I_submit I_reflect I_correct I_clear.
  unfold submit_feedback, requests_post, last_response_query_id. cbv zeta.
  repeat first
    [ solve [auto 1 with keeps nocore]
    | apply keeps_ret
    | apply keeps_raise
    | apply I_assign
    | apply keeps_bind; [|intros ?]
    | apply keeps_try_except; [|intros ?]
    | match goal with
      | |- preserves _ (match ?x with _ => _ end) => destruct x
      end ].
Qed.

Lemma keeps_feedback_section api wd :
  preserves (on_session I) (feedback_section api wd).
Proof.
  clear I_chat I_append I_send_query I_assign I_clear.
  unfold feedback_section, reflect_button, correction_form, st_rerun.
  repeat first
    [ solve [auto 1 with keeps nocore]
    | apply keeps_ret
    | apply keeps_raise
    | apply I_submit
    | apply I_reflect
    | apply I_correct
    | apply keeps_bind; [|intros ?]
    | apply keeps_when
    | match goal with
      | |- preserves _ (match ?x with _ => _ end) => destruct x
      end ].
Qed.

(** The script after the sidebar has written the settings. *)
Lemma keeps_script_after_settings api wd :
  preserves (on_session I)
    (clear_button wd ;;;
     sidebar_statistics api ;;;
     display_history ;;;
     chat_input_handler api wd ;;;
     feedback_section api wd ;;;
     sidebar_status api).
Proof.
  clear I_append I_send_query I_assign.
  apply keeps_bind.
  { unfold clear_button, st_rerun. apply keeps_when.
    apply keeps_bind; [apply I_clear|intros _; apply keeps_raise]. }
  intros _. apply keeps_bind; [apply keeps_sidebar_statistics|intros _].
  apply keeps_bind; [apply keeps_display_history|intros _].
  apply keeps_bind; [apply I_chat|intros _].
  apply keeps_bind; [apply keeps_feedback_section|intros _].
  apply keeps_sidebar_status.
Qed.

Lemma keeps_script api wd :
  preserves (on_session I) (sidebar_settings wd) ->
  preserves (on_session I) (script api wd).
Proof.
  clear I_append I_send_query I_assign.
  intros Hs. unfold script, initialize_session_state.
  apply keeps_bind; [apply keeps_ret|intros _].
  apply keeps_bind; [exact Hs|intros _].
  apply keeps_script_after_settings.
Qed.

End SessionInvariant.

Lemma keeps_modify_session (I : session_state -> Prop) f :
  (forall s, I s -> I (f s)) ->
  preserves (on_session I) (modify_session f).
Proof. intros Hf w H. apply Hf. exact H. Qed.

Lemma keeps_append_message (I : session_state -> Prop) m :
  (forall s c, I s -> I (set_conversation c s)) ->
  preserves (on_session I) (append_message m).
Proof.
  intros Hc. unfold append_message. apply keeps_modify_session.
  intros s H. apply Hc. exact H.
Qed.

Lemma keeps_assign_last (I : session_state -> Prop) f :
  (forall s c, I s -> I (set_conversation c s)) ->
  preserves (on_session I) (assign_last f).
Proof.
  intros Hc w H. unfold assign_last. run_monad.
  destruct (update_last f (conversation (session w))); [|exact H].
  apply Hc. exact H.
Qed.

Lemma keeps_fb_assign (I : session_state -> Prop) k t :
  (forall s fg, I s -> I (set_feedback_given fg s)) ->
  preserves (on_session I) (fb_assign k t).
Proof.
  intros Hf. unfold fb_assign. destruct (hashable k); [|apply keeps_raise].
  apply keeps_modify_session. intros s H. apply Hf. exact H.
Qed.

Lemma send_query_settings api query field language w :
  model_settings (session (snd (send_query api query field language w)))
  = model_settings (session w).
Proof.
  unfold send_query, requests_post, http, response_json, method_get.
  run_monad.
  destruct (api _ _) as [msg | status text body]; run_monad; [reflexivity|].
  destruct (status =? 200)%Z; run_monad; [|reflexivity].
  destruct body as [[| | | | |d]|]; reflexivity.
Qed.

(** ** The settings follow the sidebar *)

Lemma script_keeps_settings_after_sidebar api wd m :
  preserves (on_session (fun s => model_settings s = m))
    (clear_button wd ;;;
     sidebar_statistics api ;;;
     display_history ;;;
     chat_input_handler api wd ;;;
     feedback_section api wd ;;;
     sidebar_status api).
Proof.
  apply keeps_script_after_settings.
  - intros api' wd'. apply keeps_chat_input_handler_from_steps.
    + intros m'. apply keeps_append_message. intros s c H. exact H.
    + intros api'' query field language w H. unfold on_session.
      rewrite send_query_settings. exact H.
  - intros api' t ct cm. apply keeps_submit_feedback_from_steps.
    intros k t'. apply keeps_fb_assign. intros s fg H. exact H.
  - intros v. apply keeps_assign_last. intros s c H. exact H.
  - intros v. apply keeps_assign_last. intros s c H. exact H.
  - intros w H. exact H.
Qed.

(** X17: however a run of the script ends (normally, stopped, rerun, or on
    an exception), the settings of the session afterwards are the values the
    sidebar widgets held in that run: nothing after the sidebar writes them,
    and nothing stored earlier, the initial defaults included, survives. *)
Theorem settings_follow_sidebar api wd w :
  model_settings (session (snd (script api wd w))) = widget_settings wd.
Proof.
  change (script api wd w)
    with ((clear_button wd ;;;
           sidebar_statistics api ;;;
           display_history ;;;
           chat_input_handler api wd ;;;
           feedback_section api wd ;;;
           sidebar_status api)
            (mkWorld (set_model_settings (widget_settings wd) (session w))
                     (http_log w) (notices w))).
  apply (script_keeps_settings_after_sidebar api wd (widget_settings wd)).
  reflexivity.
Qed.

(** ** The current query identifier and the last response *)

Lemma send_query_consistent api query field language :
  preserves (on_session query_id_consistent)
            (send_query api query field language).
Proof.
  intros w H. unfold on_session, query_id_consistent in *.
  unfold send_query, requests_post, http, response_json, method_get.
  run_monad.
  destruct (api _ _) as [msg | status text body]; run_monad; [exact H|].
  destruct (status =? 200)%Z; run_monad; [|exact H].
  destruct body as [[| | | | |d]|]; run_monad; try exact H.
  reflexivity.
Qed.

Lemma script_keeps_consistent api wd :
  preserves (on_session query_id_consistent) (script api wd).
Proof.
  apply keeps_script.
  - intros api' wd'. apply keeps_chat_input_handler_from_steps.
    + intros m. apply keeps_append_message. intros s c H. exact H.
    + apply send_query_consistent.
  - intros api' t ct cm. apply keeps_submit_feedback_from_steps.
    intros k t'. apply keeps_fb_assign. intros s fg H. exact H.
  - intros v. apply keeps_assign_last. intros s c H. exact H.
  - intros v. apply keeps_assign_last. intros s c H. exact H.
  - intros w H. reflexivity.
  - unfold sidebar_settings. apply keeps_modify_session. intros s H. exact H.
Qed.

(** X18: in every state a session reaches, the current query identifier is
    the query identifier of the last response (None when there is no last
    response or it has none): the two are written together by [send_query]
    and reset together by the clear button, and nothing else writes them. *)
Theorem query_id_follows_last_response api w :
  reachable api w ->
  current_query_id (session w)
  = match last_response (session w) with
    | Some d => dict_get "query_id" d
    | None => JNull
    end.
Proof.
  induction 1 as [|w wd Hr IH].
  - reflexivity.
  - exact (script_keeps_consistent api wd w IH).
Qed.

Lemma query_id_follows_last_response_witness :
  current_query_id
    (session (snd (script Sample.api_service
                          (Sample.widgets_chat Sample.prompt) Sample.start)))
  = match
      last_response
        (session (snd (script Sample.api_service
                              (Sample.widgets_chat Sample.prompt)
                              Sample.start)))
    with
    | Some d => dict_get "query_id" d
    | None => JNull
    end.
Proof.
  apply (query_id_follows_last_response Sample.api_service
           (snd (script Sample.api_service
                        (Sample.widgets_chat Sample.prompt) Sample.start))).
  apply reachable_run. apply reachable_init.
Defined.

(** ** The history can always be shown again *)

Lemma update_last_forallb {A} (p : A -> bool) f l l' :
  (forall x, p x = true -> p (f x) = true) ->
  update_last f l = Some l' ->
  forallb p l = true -> forallb p l' = true.
Proof.
  intros Hf Hu H.
  destruct (update_last_some _ _ _ Hu) as (c & m & -> & ->).
  rewrite forallb_app in *. apply andb_true_iff in H. destruct H as [Hc Hm].
  rewrite Hc. cbn [forallb andb] in *. rewrite andb_true_r in *.
  apply Hf. exact Hm.
Qed.

Lemma assign_last_displayable f :
  (forall m, msg_sources (f m) = msg_sources m) ->
  preserves
    (on_session (fun s => forallb message_displayable (conversation s) = true))
    (assign_last f).
Proof.
  intros Hf w H. unfold on_session, assign_last in *. run_monad.
  destruct (update_last f (conversation (session w))) as [c|] eqn:Hu;
    [|exact H].
  cbn [snd session set_conversation conversation].
  apply (update_last_forallb message_displayable f _ _) with (2 := Hu);
    [|exact H].
  intros m Hm. unfold message_displayable in *. rewrite Hf. exact Hm.
Qed.

Lemma chat_input_handler_displayable api wd :
  preserves
    (on_session (fun s => forallb message_displayable (conversation s) = true))
    (chat_input_handler api wd).
Proof.
  intros w H. unfold on_session in *. unfold chat_input_handler.
  destruct (chat_input wd) as [prompt|]; [|exact H].
  destruct (truthy (JStr prompt)); [|exact H].
  destruct (List.length (strip prompt) <? 3)%nat; [exact H|].
  unfold append_message. run_monad.
  match goal with
  | |- context [send_query api prompt ?f ?l ?w0] =>
      pose proof (send_query_frame api prompt f l w0) as [Hconv _];
      destruct (send_query api prompt f l w0) as [[r|e] w1]
  end; cbn [snd session conversation set_conversation] in *.
  2:{ rewrite Hconv, forallb_app, H. reflexivity. }
  assert (Hbase : forallb message_displayable (conversation (session w1))
                  = true).
  { rewrite Hconv, forallb_app, H. reflexivity. }
  destruct r as [d|]; [|exact Hbase].
  destruct (truthy (JObj d)); [|exact Hbase].
  unfold subscript, method_get.
  destruct (dict_lookup "answer" d) as [answer|]; run_monad; [|exact Hbase].
  destruct (dict_lookup "retrieved_documents" d) as [docs|]; run_monad;
    [|exact Hbase].
  destruct (documents_displayable docs) eqn:Hshow.
  - rewrite (display_documents_returns docs w1 Hshow).
    cbn [snd session conversation set_conversation].
    rewrite forallb_app, Hbase. cbn [forallb andb].
    unfold message_displayable. cbn [msg_sources]. rewrite Hshow.
    rewrite orb_true_r. reflexivity.
  - destruct (display_documents_raises docs w1 Hshow) as [e He].
    rewrite He. exact Hbase.
Qed.

Lemma script_keeps_displayable api wd :
  preserves
    (on_session (fun s => forallb message_displayable (conversation s) = true))
    (script api wd).
Proof.
  apply keeps_script.
  - apply chat_input_handler_displayable.
  - intros api' t ct cm. apply keeps_submit_feedback_from_steps.
    intros k t'. apply keeps_fb_assign. intros s fg H. exact H.
  - intros v. apply assign_last_displayable. reflexivity.
  - intros v. apply assign_last_displayable. reflexivity.
  - intros w H. reflexivity.
  - unfold sidebar_settings. apply keeps_modify_session. intros s H. exact H.
Qed.

Lemma display_message_returns m w :
  message_displayable m = true -> display_message m w = (Ret tt, w).
Proof.
  unfold message_displayable, display_message.
  destruct (msg_sources m) as [docs|]; [|reflexivity].
  destruct (truthy docs); [|reflexivity].
  cbn [negb orb]. apply display_documents_returns.
Qed.

Lemma display_history_returns w :
  forallb message_displayable (conversation (session w)) = true ->
  display_history w = (Ret tt, w).
Proof.
  unfold display_history. run_monad.
  generalize (conversation (session w)). intros c.
  induction c as [|m c IH]; intros H; [reflexivity|].
  cbn [forallb] in H. apply andb_true_iff in H. destruct H as [Hm Hc].
  cbn [for_each]. unfold bind. rewrite (display_message_returns m w Hm).
  apply IH. exact Hc.
Qed.

(** X19: in every state a session reaches, the loop that shows the
    conversation history returns normally and changes nothing: a turn is only
    stored once its sources were shown without raising, and the correction
    and reflection handlers never touch the sources. *)
Theorem history_always_displayable api w :
  reachable api w -> display_history w = (Ret tt, w).
Proof.
  intros Hr. apply display_history_returns.
  induction Hr as [|w wd Hr IH].
  - reflexivity.
  - exact (script_keeps_displayable api wd w IH).
Qed.

Lemma history_always_displayable_witness :
  display_history
    (snd (script Sample.api_service Sample.widgets_positive
            (snd (script Sample.api_service
                    (Sample.widgets_chat Sample.prompt) Sample.start))))
  = (Ret tt,
     snd (script Sample.api_service Sample.widgets_positive
            (snd (script Sample.api_service
                    (Sample.widgets_chat Sample.prompt) Sample.start)))).
Proof.
  apply (history_always_displayable Sample.api_service).
  apply reachable_run. apply reachable_run. apply reachable_init.
Defined.

(** ** What the feedback section leaves alone *)

Lemma assign_last_roles_and_sources f L :
  (forall m, msg_role (f m) = msg_role m /\ msg_sources (f m) = msg_sources m) ->
  preserves
    (on_session (fun s => roles_and_sources (conversation s) = L))
    (assign_last f).
Proof.
  intros Hf w H. unfold on_session, assign_last in *. run_monad.
  destruct (update_last f (conversation (session w))) as [c|] eqn:Hu;
    [|exact H].
  cbn [snd session set_conversation conversation].
  destruct (update_last_some _ _ _ Hu) as (c0 & m & Hc & ->).
  rewrite <- H, Hc. unfold roles_and_sources. rewrite !map_app.
  cbn [map]. destruct (Hf m) as [-> ->]. reflexivity.
Qed.

Lemma feedback_section_keeps (I : session_state -> Prop) api wd :
  (forall s fg, I s -> I (set_feedback_given fg s)) ->
  (forall v, preserves (on_session I) (assign_last (set_reflection v))) ->
  (forall v, preserves (on_session I) (assign_last (set_content v))) ->
  preserves (on_session I) (feedback_section api wd).
Proof.
  intros Hfb Hr Hc. apply keeps_feedback_section.
  - intros api' t ct cm. apply keeps_submit_feedback_from_steps.
    intros k t'. apply keeps_fb_assign. exact Hfb.
  - exact Hr.
  - exact Hc.
Qed.

(** X20: whatever is clicked in the feedback section and whatever the
    service answers, the section never adds, removes or reorders a turn and
    never changes the role or the sources of one; it also leaves the current
    query identifier, the last response and the settings as they were.  Only
    the content and the reflection of the last turn, and [feedback_given],
    can differ afterwards. *)
Theorem feedback_section_frame api wd w :
  roles_and_sources (conversation (session (snd (feedback_section api wd w))))
  = roles_and_sources (conversation (session w)) /\
  List.length (conversation (session (snd (feedback_section api wd w))))
  = List.length (conversation (session w)) /\
  removelast (conversation (session (snd (feedback_section api wd w))))
  = removelast (conversation (session w)) /\
  current_query_id (session (snd (feedback_section api wd w)))
  = current_query_id (session w) /\
  last_response (session (snd (feedback_section api wd w)))
  = last_response (session w) /\
  model_settings (session (snd (feedback_section api wd w)))
  = model_settings (session w).
Proof.
  assert (Hrs : roles_and_sources
                  (conversation (session (snd (feedback_section api wd w))))
                = roles_and_sources (conversation (session w))).
  { apply (feedback_section_keeps
             (fun s => roles_and_sources (conversation s)
                       = roles_and_sources (conversation (session w)))
             api wd).
    - intros s fg H. exact H.
    - intros v. apply assign_last_roles_and_sources.
      intros m. split; reflexivity.
    - intros v. apply assign_last_roles_and_sources.
      intros m. split; reflexivity.
    - reflexivity. }
  split; [exact Hrs|]. split; [|split; [|split; [|split]]].
  - unfold roles_and_sources in Hrs.
    rewrite <- (length_map (fun m => (msg_role m, msg_sources m))), Hrs.
    apply length_map.
  - apply (feedback_section_keeps
             (fun s => removelast (conversation s)
                       = removelast (conversation (session w)))
             api wd).
    + intros s fg H. exact H.
    + intros v w0 H. unfold on_session, assign_last in *. run_monad.
      destruct (update_last (set_reflection v) (conversation (session w0)))
        as [c|] eqn:Hu; [|exact H].
      cbn [snd session set_conversation conversation].
      destruct (update_last_some _ _ _ Hu) as (c0 & m & Hc & ->).
      rewrite <- H, Hc, !removelast_last. reflexivity.
    + intros v w0 H. unfold on_session, assign_last in *. run_monad.
      destruct (update_last (set_content v) (conversation (session w0)))
        as [c|] eqn:Hu; [|exact H].
      cbn [snd session set_conversation conversation].
      destruct (update_last_some _ _ _ Hu) as (c0 & m & Hc & ->).
      rewrite <- H, Hc, !removelast_last. reflexivity.
    + reflexivity.
  - apply (feedback_section_keeps
             (fun s => current_query_id s = current_query_id (session w))
             api wd).
    + intros s fg H. exact H.
    + intros v. apply keeps_assign_last. intros s c H. exact H.
    + intros v. apply keeps_assign_last. intros s c H. exact H.
    + reflexivity.
  - apply (feedback_section_keeps
             (fun s => last_response s = last_response (session w))
             api wd).
    + intros s fg H. exact H.
    + intros v. apply keeps_assign_last. intros s c H. exact H.
    + intros v. apply keeps_assign_last. intros s c H. exact H.
    + reflexivity.
  - apply (feedback_section_keeps
             (fun s => model_settings s = model_settings (session w))
             api wd).
    + intros s fg H. exact H.
    + intros v. apply keeps_assign_last. intros s c H. exact H.
    + intros v. apply keeps_assign_last. intros s c H. exact H.
    + reflexivity.
Qed.

(** ** Feedback on one query leaves the others alone *)

Lemma fb_get_set_other k q t d :
  key_eqb k q = false -> fb_get k (fb_set q t d) = fb_get k d.
Proof.
  intros Hk. induction d as [|[k' t'] d IH]; cbn [fb_set fb_get].
  - rewrite Hk. reflexivity.
  - destruct (key_eqb q k') eqn:Eq; cbn [fb_get].
    + assert (Ek : key_eqb k k' = false).
      { destruct (key_eqb k k') eqn:Ek; [|reflexivity].
        rewrite key_eqb_sym in Eq.
        rewrite (key_eqb_trans _ _ _ Ek Eq) in Hk. discriminate Hk. }
      rewrite Ek. reflexivity.
    + destruct (key_eqb k k'); [reflexivity|exact IH].
Qed.

Lemma submit_feedback_other_keys api t ct cm k r v :
  (forall d q,
      r = Some d -> dict_lookup "query_id" d = Some q ->
      key_eqb k q = false) ->
  preserves
    (on_session (fun s => last_response s = r /\
                          fb_get k (feedback_given s) = v))
    (submit_feedback api t ct cm).
Proof.
  intros Hk w [Hl Hv]. unfold on_session.
  destruct (no_active_query (session w)) eqn:Hg.
  - rewrite (submit_feedback_no_query _ _ _ _ _ Hg). split; assumption.
  - destruct (no_active_query_false _ Hg) as (d & q & Hd & Hq & Ht).
    assert (Ha : active_query w d q) by (repeat split; assumption).
    destruct (reply_cases 201 (next_reply api w (feedback_request q t ct cm)))
      as [(text & body & Hr)|Hf].
    + destruct (hashable q) eqn:Hh.
      * rewrite (submit_feedback_201 _ _ _ _ _ _ _ _ _ Ha Hh Hr).
        cbn [snd session set_feedback_given last_response feedback_given].
        split; [exact Hl|].
        rewrite fb_get_set_other; [exact Hv|].
        apply (Hk d q); [rewrite <- Hl; exact Hd|exact Hq].
      * unfold next_reply, feedback_request in Hr.
        unfold submit_feedback. run_monad. rewrite Hg.
        rewrite (last_response_query_id_ok _ _ _ Hd Hq).
        unfold requests_post, http. rewrite Hr.
        cbn [r_status_code r_text r_json].
        change (201 =? 201)%Z with true. cbn [session http_log notices].
        rewrite (last_response_query_id_ok _ d q) by assumption.
        unfold fb_assign. rewrite Hh. run_monad. cbn [snd session].
        split; assumption.
    + destruct (submit_feedback_fails _ _ _ _ _ _ _ Ha Hf) as [n Hn].
      rewrite Hn. split; assumption.
Qed.

(** X21: whatever is clicked in the feedback section, the entry that
    [feedback_given] holds for a key other than the query identifier of the
    last response is the same afterwards: feedback is only ever filed under
    the identifier of the last response. *)
Theorem feedback_leaves_other_queries api wd w k :
  (forall d q,
      last_response (session w) = Some d ->
      dict_lookup "query_id" d = Some q ->
      key_eqb k q = false) ->
  fb_get k (feedback_given (session (snd (feedback_section api wd w))))
  = fb_get k (feedback_given (session w)).
Proof.
  intros Hk.
  apply (keeps_feedback_section
           (fun s => last_response s = last_response (session w) /\
                     fb_get k (feedback_given s)
                     = fb_get k (feedback_given (session w)))).
  - intros api' t ct cm. apply submit_feedback_other_keys. exact Hk.
  - intros v. apply keeps_assign_last. intros s c H. exact H.
  - intros v. apply keeps_assign_last. intros s c H. exact H.
  - split; reflexivity.
Qed.

Lemma feedback_leaves_other_queries_witness :
  fb_get (JStr (lit "q1"))
         (feedback_given
            (session
               (snd (feedback_section Sample.api_service
                       (Scenario.widgets_all (lit "fix"))
                       (mkWorld
                          (set_last_response (Some Scenario.body_no_answer)
                                             (session Sample.rated))
                          [] [])))))
  = fb_get (JStr (lit "q1"))
           (feedback_given
              (session
                 (mkWorld
                    (set_last_response (Some Scenario.body_no_answer)
                                       (session Sample.rated))
                    [] []))).
Proof.
  apply (feedback_leaves_other_queries Sample.api_service
           (Scenario.widgets_all (lit "fix"))
           (mkWorld (set_last_response (Some Scenario.body_no_answer)
                                       (session Sample.rated))
                    [] [])
           (JStr (lit "q1"))).
  intros d q Hd Hq. injection Hd as <-. injection Hq as <-. reflexivity.
Defined.

(** The witness is not vacuous: in that run feedback is filed under "q2". *)
Example sample_feedback_filed_under_last_response :
  feedback_given
    (session
       (snd (feedback_section Sample.api_service
               (Scenario.widgets_all (lit "fix"))
               (mkWorld
                  (set_last_response (Some Scenario.body_no_answer)
                                     (session Sample.rated))
                  [] []))))
  = [(JStr (lit "q1"), POSITIVE); (JStr (lit "q2"), CORRECTION)].
Proof. vm_compute. reflexivity. Qed.

(** ** A run without a user action *)

(** X22: a run of the script in which nothing is clicked or submitted (a
    rerun, or a change of a sidebar widget) leaves the conversation,
    [feedback_given], the current query identifier and the last response as
    they were, whatever the service answers and even when the run ends on an
    exception; only the settings are rewritten from the sidebar.  Such a run
    issues no request other than GET /stats. *)
Theorem idle_run_keeps_session api wd w :
  clear_clicked wd = false ->
  chat_input wd = None ->
  positive_clicked wd = false ->
  negative_clicked wd = false ->
  reflect_clicked wd = false ->
  correction_submitted wd = false ->
  session (snd (script api wd w))
  = set_model_settings (widget_settings wd) (session w) /\
  exists gets,
    http_log (snd (script api wd w)) = http_log w ++ gets /\
    Forall (fun rq => rq = GET "/stats") gets.
Proof.
  intros Hclear Hchat Hpos Hneg Hrefl Hcorr.
  change (script api wd w)
    with ((clear_button wd ;;;
           sidebar_statistics api ;;;
           display_history ;;;
           chat_input_handler api wd ;;;
           feedback_section api wd ;;;
           sidebar_status api)
            (mkWorld (set_model_settings (widget_settings wd) (session w))
                     (http_log w) (notices w))).
  match goal with
  | |- context [snd ?run] => destruct run as [o w'] eqn:E
  end.
  cbn [snd].
  unfold clear_button in E. rewrite Hclear in E. unfold when in E.
  unfold bind at 1 in E. unfold ret at 1 in E.
  unfold bind at 1 in E.
  match type of E with
  | context [sidebar_statistics api ?w1] =>
      destruct (sidebar_statistics_effect api w1) as (ns & Hstat & _)
  end.
  rewrite Hstat in E. cbn [session http_log notices] in E. clear Hstat.
  unfold bind at 1 in E.
  match type of E with
  | context [display_history ?w2] =>
      pose proof (display_history_world w2) as Hh;
      destruct (display_history w2) as [[u|e] w3]
  end; cbn [snd] in Hh; subst w3.
  2:{ injection E as <- <-. cbn [session http_log]. split; [reflexivity|].
      exists [GET "/stats"]. split; [reflexivity|].
      repeat constructor. }
  unfold bind at 1 in E. unfold chat_input_handler in E.
  rewrite Hchat in E. unfold ret at 1 in E.
  unfold bind at 1 in E. unfold feedback_section in E.
  unfold bind at 1 in E.
  match type of E with
  | context [feedback_gate ?w2] =>
      pose proof (feedback_gate_world w2) as Hg;
      destruct (feedback_gate w2) as [[open|e] w3]
  end; cbn [snd] in Hg; subst w3.
  2:{ injection E as <- <-. cbn [session http_log]. split; [reflexivity|].
      exists [GET "/stats"]. split; [reflexivity|].
      repeat constructor. }
  rewrite Hpos, Hneg, Hrefl, Hcorr in E.
  assert (Hsec : forall w0 : world,
             when open
               (when false (_ <- submit_feedback api POSITIVE JNull JNull ;;
                            ret tt) ;;;
                when false (_ <- submit_feedback api NEGATIVE JNull JNull ;;
                            ret tt) ;;;
                when false (reflect_button api) ;;;
                when false (correction_form api wd)) w0
             = (Ret tt, w0)).
  { intros w0. destruct open; reflexivity. }
  rewrite Hsec in E.
  match type of E with
  | context [sidebar_status api ?w2] =>
      destruct (sidebar_status_effect api w2) as (n & Hstatus)
  end.
  rewrite Hstatus in E. injection E as <- <-.
  cbn [session http_log]. split; [reflexivity|].
  exists [GET "/stats"; GET "/stats"]. rewrite <- app_assoc.
  split; [reflexivity|]. repeat constructor.
Qed.

Lemma idle_run_keeps_session_witness :
  session (snd (script Sample.api_down Sample.widgets_idle Sample.rated))
  = set_model_settings (widget_settings Sample.widgets_idle)
                       (session Sample.rated) /\
  exists gets,
    http_log (snd (script Sample.api_down Sample.widgets_idle Sample.rated))
    = http_log Sample.rated ++ gets /\
    Forall (fun rq => rq = GET "/stats") gets.
Proof.
  apply (idle_run_keeps_session Sample.api_down Sample.widgets_idle
           Sample.rated); reflexivity.
Defined.

(** ** How the conversation grows *)

(** What the chat input handler does to the conversation, in every case. *)
Lemma chat_input_handler_turns api wd w :
  conversation (session (snd (chat_input_handler api wd w)))
  = conversation (session w)
  \/ (exists prompt,
         conversation (session (snd (chat_input_handler api wd w)))
         = conversation (session w) ++ [user_message prompt])
  \/ (exists prompt a,
         msg_role a = assistant /\
         conversation (session (snd (chat_input_handler api wd w)))
         = conversation (session w) ++ [user_message prompt; a]).
Proof.
  unfold chat_input_handler.
  destruct (chat_input wd) as [prompt|]; [|left; reflexivity].
  destruct (truthy (JStr prompt)); [|left; reflexivity].
  destruct (List.length (strip prompt) <? 3)%nat; [left; reflexivity|].
  unfold append_message. run_monad.
  match goal with
  | |- context [send_query api prompt ?f ?l ?w0] =>
      pose proof (send_query_frame api prompt f l w0) as [Hconv _];
      destruct (send_query api prompt f l w0) as [[r|e] w1]
  end; cbn [snd session conversation set_conversation] in *.
  2:{ right. left. exists prompt. exact Hconv. }
  assert (Hbase :
            exists p, conversation (session w1)
                      = conversation (session w) ++ [user_message p]).
  { exists prompt. exact Hconv. }
  destruct r as [d|]; [|right; left; exact Hbase].
  destruct (truthy (JObj d)); [|right; left; exact Hbase].
  unfold subscript, method_get.
  destruct (dict_lookup "answer" d) as [answer|]; run_monad;
    [|right; left; exact Hbase].
  destruct (dict_lookup "retrieved_documents" d) as [docs|]; run_monad;
    [|right; left; exact Hbase].
  pose proof (display_documents_world docs w1) as Hw.
  destruct (display_documents docs w1) as [[u|e] w2]; cbn [snd] in Hw;
    subst w2; [|right; left; exact Hbase].
  cbn [snd session conversation set_conversation].
  right. right.
  exists prompt, (mkMessage assistant answer (Some docs)
                            (Some (dict_get "reflection" d))).
  split; [reflexivity|]. rewrite Hconv, <- app_assoc. reflexivity.
Qed.

Lemma answers_follow_user asked c m :
  msg_role m = user ->
  answers_follow_questions asked (c ++ [m]) = answers_follow_questions asked c.
Proof.
  intros Hm. revert asked. induction c as [|x c IH]; intros asked.
  - cbn. rewrite Hm. reflexivity.
  - cbn [app answers_follow_questions].
    destruct (msg_role x); rewrite IH; reflexivity.
Qed.

Lemma answers_follow_exchange asked c u a :
  msg_role u = user -> msg_role a = assistant ->
  answers_follow_questions asked (c ++ [u; a])
  = answers_follow_questions asked c.
Proof.
  intros Hu Ha. revert asked. induction c as [|x c IH]; intros asked.
  - cbn. rewrite Hu, Ha. reflexivity.
  - cbn [app answers_follow_questions].
    destruct (msg_role x); rewrite IH; reflexivity.
Qed.

Lemma answers_follow_roles c : forall c' asked,
  map msg_role c = map msg_role c' ->
  answers_follow_questions asked c = answers_follow_questions asked c'.
Proof.
  induction c as [|x c IH]; intros [|x' c'] asked H; try discriminate H.
  - reflexivity.
  - cbn [map] in H. injection H as Hx Hc.
    cbn [answers_follow_questions]. rewrite Hx.
    destruct (msg_role x'); rewrite (IH c' _ Hc); reflexivity.
Qed.

Lemma assign_last_answers f :
  (forall m, msg_role (f m) = msg_role m) ->
  preserves
    (on_session
       (fun s => answers_follow_questions false (conversation s) = true))
    (assign_last f).
Proof.
  intros Hf w H. unfold on_session, assign_last in *. run_monad.
  destruct (update_last f (conversation (session w))) as [c|] eqn:Hu;
    [|exact H].
  cbn [snd session set_conversation conversation].
  destruct (update_last_some _ _ _ Hu) as (c0 & m & Hc & ->).
  rewrite <- H, Hc. apply answers_follow_roles.
  rewrite !map_app. cbn [map]. rewrite Hf. reflexivity.
Qed.

Lemma script_keeps_answers api wd :
  preserves
    (on_session
       (fun s => answers_follow_questions false (conversation s) = true))
    (script api wd).
Proof.
  apply keeps_script.
  - intros api' wd' w H. unfold on_session in *.
    destruct (chat_input_handler_turns api' wd' w)
      as [E | [(p & E) | (p & a & Ha & E)]]; rewrite E.
    + exact H.
    + rewrite answers_follow_user; [exact H|reflexivity].
    + rewrite answers_follow_exchange; [exact H|reflexivity|exact Ha].
  - intros api' t ct cm. apply keeps_submit_feedback_from_steps.
    intros k t'. apply keeps_fb_assign. intros s fg H. exact H.
  - intros v. apply assign_last_answers. reflexivity.
  - intros v. apply assign_last_answers. reflexivity.
  - intros w H. reflexivity.
  - unfold sidebar_settings. apply keeps_modify_session. intros s H. exact H.
Qed.

(** X23: in every state a session reaches, each assistant turn of the
    conversation comes directly after a user turn: the conversation never
    starts with an assistant turn and never holds two assistant turns in a
    row (two user turns in a row do occur, after a failed query). *)
Theorem answers_follow_their_question api w :
  reachable api w ->
  answers_follow_questions false (conversation (session w)) = true.
Proof.
  induction 1 as [|w wd Hr IH].
  - reflexivity.
  - exact (script_keeps_answers api wd w IH).
Qed.

Lemma answers_follow_their_question_witness :
  answers_follow_questions false
    (conversation
       (session
          (snd (script Scenario.api_flaky
                  (Sample.widgets_chat Sample.theft_prompt)
                  (snd (script Scenario.api_flaky
                          (Sample.widgets_chat Sample.prompt)
                          Sample.start))))))
  = true.
Proof.
  apply (answers_follow_their_question Scenario.api_flaky).
  apply reachable_run. apply reachable_run. apply reachable_init.
Defined.

(** In that session the first query fails and the second is answered. *)
Example sample_flaky_session_roles :
  map msg_role
    (conversation
       (session
          (snd (script Scenario.api_flaky
                  (Sample.widgets_chat Sample.theft_prompt)
                  (snd (script Scenario.api_flaky
                          (Sample.widgets_chat Sample.prompt)
                          Sample.start))))))
  = [user; user; assistant].
Proof. vm_compute. reflexivity. Qed.

Lemma feedback_section_roles_and_sources api wd w :
  roles_and_sources (conversation (session (snd (feedback_section api wd w))))
  = roles_and_sources (conversation (session w)).
Proof.
  apply (feedback_section_keeps
           (fun s => roles_and_sources (conversation s)
                     = roles_and_sources (conversation (session w)))
           api wd).
  - intros s fg H. exact H.
  - intros v. apply assign_last_roles_and_sources.
    intros m. split; reflexivity.
  - intros v. apply assign_last_roles_and_sources.
    intros m. split; reflexivity.
  - reflexivity.
Qed.

Lemma chat_input_handler_roles_and_sources api wd w :
  exists tl,
    roles_and_sources
      (conversation (session (snd (chat_input_handler api wd w))))
    = roles_and_sources (conversation (session w)) ++ tl /\
    (List.length tl <= 2)%nat.
Proof.
  destruct (chat_input_handler_turns api wd w)
    as [E | [(p & E) | (p & a & Ha & E)]]; rewrite E.
  - exists []. rewrite app_nil_r. split; [reflexivity|simpl; lia].
  - exists (roles_and_sources [user_message p]).
    unfold roles_and_sources. rewrite map_app.
    split; [reflexivity|simpl; lia].
  - exists (roles_and_sources [user_message p; a]).
    unfold roles_and_sources. rewrite map_app.
    split; [reflexivity|simpl; lia].
Qed.

(** X24: a run in which "Clear Conversation" is not clicked never removes
    or reorders a turn and never changes the role or the sources of one: the
    roles and sources of the old turns are a prefix of the new ones, and at
    most two turns are added, however the run ends. *)
Theorem run_without_clear_only_appends api wd w :
  clear_clicked wd = false ->
  exists tl,
    roles_and_sources (conversation (session (snd (script api wd w))))
    = roles_and_sources (conversation (session w)) ++ tl /\
    (List.length tl <= 2)%nat.
Proof.
  intros Hclear.
  change (script api wd w)
    with ((clear_button wd ;;;
           sidebar_statistics api ;;;
           display_history ;;;
           chat_input_handler api wd ;;;
           feedback_section api wd ;;;
           sidebar_status api)
            (mkWorld (set_model_settings (widget_settings wd) (session w))
                     (http_log w) (notices w))).
  match goal with
  | |- context [snd ?run] => destruct run as [o w'] eqn:E
  end.
  cbn [snd].
  assert (Hnone : exists tl,
             roles_and_sources (conversation (session w))
             = roles_and_sources (conversation (session w)) ++ tl /\
             (List.length tl <= 2)%nat).
  { exists []. rewrite app_nil_r. split; [reflexivity|simpl; lia]. }
  unfold clear_button in E. rewrite Hclear in E. unfold when in E.
  unfold bind at 1 in E. unfold ret at 1 in E.
  unfold bind at 1 in E.
  match type of E with
  | context [sidebar_statistics api ?w1] =>
      destruct (sidebar_statistics_effect api w1) as (ns & Hstat & _)
  end.
  rewrite Hstat in E. cbn [session http_log notices] in E. clear Hstat.
  unfold bind at 1 in E.
  match type of E with
  | context [display_history ?w2] =>
      pose proof (display_history_world w2) as Hh;
      destruct (display_history w2) as [[u|e] w3]
  end; cbn [snd] in Hh; subst w3.
  2:{ injection E as <- <-. exact Hnone. }
  unfold bind at 1 in E.
  match type of E with
  | context [chat_input_handler api wd ?w2] =>
      destruct (chat_input_handler_roles_and_sources api wd w2)
        as (tl & Hchat & Hlen);
      destruct (chat_input_handler api wd w2) as [[u'|e] w3]
  end; cbn [snd session set_model_settings conversation] in Hchat.
  2:{ injection E as <- <-. exists tl. split; assumption. }
  unfold bind at 1 in E.
  match type of E with
  | context [feedback_section api wd ?w2] =>
      pose proof (feedback_section_roles_and_sources api wd w2) as Hfb;
      destruct (feedback_section api wd w2) as [[u''|e] w4]
  end; cbn [snd] in Hfb.
  2:{ injection E as <- <-. exists tl. rewrite Hfb. split; assumption. }
  match type of E with
  | context [sidebar_status api ?w2] =>
      destruct (sidebar_status_effect api w2) as (n & Hstatus)
  end.
  rewrite Hstatus in E. injection E as <- <-. cbn [session].
  exists tl. rewrite Hfb. split; assumption.
Qed.

Lemma run_without_clear_only_appends_witness :
  exists tl,
    roles_and_sources
      (conversation
         (session (snd (script Sample.api_service
                               (Sample.widgets_chat Sample.theft_prompt)
                               Sample.answered))))
    = roles_and_sources (conversation (session Sample.answered)) ++ tl /\
    (List.length tl <= 2)%nat.
Proof.
  apply (run_without_clear_only_appends Sample.api_service
           (Sample.widgets_chat Sample.theft_prompt) Sample.answered).
  reflexivity.
Defined.

(** ** Feedback is kept *)

Lemma fb_mem_set k q t d :
  fb_mem k d = true -> fb_mem k (fb_set q t d) = true.
Proof.
  induction d as [|[k' t'] d IH]; cbn [fb_mem fb_set]; [discriminate|].
  intros H. destruct (key_eqb q k'); cbn [fb_mem].
  - exact H.
  - apply orb_true_iff in H. apply orb_true_iff.
    destruct H as [H|H]; [left; exact H|right; exact (IH H)].
Qed.

(** X25: a query identifier that is in [feedback_given] is still in it after
    any run of the script, whatever is clicked (the clear button included)
    and whatever the service answers: no run removes feedback. *)
Theorem feedback_is_never_removed api wd w k :
  fb_mem k (feedback_given (session w)) = true ->
  fb_mem k (feedback_given (session (snd (script api wd w)))) = true.
Proof.
  intros H.
  apply (preserves_script (fun d => fb_mem k d = true)
           (fun q t d => fb_mem_set k q t d) api wd w).
  exact H.
Qed.

Lemma feedback_is_never_removed_witness :
  fb_mem (JStr (lit "q1"))
         (feedback_given
            (session (snd (script Sample.api_service Scenario.widgets_clear
                                  Sample.rated))))
  = true.
Proof.
  apply (feedback_is_never_removed Sample.api_service Scenario.widgets_clear
           Sample.rated (JStr (lit "q1"))).
  reflexivity.
Defined.

(** ** Instances of the characterisations *)

Lemma display_document_returns_iff_witness :
  fst (display_document Sample.document 0 Sample.start) = Ret tt /\
  displayable (JObj [("text", JStr (lit "..."))]) = false.
Proof.
  split.
  - apply (proj2 (proj2 (display_document_returns_iff Sample.document 0
                           Sample.start))).
    reflexivity.
  - destruct (displayable (JObj [("text", JStr (lit "..."))])) eqn:E;
      [|reflexivity].
    exfalso.
    assert (H : fst (display_document (JObj [("text", JStr (lit "..."))]) 0
                                      Sample.start) = Ret tt).
    { apply (proj2 (proj2 (display_document_returns_iff
                             (JObj [("text", JStr (lit "..."))]) 0
                             Sample.start))).
      exact E. }
    discriminate H.
Defined.

Lemma display_documents_returns_iff_witness :
  fst (display_documents (JArr [Sample.document; Sample.document])
                         Sample.start) = Ret tt /\
  fst (display_documents (JStr []) Sample.start) = Ret tt.
Proof.
  split.
  - apply (proj2 (proj2 (display_documents_returns_iff
                           (JArr [Sample.document; Sample.document])
                           Sample.start))).
    reflexivity.
  - apply (proj2 (proj2 (display_documents_returns_iff (JStr [])
                           Sample.start))).
    reflexivity.
Defined.

Lemma feedback_shown_iff_witness :
  feedback_shown Sample.answered /\
  exists d q c m,
    last_response (session Sample.answered) = Some d /\
    dict_lookup "query_id" d = Some q /\
    hashable q = true /\
    fb_mem q (feedback_given (session Sample.answered)) = false /\
    conversation (session Sample.answered) = c ++ [m] /\
    msg_role m = assistant.
Proof.
  assert (H : feedback_shown Sample.answered).
  { apply (proj2 (proj2 (feedback_shown_iff Sample.answered))).
    exists Sample.body, (JStr (lit "q1")), [user_message Sample.prompt],
      (mkMessage assistant (JStr (lit "...")) (Some (JArr [Sample.document]))
                 (Some JNull)).
    repeat split. }
  split; [exact H|].
  apply (proj1 (proj2 (feedback_shown_iff Sample.answered))). exact H.
Defined.

(** ** A score too large for a float *)

(** The bound of [format_2f] is sharp on the integers. *)
Example float_overflow_bound :
  formats_2f (JNum (inject_Z (FLOAT_OVERFLOW - 1))) = true /\
  formats_2f (JNum (inject_Z FLOAT_OVERFLOW)) = false /\
  formats_2f (JNum (inject_Z (- FLOAT_OVERFLOW))) = false /\
  formats_2f (JNum (inject_Z (1 - FLOAT_OVERFLOW))) = true.
Proof. vm_compute. repeat split. Qed.

(** A document with the score 10^400 is not displayable: the format of its
    score raises OverflowError. *)
Example huge_score_raises :
  displayable Scenario.document_huge_score = false /\
  display_document Scenario.document_huge_score 0 Sample.start
  = (Raise OverflowError, Sample.start).
Proof. vm_compute. split; reflexivity. Qed.

(** A 200 reply that carries such a document leaves only the user turn in
    the conversation, and the handler raises. *)
Example huge_score_appends_no_assistant_turn :
  fst (chat_input_handler
         (Sample.api_reply 200 (Some (JObj Scenario.body_huge_score)))
         (Sample.widgets_chat Sample.prompt) Sample.start)
  = Raise OverflowError /\
  conversation
    (session
       (snd (chat_input_handler
               (Sample.api_reply 200 (Some (JObj Scenario.body_huge_score)))
               (Sample.widgets_chat Sample.prompt) Sample.start)))
  = [user_message Sample.prompt].
Proof. vm_compute. split; reflexivity. Qed.
